(** * Pay-per-use backend (Open Payments): the payment lifecycle tracker

    A shallow embedding of [src/backend/server.js]: the handlers
    [POST /create-payment], [GET /status/*], [POST /webhook] and
    [GET /payments], the [payments] table they share, and the JavaScript
    value model they run on
    (JSON values, truthiness, property access, [Number], [Math.round],
    [Number.prototype.toString], the conversions that throw). The
    statements on the table go through the driver's binding of the
    arguments of [run] (an array stands for its elements, a plain object
    for named parameters, a boolean cannot be bound) and through the type
    affinity of the columns.

    JavaScript numbers are IEEE-754 binary64 values; they are modelled by the
    Standard Library's [spec_float] at precision 53 and [emax] 1024, with the
    library's own correctly rounded operations. *)

From Stdlib Require Import ZArith QArith Qround Bool List String Ascii Lia.
From Stdlib Require Import SpecFloat DecimalString.
From Stdlib Require Import Sorted Permutation.
Import ListNotations.

Local Open Scope string_scope.
Local Open Scope Z_scope.

(* ===================================================================== *)
(** ** JavaScript numbers *)
(* ===================================================================== *)

Module JsNum.

Definition prec : Z := 53.
Definition emax : Z := 1024.

(** A JavaScript number. Finite non-zero values [S754_finite s m e] denote
    [(-1)^s * m * 2^e]; the values produced by the operations below are
    canonical ([valid_binary prec emax]). *)
Definition number : Type := spec_float.

Definition nan : number := S754_nan.
Definition pos_zero : number := S754_zero false.
Definition neg_zero : number := S754_zero true.
Definition pos_infinity : number := S754_infinity false.
Definition neg_infinity : number := S754_infinity true.

Definition mul : number -> number -> number := SFmul prec emax.
Definition add : number -> number -> number := SFadd prec emax.

(** [x <= y] and [x < y] of JavaScript: false as soon as one side is NaN. *)
Definition le (x y : number) : bool := SFleb x y.
Definition lt (x y : number) : bool := SFltb x y.

(** [Number.isNaN]. *)
Definition isNaN (x : number) : bool :=
  match x with S754_nan => true | _ => false end.

(** [Number.isFinite]. *)
Definition isFinite (x : number) : bool :=
  match x with S754_zero _ | S754_finite _ _ _ => true | _ => false end.

(** Same IEEE datum (used to compare canonical results; [-0] differs from
    [+0] and NaN equals NaN here). *)
Definition same (x y : number) : bool :=
  match x, y with
  | S754_nan, S754_nan => true
  | S754_zero a, S754_zero b => Bool.eqb a b
  | S754_infinity a, S754_infinity b => Bool.eqb a b
  | S754_finite a m e, S754_finite b m' e' =>
      Bool.eqb a b && Pos.eqb m m' && Z.eqb e e'
  | _, _ => false
  end.

(** The real number a finite value denotes. *)
Definition to_Q (x : number) : Q :=
  match x with
  | S754_finite s m e =>
      let v := match e with
               | Zneg k => Zpos m # (2 ^ k)
               | _ => (Zpos m * 2 ^ e) # 1
               end in
      if s then Qopp v else v
  | _ => 0%Q
  end.

(** The quotient [a / b] of two positive integers, rounded to the nearest
    number, ties to even. *)
Definition of_ratio (neg : bool) (a b : positive) : number :=
  let '(q, e, l) := SFdiv_core_binary prec emax (Zpos a) 0 (Zpos b) 0 in
  binary_round_aux prec emax neg q e l.

(** A positive integer as a number: exact when it fits the 53-bit
    significand (the significand is the integer shifted up to 53 bits),
    rounded to nearest-even otherwise. *)
Definition of_pos (neg : bool) (p : positive) : number :=
  let d := Zpos (digits2_pos p) in
  if d <=? prec
  then S754_finite neg (Pos.shiftl p (Z.to_N (prec - d))) (d - prec)
  else binary_round prec emax neg p 0.

Definition of_Z (z : Z) : number :=
  match z with
  | Z0 => pos_zero
  | Zpos p => of_pos false p
  | Zneg p => of_pos true p
  end.

(** [m * 10^e] for a decimal significand [m] and exponent [e], correctly
    rounded. Exponents far outside the binary64 range are cut off first so
    that no astronomically large power is ever built. *)
Definition of_decimal (neg : bool) (m : N) (e : Z) : number :=
  match m with
  | N0 => S754_zero neg
  | Npos p =>
      let digits := Z.of_nat (String.length (NilZero.string_of_uint (Pos.to_uint p))) in
      if 310 <? digits + e then S754_infinity neg
      else if digits + e <? -330 then S754_zero neg
      else match e with
           | Zneg k => of_ratio neg p (10 ^ k)
           | _ => of_ratio neg (p * Z.to_pos (10 ^ e)) 1
           end
  end.

(** The integer a number denotes, when it denotes one. *)
Definition to_integer (x : number) : option Z :=
  match x with
  | S754_zero _ => Some 0
  | S754_finite s m e =>
      let sgn z := if s then Z.opp z else z in
      match e with
      | Zneg k =>
          if (Zpos m mod Zpos (2 ^ k) =? 0)
          then Some (sgn (Zpos m / Zpos (2 ^ k)))
          else None
      | _ => Some (sgn (Zpos m * 2 ^ e))
      end
  | _ => None
  end.

(** Truncation toward zero of a finite number ([ToIntegerOrInfinity]). *)
Definition trunc (x : number) : Z :=
  match x with
  | S754_finite s m e =>
      let a := match e with
               | Zneg k => Zpos m / Zpos (2 ^ k)
               | _ => Zpos m * 2 ^ e
               end in
      if s then Z.opp a else a
  | _ => 0
  end.

(** [Math.round]: the integer closest to [x], the one toward [+inf] on a
    tie; NaN, the infinities and the zeros are returned as they are, and a
    result of zero keeps the sign of [x]. *)
Definition Math_round (x : number) : number :=
  match x with
  | S754_finite s m (Zneg k) =>
      let v := if s then Zneg m else Zpos m in
      let z := (2 * v + Zpos (2 ^ k)) / Zpos (2 ^ (k + 1)) in
      match z with
      | Z0 => S754_zero s
      | _ => of_Z z
      end
  | _ => x
  end.

(** [Math.pow(10, n)] for the small natural exponents used as asset scales:
    [10^n] is an exact number up to [n = 22]. *)
Definition Math_pow10 (n : N) : number := of_Z (10 ^ Z.of_N n).

(** *** Decimal text *)

(** Base-10 text of an integer: an optional minus sign and the digits, with
    no leading zero. *)
Definition Z_to_string (z : Z) : string := NilZero.string_of_int (Z.to_int z).

Fixpoint repeat_zero (n : nat) : string :=
  match n with
  | O => EmptyString
  | S n' => String "0" (repeat_zero n')
  end.

Fixpoint strip_trailing_zeros_rev (s : list ascii) : list ascii :=
  match s with
  | "0"%char :: s' => strip_trailing_zeros_rev s'
  | _ => s
  end.

Definition strip_trailing_zeros (s : string) : string :=
  string_of_list_ascii
    (rev (strip_trailing_zeros_rev (rev (list_ascii_of_string s)))).

Section Shortest.
(** The positive real [a / b] to print, and the number [x] it is the
    value of. *)
Variable x : number.
Variables a b : Z.

(** [a / b < 10^n]. *)
Definition below_pow10 (n : Z) : bool :=
  match n with
  | Zneg k => a * Zpos (10 ^ k) <? b
  | _ => a <? b * 10 ^ n
  end.

(** The least [n' >= n] with [a / b < 10^n'], searched upwards. *)
Fixpoint decimal_exponent (fuel : nat) (n : Z) : Z :=
  match fuel with
  | O => n
  | S fuel' =>
      if below_pow10 n then n else decimal_exponent fuel' (n + 1)
  end.

(** [floor ((a / b) / 10^t)]. *)
Definition scaled_floor (t : Z) : Z :=
  match t with
  | Zneg j => (a * Zpos (10 ^ j)) / b
  | _ => a / (b * 10 ^ t)
  end.

(** [s * 10^t] reads back as [x]. *)
Definition reads_back (s t : Z) : bool :=
  same (of_decimal false (Z.to_N s) t) x.

(** [|a / b - s * 10^t|] up to the factor common to all [s] at a given
    [t]. *)
Definition distance (s t : Z) : Z :=
  match t with
  | Zneg j => Z.abs (a * Zpos (10 ^ j) - s * b)
  | _ => Z.abs (a - s * b * 10 ^ t)
  end.

(** With [k] digits: the candidate significand that reads back as [x], the
    closest to [a / b] when both neighbours do, the even one on a tie. *)
Definition candidate (n0 k : Z) : option (Z * Z) :=
  let t := n0 - k in
  let lo := scaled_floor t in
  let hi := lo + 1 in
  match reads_back lo t, reads_back hi t with
  | true, true =>
      if distance lo t <? distance hi t then Some (lo, t)
      else if distance hi t <? distance lo t then Some (hi, t)
      else if Z.even lo then Some (lo, t) else Some (hi, t)
  | true, false => Some (lo, t)
  | false, true => Some (hi, t)
  | false, false => None
  end.

(** The first digit count, from [k] on, at which a candidate exists. *)
Fixpoint shortest_from (fuel : nat) (n0 k : Z) : Z * Z :=
  match fuel with
  | O => (scaled_floor (n0 - k), n0 - k)
  | S fuel' =>
      match candidate n0 k with
      | Some st => st
      | None => shortest_from fuel' n0 (k + 1)
      end
  end.

(** Digits [d1 d2 ... dk] (the last one not 0) and the position [n] of the
    decimal point: [x] is the number closest to [0.d1...dk * 10^n] and [k]
    is as small as possible. *)
Definition shortest_digits : string * Z :=
  let n0 := decimal_exponent 640 (-323) in
  let '(s, t) := shortest_from 17 n0 1 in
  let ds := Z_to_string s in
  (strip_trailing_zeros ds, t + Z.of_nat (String.length ds)).
End Shortest.

(** The text of a positive finite number from its digits and the position of
    the decimal point, as [Number::toString] lays it out. *)
Definition layout (ds : string) (n : Z) : string :=
  let k := Z.of_nat (String.length ds) in
  if (-5 <=? n) && (n <=? 21) then
    if k <=? n then ds ++ repeat_zero (Z.to_nat (n - k))
    else if 0 <? n then
      substring 0 (Z.to_nat n) ds ++ "." ++
      substring (Z.to_nat n) (Z.to_nat (k - n)) ds
    else "0." ++ repeat_zero (Z.to_nat (- n)) ++ ds
  else
    let e := n - 1 in
    let es := (if e <? 0 then "-" else "+") ++ Z_to_string (Z.abs e) in
    if k =? 1 then ds ++ "e" ++ es
    else substring 0 1 ds ++ "." ++ substring 1 (Z.to_nat (k - 1)) ds
         ++ "e" ++ es.

Definition positive_toString (m : positive) (e : Z) : string :=
  let x := S754_finite false m e in
  match to_integer x with
  | Some z =>
      if z <? 2 ^ 53 then Z_to_string z
      else let '(ds, n) := shortest_digits x z 1 in layout ds n
  | None =>
      let '(ds, n) :=
        match e with
        | Zneg k => shortest_digits x (Zpos m) (Zpos (2 ^ k))
        | _ => shortest_digits x (Zpos m * 2 ^ e) 1
        end in
      layout ds n
  end.

(** [Number.prototype.toString()] in radix 10. An integer below [2^53] is
    its own shortest decimal, so it is printed digit for digit; any other
    finite value goes through the shortest digits that read back. *)
Definition Number_toString (x : number) : string :=
  match x with
  | S754_nan => "NaN"
  | S754_zero _ => "0"
  | S754_infinity s => if s then "-Infinity" else "Infinity"
  | S754_finite s m e =>
      (if s then "-" else EmptyString) ++ positive_toString m e
  end.

(** *** Reading a number from text ([StringToNumber]) *)

(** A text is the sequence of its UTF-8 bytes. White space and line
    terminators ([StrWhiteSpaceChar]) are TAB, LF, VT, FF, CR, SP, U+00A0,
    U+1680, U+2000 to U+200A, U+2028, U+2029, U+202F, U+205F, U+3000 and
    U+FEFF; each is listed by its bytes. *)
Definition white_space : list (list N) :=
  [[9]; [10]; [11]; [12]; [13]; [32];
   [194; 160];
   [225; 154; 128];
   [226; 128; 128]; [226; 128; 129]; [226; 128; 130]; [226; 128; 131];
   [226; 128; 132]; [226; 128; 133]; [226; 128; 134]; [226; 128; 135];
   [226; 128; 136]; [226; 128; 137]; [226; 128; 138];
   [226; 128; 168]; [226; 128; 169]; [226; 128; 175];
   [226; 129; 159];
   [227; 128; 128];
   [239; 187; 191]]%N.

(** [s] without the bytes [p] it starts with; [None] when it does not start
    with them. *)
Fixpoint after_bytes (p : list N) (s : list ascii) : option (list ascii) :=
  match p, s with
  | [], _ => Some s
  | b :: p', c :: s' =>
      if (N_of_ascii c =? b)%N then after_bytes p' s' else None
  | _ :: _, [] => None
  end.

(** [s] without the one character of [spaces] it starts with. *)
Fixpoint after_space (spaces : list (list N)) (s : list ascii)
  : option (list ascii) :=
  match spaces with
  | [] => None
  | p :: rest =>
      match after_bytes p s with
      | Some s' => Some s'
      | None => after_space rest s
      end
  end.

(** [s] without the characters of [spaces] it starts with. Every character
    taken off is at least one byte, so the length of [s] is fuel enough. *)
Fixpoint drop_spaces_upto (fuel : nat) (spaces : list (list N))
    (s : list ascii) : list ascii :=
  match fuel with
  | O => s
  | S fuel' =>
      match after_space spaces s with
      | Some s' => drop_spaces_upto fuel' spaces s'
      | None => s
      end
  end.

Definition drop_spaces (spaces : list (list N)) (s : list ascii)
  : list ascii :=
  drop_spaces_upto (List.length s) spaces s.

(** The text without the white space at its two ends; the end is trimmed
    on the reversed text, against the reversed bytes of each character. *)
Definition trim (s : string) : list ascii :=
  rev (drop_spaces (map (@rev N) white_space)
         (rev (drop_spaces white_space (list_ascii_of_string s)))).

(** The value of a digit in the given radix. *)
Definition digit_value (radix : N) (c : ascii) : option N :=
  let n := N_of_ascii c in
  let v := (if (48 <=? n) && (n <=? 57) then Some (n - 48)
            else if (97 <=? n) && (n <=? 122) then Some (n - 87)
            else if (65 <=? n) && (n <=? 90) then Some (n - 55)
            else None)%N in
  match v with
  | Some d => if (d <? radix)%N then Some d else None
  | None => None
  end.

(** The longest prefix of digits: its value, its length, and the rest. *)
Fixpoint read_digits (radix : N) (s : list ascii) (acc : N) (len : nat)
  : N * nat * list ascii :=
  match s with
  | c :: s' =>
      match digit_value radix c with
      | Some d => read_digits radix s' (acc * radix + d)%N (S len)
      | None => (acc, len, s)
      end
  | [] => (acc, len, [])
  end.

(** A whole string of at least one digit in the given radix. *)
Definition read_integer (radix : N) (s : list ascii) : option N :=
  match read_digits radix s 0%N 0%nat with
  | (v, S _, []) => Some v
  | _ => None
  end.

(** [ExponentPart]: [e] or [E], an optional sign, digits to the end. *)
Definition read_exponent (s : list ascii) : option Z :=
  match s with
  | [] => Some 0
  | c :: s' =>
      if (Ascii.eqb c "e" || Ascii.eqb c "E")%bool then
        match s' with
        | "-"%char :: ds => option_map (fun v => - Z.of_N v) (read_integer 10 ds)
        | "+"%char :: ds => option_map Z.of_N (read_integer 10 ds)
        | ds => option_map Z.of_N (read_integer 10 ds)
        end
      else None
  end.

(** [StrUnsignedDecimalLiteral]. *)
Definition read_unsigned_decimal (neg : bool) (s : list ascii) : number :=
  if list_eq_dec ascii_dec s (list_ascii_of_string "Infinity")
  then S754_infinity neg
  else
    let '(ip, ilen, rest) := read_digits 10 s 0%N 0%nat in
    let '(m, flen, rest') :=
      match rest with
      | "."%char :: r => read_digits 10 r ip 0%nat
      | _ => (ip, 0%nat, rest)
      end in
    match (ilen + flen)%nat with
    | O => nan
    | S _ =>
        match read_exponent rest' with
        | Some e => of_decimal neg m (e - Z.of_nat flen)
        | None => nan
        end
    end.

(** [StringToNumber]: the text without surrounding white space is empty
    (zero), a [0x], [0o] or [0b] integer, or a signed decimal literal;
    anything else is NaN. *)
Definition StringToNumber (s : string) : number :=
  match trim s with
  | [] => pos_zero
  | "0"%char :: p :: ds =>
      if (Ascii.eqb p "x" || Ascii.eqb p "X")%bool then
        match read_integer 16 ds with Some v => of_decimal false v 0 | None => nan end
      else if (Ascii.eqb p "o" || Ascii.eqb p "O")%bool then
        match read_integer 8 ds with Some v => of_decimal false v 0 | None => nan end
      else if (Ascii.eqb p "b" || Ascii.eqb p "B")%bool then
        match read_integer 2 ds with Some v => of_decimal false v 0 | None => nan end
      else read_unsigned_decimal false ("0"%char :: p :: ds)
  | "-"%char :: t => read_unsigned_decimal true t
  | "+"%char :: t => read_unsigned_decimal false t
  | t => read_unsigned_decimal false t
  end.

End JsNum.

(* ===================================================================== *)
(** ** JavaScript values *)
(* ===================================================================== *)

Module Js.
Import JsNum.

(** The values the handlers see: what [JSON.parse] builds, and [undefined]
    for a property that is not there. An object lists its properties in
    enumeration order (the order [JSON.stringify] writes them in). A string
    is the sequence of the UTF-8 bytes of its text. *)
#[warnings="-register-all"]
Inductive value : Type :=
  | VUndefined
  | VNull
  | VBool (b : bool)
  | VNum (n : number)
  | VStr (s : string)
  | VArr (elems : list value)
  | VObj (props : list (string * value)).

(** [ToBoolean]: what [if (v)], [!v], [v || w] and [v && w] test. *)
Definition truthy (v : value) : bool :=
  match v with
  | VUndefined | VNull => false
  | VBool b => b
  | VNum (S754_nan | S754_zero _) => false
  | VNum _ => true
  | VStr EmptyString => false
  | VStr _ => true
  | VArr _ | VObj _ => true
  end.

(** [a || b] on values already evaluated. *)
Definition or_else (a b : value) : value := if truthy a then a else b.

Definition nullish (v : value) : bool :=
  match v with VUndefined | VNull => true | _ => false end.

Fixpoint lookup (k : string) (props : list (string * value)) : value :=
  match props with
  | [] => VUndefined
  | (k', v) :: rest => if String.eqb k k' then v else lookup k rest
  end.

(** [v.k] for a [v] that is neither null nor undefined, and a name [k] that
    is not one of the built-in properties of arrays and strings (none of the
    names read by the handlers is). *)
Definition prop (v : value) (k : string) : value :=
  match v with
  | VObj props => lookup k props
  | _ => VUndefined
  end.

(** [v?.k]. *)
Definition opt (v : value) (k : string) : value :=
  if nullish v then VUndefined else prop v k.

Fixpoint join (sep : string) (l : list string) : string :=
  match l with
  | [] => EmptyString
  | [s] => s
  | s :: rest => s ++ sep ++ join sep rest
  end.

(** [ToPrimitive(v)] throws a TypeError. An object built by [JSON.parse]
    inherits [valueOf] and [toString] from [Object.prototype]; the inherited
    [valueOf] returns the object itself, so the conversion, with either
    hint, ends in [toString]. A key ["toString"] of the object's own hides
    the inherited method behind a value that is no function, and then no
    method is left: the conversion throws. An array is converted by
    [Array.prototype.join], which converts each element that is neither
    null nor undefined, and throws where one of them does. *)
Fixpoint ToPrimitive_throws (v : value) : bool :=
  match v with
  | VObj props => existsb (fun kv => String.eqb (fst kv) "toString") props
  | VArr elems => existsb (fun e => ToPrimitive_throws e) elems
  | _ => false
  end.

(** [String(v)], also what a template literal applies to [${v}], for a [v]
    whose conversion does not throw ([ToPrimitive_throws v = false]). *)
Fixpoint ToString (v : value) : string :=
  match v with
  | VUndefined => "undefined"
  | VNull => "null"
  | VBool b => if b then "true" else "false"
  | VNum n => Number_toString n
  | VStr s => s
  | VArr elems =>
      join ","
        (map (fun e => if nullish e then EmptyString else ToString e) elems)
  | VObj _ => "[object Object]"
  end.

(** [Number(v)], for a [v] whose conversion does not throw. Arrays and
    objects are first turned into their text. *)
Definition ToNumber (v : value) : number :=
  match v with
  | VUndefined => nan
  | VNull => pos_zero
  | VBool b => if b then of_Z 1 else pos_zero
  | VNum n => n
  | VStr s => StringToNumber s
  | VArr _ | VObj _ => StringToNumber (ToString v)
  end.

(** *** [JSON.stringify] *)

Definition hex_digit (n : N) : ascii :=
  if (n <? 10)%N then ascii_of_N (48 + n) else ascii_of_N (87 + n).

Definition quote_char : ascii := "034"%char.
Definition backslash : ascii := "092"%char.

Fixpoint escape (s : string) : string :=
  match s with
  | EmptyString => EmptyString
  | String c rest =>
      let n := N_of_ascii c in
      let tail := escape rest in
      if Ascii.eqb c quote_char then String backslash (String quote_char tail)
      else if Ascii.eqb c backslash then String backslash (String backslash tail)
      else if (n =? 8)%N then String backslash (String "b" tail)
      else if (n =? 12)%N then String backslash (String "f" tail)
      else if (n =? 10)%N then String backslash (String "n" tail)
      else if (n =? 13)%N then String backslash (String "r" tail)
      else if (n =? 9)%N then String backslash (String "t" tail)
      else if (n <? 32)%N then
        String backslash
          ("u00" ++ String (hex_digit (n / 16)) (String (hex_digit (n mod 16)) tail))
      else String c tail
  end.

Definition quote (s : string) : string :=
  String quote_char (escape s ++ String quote_char EmptyString).

(** [JSON.stringify(v)]; [None] is the [undefined] it returns for
    [undefined]. *)
Fixpoint JSON_stringify (v : value) : option string :=
  match v with
  | VUndefined => None
  | VNull => Some "null"
  | VBool b => Some (if b then "true" else "false")
  | VNum n => Some (if isFinite n then Number_toString n else "null")
  | VStr s => Some (quote s)
  | VArr elems =>
      Some ("[" ++
            join ","
              (map (fun e => match JSON_stringify e with
                             | Some t => t
                             | None => "null"
                             end) elems)
            ++ "]")
  | VObj props =>
      Some ("{" ++
            join ","
              (flat_map (fun kv => match JSON_stringify (snd kv) with
                                   | Some t => [quote (fst kv) ++ ":" ++ t]
                                   | None => []
                                   end) props)
            ++ "}")
  end.

(** *** [Date.prototype.toISOString] *)

Definition pad (width : nat) (z : Z) : string :=
  let s := Z_to_string z in
  repeat_zero (width - String.length s) ++ s.

(** Year, month and day of the day number [d] counted from 1970-01-01, in
    the proleptic Gregorian calendar. *)
Definition civil_from_days (d : Z) : Z * Z * Z :=
  let z := d + 719468 in
  let era := z / 146097 in
  let doe := z - era * 146097 in
  let yoe := (doe - doe / 1460 + doe / 36524 - doe / 146096) / 365 in
  let doy := doe - (365 * yoe + yoe / 4 - yoe / 100) in
  let mp := (5 * doy + 2) / 153 in
  let day := doy - (153 * mp + 2) / 5 + 1 in
  let month := if mp <? 10 then mp + 3 else mp - 9 in
  let year := yoe + era * 400 + (if month <=? 2 then 1 else 0) in
  (year, month, day).

Definition ms_per_day : Z := 86400000.

Definition iso_of_time (tv : Z) : string :=
  let '(y, mo, d) := civil_from_days (tv / ms_per_day) in
  let t := tv mod ms_per_day in
  let ys := if (0 <=? y) && (y <=? 9999) then pad 4 y
            else (if y <? 0 then "-" else "+") ++ pad 6 (Z.abs y) in
  ys ++ "-" ++ pad 2 mo ++ "-" ++ pad 2 d ++ "T" ++
  pad 2 (t / 3600000) ++ ":" ++ pad 2 ((t / 60000) mod 60) ++ ":" ++
  pad 2 ((t / 1000) mod 60) ++ "." ++ pad 3 (t mod 1000) ++ "Z".

(** [new Date(t).toISOString()]: the time value is [t] clipped to the range
    of dates and truncated; [None] is the RangeError of an invalid date. *)
Definition Date_toISOString (t : number) : option string :=
  if isFinite t && (Z.abs (trunc t) <=? 8640000000000000)
  then Some (iso_of_time (trunc t))
  else None.

(** [s.replace(/\/+$/, "")] and [s.replace(/^\/+/, "")]. *)
Fixpoint drop_slashes (s : list ascii) : list ascii :=
  match s with
  | "/"%char :: s' => drop_slashes s'
  | _ => s
  end.

Definition strip_trailing_slashes (s : string) : string :=
  string_of_list_ascii (rev (drop_slashes (rev (list_ascii_of_string s)))).

Definition strip_leading_slashes (s : string) : string :=
  string_of_list_ascii (drop_slashes (list_ascii_of_string s)).

Definition startsWith (s p : string) : bool := String.prefix p s.

End Js.

(* ===================================================================== *)
(** ** The [payments] table *)
(* ===================================================================== *)

Module Store.
Import JsNum Js.

(** A value bound to a parameter or held in a column. A JavaScript number
    is bound as a REAL. [SqlRealText x] is the text SQLite makes of the REAL
    [x] when it stores it in a TEXT column; its digits are not modelled. *)
Inductive sql : Type :=
  | SqlNull
  | SqlText (s : string)
  | SqlReal (x : number)
  | SqlRealText (x : number).

(** What a column declared TEXT stores when it is given [p]: a number is
    turned into its text. *)
Definition text_affinity (p : sql) : sql :=
  match p with
  | SqlReal x => SqlRealText x
  | _ => p
  end.

(** One row of [payments]. The first three values of every [INSERT] the
    server runs are a text, a text and a number, so [id] and [local_id] hold
    texts and [amount] a number; the other columns are declared TEXT and
    hold a text, the text of a number, or NULL; [created_at] holds the
    timestamp SQLite fills in. *)
Record payment : Type := mkPayment {
  id : string;
  local_id : string;
  amount : number;
  currency : sql;
  payee : sql;
  status : sql;
  resource_url : sql;
  op_response : sql;
  created_at : string
}.

Definition table : Type := list payment.

(** *** Binding the arguments of [run] *)

(** One value for one anonymous parameter: the driver binds numbers, strings
    and null, and nothing else. *)
Definition scalar (v : value) : option sql :=
  match v with
  | VNull => Some SqlNull
  | VStr s => Some (SqlText s)
  | VNum x => Some (SqlReal x)
  | _ => None
  end.

(** The ways [run(...)] refuses its arguments. *)
Inductive bind_failure : Type :=
  | NotBindable
  | TooManyValues
  | TooFewValues
  | TwoObjects.

(** Binding [vs], one after the other, to the next anonymous parameters of
    a statement that has [n] of them, [bound] being the values bound so far.
    A value that is no number, string or null is refused as such; a value
    past the last parameter is one too many. *)
Fixpoint bind_values (n : nat) (vs : list value) (bound : list sql)
  : bind_failure + list sql :=
  match vs with
  | [] => inr bound
  | v :: rest =>
      match scalar v with
      | None => inl NotBindable
      | Some p =>
          if (List.length bound <? n)%nat
          then bind_values n rest (bound ++ [p])%list
          else inl TooManyValues
      end
  end.

(** The arguments of [run], from left to right. An array stands for its
    elements, each bound to the next anonymous parameter; a plain object
    stands for named parameters, of which the statements of this server have
    none, so it binds nothing, and a second one is refused; any other
    argument is one value. When all arguments are through, every parameter
    must have its value. *)
Fixpoint bind_arguments (n : nat) (args : list value) (named : bool)
    (bound : list sql) : bind_failure + list sql :=
  match args with
  | [] => if (List.length bound <? n)%nat then inl TooFewValues else inr bound
  | VArr elems :: rest =>
      match bind_values n elems bound with
      | inl e => inl e
      | inr bound' => bind_arguments n rest named bound'
      end
  | VObj _ :: rest =>
      if named then inl TwoObjects else bind_arguments n rest true bound
  | v :: rest =>
      match bind_values n [v] bound with
      | inl e => inl e
      | inr bound' => bind_arguments n rest named bound'
      end
  end.

(** [statement.run(...args)] up to the binding: the values of the [n]
    anonymous parameters, in order. *)
Definition bind (n : nat) (args : list value) : bind_failure + list sql :=
  bind_arguments n args false [].

(** The [i]-th of the values bound, counted from 0. *)
Definition value_at (i : nat) (vals : list sql) : sql := nth i vals SqlNull.

(** *** The statements *)

(** [WHERE local_id = ?]. The column is declared TEXT, so the parameter is
    compared as text: a text parameter selects the rows that hold the same
    text, NULL selects none. A number is compared by the text SQLite makes
    of it. The column holds what [INSERT] put there, the 36 characters of a
    UUID that [randomUUID()] made, which the text of a number never is: a
    number selects none. *)
Definition local_id_is (p : sql) (r : payment) : bool :=
  match p with
  | SqlText s => String.eqb (local_id r) s
  | _ => false
  end.

Definition has_id (i : string) (r : payment) : bool := String.eqb (id r) i.

(** [INSERT INTO payments (...) VALUES (...)]: [None] when the primary key
    is already taken. *)
Definition insert (r : payment) (t : table) : option table :=
  if existsb (has_id (id r)) t then None else Some (t ++ [r])%list.

(** [UPDATE payments SET status = ?, op_response = ? WHERE local_id = ?]. *)
Definition update_status (st : sql) (resp : sql) (lid : sql) (t : table)
  : table :=
  map (fun r =>
         if local_id_is lid r
         then mkPayment (id r) (local_id r) (amount r) (currency r) (payee r)
                (text_affinity st) (resource_url r) (text_affinity resp)
                (created_at r)
         else r) t.

(** [UPDATE payments SET status = ?, op_response = ?, resource_url = ?
    WHERE local_id = ?]. *)
Definition update_status_url (st : sql) (resp : sql) (url : sql)
    (lid : sql) (t : table) : table :=
  map (fun r =>
         if local_id_is lid r
         then mkPayment (id r) (local_id r) (amount r) (currency r) (payee r)
                (text_affinity st) (text_affinity url) (text_affinity resp)
                (created_at r)
         else r) t.

(** [ORDER BY created_at DESC]: the column holds the timestamp texts SQLite
    writes, which compare byte by byte. Rows with equal timestamps keep the
    order of the table; SQL leaves their order open, and no property below
    depends on it. *)
Fixpoint insert_newest (r : payment) (sorted : table) : table :=
  match sorted with
  | [] => [r]
  | x :: rest =>
      if String.leb (created_at x) (created_at r)
      then r :: x :: rest
      else x :: insert_newest r rest
  end.

Definition newest_first (t : table) : table :=
  fold_right insert_newest [] t.

(** [SELECT * FROM payments ORDER BY created_at DESC LIMIT n]. *)
Definition recent (n : nat) (t : table) : table :=
  firstn n (newest_first t).

End Store.

(* ===================================================================== *)
(** ** The server *)
(* ===================================================================== *)

Module Server.
Import JsNum Js Store.

(** *** The outside world *)

(** Process configuration ([process.env]). *)
Record config : Type := mkConfig {
  OPEN_PAYMENTS_BASE : string;
  OPEN_PAYMENTS_API_KEY : string
}.

(** An HTTP request as [fetch] puts it on the wire. *)
Record wire : Type := mkWire {
  w_url : string;
  w_method : string;
  w_headers : list (string * string);
  w_body : option string
}.

(** What [callApi] returns: the status code, [res.headers.raw()] (lower-case
    names, every value of each header), and the body, under [json] when
    [JSON.parse] accepted the text and under [text] when it did not. *)
Inductive api_body : Type :=
  | Json (v : value)
  | Text (t : string).

Record api_result : Type := mkApiResult {
  api_status : Z;
  api_headers : list (string * list string);
  api_body_of : api_body
}.

(** What is thrown: an error by its name and message, or any other error
    by the text [String(err)] makes of it. *)
Inductive js_error : Type :=
  | TypeError (msg : string)
  | RangeError (msg : string)
  | FetchError (msg : string)
  | SqliteError (msg : string)
  | OtherError (text : string).

(** Everything a request handler reads from outside the process: the two
    UUIDs [randomUUID()] hands out, the clock, SQLite's [CURRENT_TIMESTAMP],
    and the remote wallet as [fetch] reaches it. The wallet answers a
    request, or there is no answer ([None]) and [fetch] rejects: the URL is
    not one it accepts, or the network fails. [fetch_error] is the error it
    rejects with. *)
Record world : Type := mkWorld {
  randomUUID_1 : string;
  randomUUID_2 : string;
  Date_now : Z;
  CURRENT_TIMESTAMP : string;
  remote : wire -> option api_result;
  fetch_error : wire -> js_error
}.

(** An outbound call as [callApi] was asked to make it; [out_body] is the
    object given as body, which travels as its [JSON.stringify] text. *)
Record outbound : Type := mkOutbound {
  out_url : string;
  out_method : string;
  out_headers : list (string * string);
  out_body : option value
}.

Definition on_wire (o : outbound) : wire :=
  mkWire (out_url o) (out_method o) (out_headers o)
         (match out_body o with
          | Some b => JSON_stringify b
          | None => None
          end).

(** *** Handler state and exceptions *)

Record state : Type := mkState {
  payments : table;
  sent : list outbound
}.

(** [String(err)]. *)
Definition String_of_error (e : js_error) : string :=
  match e with
  | TypeError m => "TypeError: " ++ m
  | RangeError m => "RangeError: " ++ m
  | FetchError m => "FetchError: " ++ m
  | SqliteError m => "SqliteError: " ++ m
  | OtherError text => text
  end.

Inductive result (A : Type) : Type :=
  | Ok (a : A)
  | Throw (e : js_error).
Arguments Ok {A} a.
Arguments Throw {A} e.

(** A handler step: it reads and writes the table and the log of outbound
    calls, and returns or throws. The state a step leaves behind survives a
    throw. *)
Definition M (A : Type) : Type := state -> result A * state.

Definition ret {A} (a : A) : M A := fun s => (Ok a, s).

Definition throw {A} (e : js_error) : M A := fun s => (Throw e, s).

Definition bind {A B} (m : M A) (k : A -> M B) : M B :=
  fun s =>
    match m s with
    | (Ok a, s') => k a s'
    | (Throw e, s') => (Throw e, s')
    end.

(** [try { m } catch (e) { h e }]. *)
Definition try_catch {A} (m : M A) (h : js_error -> M A) : M A :=
  fun s =>
    match m s with
    | (Ok a, s') => (Ok a, s')
    | (Throw e, s') => h e s'
    end.

Declare Scope handler_scope.
Delimit Scope handler_scope with handler.
Notation "x <- m ;; k" := (bind m (fun x => k))
  (at level 100, m at next level, right associativity) : handler_scope.
Notation "m ;;; k" := (bind m (fun _ => k))
  (at level 100, right associativity) : handler_scope.
Local Open Scope handler_scope.

(** *** The HTTP responses of the handlers *)

Inductive content : Type :=
  | JsonBody (v : value)
  | TextBody (t : string).

Record response : Type := mkResponse {
  code : Z;
  body : content
}.

(** [res.status(c).json({ success: false, error: msg })]. *)
Definition failure (c : Z) (msg : string) : response :=
  mkResponse c (JsonBody (VObj [("success", VBool false); ("error", VStr msg)])).

(** *** [callApi] *)

(** [op] as the JavaScript object it is. *)
Definition headers_value (h : list (string * list string)) : value :=
  VObj (map (fun kv => (fst kv, VArr (map VStr (snd kv)))) h).

Definition op_value (op : api_result) : value :=
  VObj [("status", VNum (of_Z (api_status op)));
        ("headers", headers_value (api_headers op));
        match api_body_of op with
        | Json v => ("json", v)
        | Text t => ("text", VStr t)
        end].

(** [op.json]. *)
Definition op_json (op : api_result) : value :=
  match api_body_of op with
  | Json v => v
  | Text _ => VUndefined
  end.

(** [callApi(url, method, body)]: the request goes out with the two headers
    and, for a truthy [body], its JSON text; the answer comes back as it is,
    whatever its status code. *)
Definition callApi (cfg : config) (w : world) (url method : string)
    (body : option value) : M api_result :=
  fun s =>
    let o := mkOutbound url method
               [("Content-Type", "application/json");
                ("Authorization", "Bearer " ++ OPEN_PAYMENTS_API_KEY cfg)]
               (match body with
                | Some b => if truthy b then Some b else None
                | None => None
                end) in
    let s' := mkState (payments s) (sent s ++ [o])%list in
    match remote w (on_wire o) with
    | Some op => (Ok op, s')
    | None => (Throw (fetch_error w (on_wire o)), s')
    end.

(** *** Statements on the table *)

(** What [run] throws when it refuses its arguments. *)
Definition bind_error (e : bind_failure) : js_error :=
  match e with
  | NotBindable =>
      TypeError
        "SQLite3 can only bind numbers, strings, bigints, buffers, and null"
  | TooManyValues => RangeError "Too many parameter values were provided"
  | TooFewValues => RangeError "Too few parameter values were provided"
  | TwoObjects =>
      TypeError "You cannot specify named parameters in two different objects"
  end.

(** The binding step of [statement.run(...args)] for a statement with [n]
    anonymous parameters. *)
Definition bind_run (n : nat) (args : list value) : M (list sql) :=
  match Store.bind n args with
  | inr vals => ret vals
  | inl e => throw (bind_error e)
  end.

(** [JSON.stringify(v)] as a statement parameter. *)
Definition stringified (v : value) : value :=
  match JSON_stringify v with
  | Some t => VStr t
  | None => VUndefined
  end.

Definition run_insert (r : payment) : M unit :=
  fun s =>
    match Store.insert r (payments s) with
    | Some t => (Ok tt, mkState t (sent s))
    | None =>
        (Throw (SqliteError "UNIQUE constraint failed: payments.id"), s)
    end.

Definition run_update (f : table -> table) : M unit :=
  fun s => (Ok tt, mkState (f (payments s)) (sent s)).

(** The outermost [try { ... } catch (err) { ... }] of a handler: whatever
    is thrown inside becomes the response [on_error] builds. *)
Definition handle (m : M response) (on_error : js_error -> response)
  : state -> response * state :=
  fun s =>
    match m s with
    | (Ok r, s') => (r, s')
    | (Throw e, s') => (on_error e, s')
    end.

(** [res.status(500).json({ success: false, error: String(err) })]. *)
Definition internal_error (e : js_error) : response :=
  failure 500 (String_of_error e).

(** *** Conversions that can throw *)

Definition conversion_error : js_error :=
  TypeError "Cannot convert object to primitive value".

(** [Number(v)]. *)
Definition Number_of (v : value) : M number :=
  if ToPrimitive_throws v then throw conversion_error else ret (ToNumber v).

(** [`${v}`]. *)
Definition String_of (v : value) : M string :=
  if ToPrimitive_throws v then throw conversion_error else ret (ToString v).

(** *** [POST /create-payment] *)

(** The [currency] of a request body: ["MXN"] when the body gives none. *)
Definition currency_of (b : value) : value :=
  match prop b "currency" with VUndefined => VStr "MXN" | c => c end.

(** [const { amount, currency = "MXN", payee, memo, expiresInSeconds } =
    req.body]. *)
Definition destructure_error (b : value) : js_error :=
  TypeError ("Cannot destructure property 'amount' of 'req.body' as it is "
             ++ ToString b ++ ".").

Definition destructure (b : value)
  : M (value * value * value * value * value) :=
  if nullish b
  then throw (destructure_error b)
  else ret (prop b "amount",
            currency_of b,
            prop b "payee",
            prop b "memo",
            prop b "expiresInSeconds").

Definition assetScale : N := 2.

(** [Math.round(parsed * Math.pow(10, assetScale)).toString()]. *)
Definition valueInt_of (parsed : number) : string :=
  Number_toString (Math_round (mul parsed (Math_pow10 assetScale))).

(** [memo || `Pago por servicio (${amount} ${currency})`]: the template
    literal is evaluated only for a falsy [memo]. *)
Definition memo_of (amount currency memo : value) : M value :=
  if truthy memo then ret memo
  else
    a <- String_of amount ;;
    c <- String_of currency ;;
    ret (VStr ("Pago por servicio (" ++ a ++ " " ++ c ++ ")")).

(** The payload object literal, [memo] being the value of
    [memo || `...`]. *)
Definition payload_of (currency payee memo : value) (parsed : number)
    (localId : string) : list (string * value) :=
  [("walletAddress", payee);
   ("incomingAmount",
    VObj [("value", VStr (valueInt_of parsed));
          ("assetCode", currency);
          ("assetScale", VNum (of_Z (Z.of_N assetScale)))]);
   ("metadata",
    VObj [("localId", VStr localId);
          ("memo", memo)])].

(** [if (expiresInSeconds && Number(expiresInSeconds) > 0)
       payload.expiresAt = new Date(Date.now() + Number(expiresInSeconds)
                                    * 1000).toISOString()]. *)
Definition with_expiry (w : world) (expiresInSeconds : value)
    (payload : list (string * value)) : M (list (string * value)) :=
  if truthy expiresInSeconds
  then
    seconds <- Number_of expiresInSeconds ;;
    if lt pos_zero seconds
    then
      match Date_toISOString
              (add (of_Z (Date_now w)) (mul seconds (of_Z 1000))) with
      | Some iso => ret (payload ++ [("expiresAt", VStr iso)])%list
      | None => throw (RangeError "Invalid time value")
      end
    else ret payload
  else ret payload.

(** The receiver of [payee.replace(...)]: only a string has the method. *)
Definition replace_receiver (payee : value) : M string :=
  match payee with
  | VStr s => ret s
  | _ => throw (TypeError "payee.replace is not a function")
  end.

(** [a && b], for a [b] whose evaluation cannot throw once [a] is truthy. *)
Definition and_then (a b : value) : value := if truthy a then b else a.

(** [v[0]]. *)
Definition first (v : value) : value :=
  match v with
  | VArr (x :: _) => x
  | VStr (String c _) => VStr (String c EmptyString)
  | _ => VUndefined
  end.

(** [(op.status === 201 || op.status === 200) ? "created" : "pending"]. *)
Definition statusText_of (op : api_result) : string :=
  if (api_status op =? 201) || (api_status op =? 200)
  then "created" else "pending".

(** [(op.json && (op.json.id || (op.headers && op.headers.location &&
       op.headers.location[0])))
     ? (op.json?.id || (op.headers.location && op.headers.location[0]))
     : null]. *)
Definition resource_url_of (op : api_result) : value :=
  let json := op_json op in
  let headers := headers_value (api_headers op) in
  let location := prop headers "location" in
  if truthy
       (and_then json
          (or_else (prop json "id")
             (and_then headers (and_then location (first location)))))
  then or_else (opt json "id") (and_then location (first location))
  else VNull.

(** The row an [INSERT] stores for the eight values bound. The first three
    arguments of [insert.run] are a text, a text and a number, so the first
    three values bound are [localDbId], [localId] and [parsed] themselves;
    columns four to eight take what the remaining arguments supplied, in
    the order they supplied it. *)
Definition inserted_row (localDbId localId : string) (parsed : number)
    (vals : list sql) (now : string) : payment :=
  mkPayment localDbId localId parsed
    (text_affinity (value_at 3 vals)) (text_affinity (value_at 4 vals))
    (text_affinity (value_at 5 vals)) (text_affinity (value_at 6 vals))
    (text_affinity (value_at 7 vals)) now.

Definition create_payment_body (cfg : config) (w : world) (req_body : value)
  : M response :=
  b <- destructure req_body ;;
  let '(amount, currency, payee, memo, expiresInSeconds) := b in
  if negb (truthy amount) || negb (truthy payee)
  then ret (failure 400 "amount and payee required")
  else
    parsed <- Number_of amount ;;
    if isNaN parsed || le parsed pos_zero
    then ret (failure 400 "invalid amount")
    else
      let localId := randomUUID_1 w in
      memo' <- memo_of amount currency memo ;;
      payload <- with_expiry w expiresInSeconds
                   (payload_of currency payee memo' parsed localId) ;;
      receiver <- replace_receiver payee ;;
      let targetUrl := strip_trailing_slashes receiver ++ "/incoming-payments" in
      op <- callApi cfg w targetUrl "POST" (Some (VObj payload)) ;;
      let localDbId := randomUUID_2 w in
      let statusText := statusText_of op in
      let resource_url := resource_url_of op in
      vals <- bind_run 8 [VStr localDbId; VStr localId; VNum parsed; currency;
                          payee; VStr statusText; resource_url;
                          stringified (op_value op)] ;;
      run_insert (inserted_row localDbId localId parsed vals
                    (CURRENT_TIMESTAMP w)) ;;;
      ret (mkResponse 200
             (JsonBody (VObj [("success", VBool true);
                              ("localId", VStr localId);
                              ("localDbId", VStr localDbId);
                              ("resource_url", resource_url);
                              ("op", op_value op)]))).

Definition createPayment (cfg : config) (w : world) (req_body : value)
  : state -> response * state :=
  handle (create_payment_body cfg w req_body) internal_error.

(** *** [GET /status/*] *)

(** [const opJson = op.json || null;
     const localId = opJson?.metadata?.localId || null]. *)
Definition poll_localId (op : api_result) : value :=
  let opJson := or_else (op_json op) VNull in
  or_else (opt (opt opJson "metadata") "localId") VNull.

(** [opJson?.status || (opJson?.receiveAmount ? "received" : null) || null]. *)
Definition poll_newStatus (op : api_result) : value :=
  let opJson := or_else (op_json op) VNull in
  or_else
    (or_else (opt opJson "status")
       (if truthy (opt opJson "receiveAmount") then VStr "received" else VNull))
    VNull.

(** The update attempted after a poll, which the handler wraps in its own
    [try { } catch { }]. *)
Definition poll_update (op : api_result) : M unit :=
  let localId := poll_localId op in
  let newStatus := poll_newStatus op in
  if truthy localId && truthy newStatus
  then
    vals <- bind_run 3 [newStatus; stringified (op_value op); localId] ;;
    run_update (update_status (value_at 0 vals) (value_at 1 vals)
                  (value_at 2 vals))
  else ret tt.

(** The URL polled: [raw] itself when it is absolute, else [raw] under the
    configured base. *)
Definition poll_url (cfg : config) (raw : string) : string :=
  let isUrl := startsWith raw "http://" || startsWith raw "https://" in
  if isUrl then raw
  else (match OPEN_PAYMENTS_BASE cfg with
        | EmptyString => EmptyString
        | base => strip_trailing_slashes base
        end) ++ "/" ++ strip_leading_slashes raw.

Definition poll_status_body (cfg : config) (w : world) (raw : string)
  : M response :=
  match raw with
  | EmptyString => ret (failure 400 "resource path required")
  | _ =>
      op <- callApi cfg w (poll_url cfg raw) "GET" None ;;
      try_catch (poll_update op) (fun _ => ret tt) ;;;
      ret (mkResponse 200
             (JsonBody (VObj [("success", VBool true); ("op", op_value op)])))
  end.

Definition pollStatus (cfg : config) (w : world) (raw : string)
  : state -> response * state :=
  handle (poll_status_body cfg w raw) internal_error.

(** *** [POST /webhook] *)

(** [payload?.data?.metadata?.localId || payload?.metadata?.localId ||
     payload?.metadata?.local_id || null]. *)
Definition webhook_localId (payload : value) : value :=
  or_else
    (or_else
       (or_else (opt (opt (opt payload "data") "metadata") "localId")
                (opt (opt payload "metadata") "localId"))
       (opt (opt payload "metadata") "local_id"))
    VNull.

(** [payload?.data?.status || payload?.status || "webhook_updated"]. *)
Definition webhook_newStatus (payload : value) : value :=
  or_else (or_else (opt (opt payload "data") "status") (opt payload "status"))
          (VStr "webhook_updated").

(** [payload?.data?.id || payload?.id || null]. *)
Definition webhook_resource_url (payload : value) : value :=
  or_else (or_else (opt (opt payload "data") "id") (opt payload "id")) VNull.

(** The update attempted on a webhook, inside its own [try { } catch { }]. *)
Definition webhook_update (payload : value) : M unit :=
  let localId := webhook_localId payload in
  let newStatus := webhook_newStatus payload in
  let resource_url := webhook_resource_url payload in
  if truthy localId
  then
    vals <- bind_run 4 [newStatus; stringified payload; resource_url;
                        localId] ;;
    run_update (update_status_url (value_at 0 vals) (value_at 1 vals)
                  (value_at 2 vals) (value_at 3 vals))
  else ret tt.

Definition webhook_body (payload : value) : M response :=
  try_catch (webhook_update payload) (fun _ => ret tt) ;;;
  ret (mkResponse 200 (TextBody "ok")).

Definition applyWebhook (payload : value) : state -> response * state :=
  handle (webhook_body payload) (fun _ => mkResponse 500 (TextBody "error")).

(** *** [GET /] *)

Definition health : response :=
  mkResponse 200
    (JsonBody (VObj [("ok", VBool true);
                     ("service", VStr "pay-per-use-backend-openpayments")])).

(** *** [GET /payments] *)

(** The answer of [GET /payments]: [{ count, rows }]. The rows are given as
    the records they are; their rendering as JSON objects is not
    modelled. *)
Record listing : Type := mkListing {
  count : nat;
  rows : table
}.

(** [const rows = db.prepare(`SELECT * FROM payments ORDER BY created_at
     DESC LIMIT 100`).all(); res.json({ count: rows.length, rows })]. *)
Definition listPayments (s : state) : listing * state :=
  let rows := recent 100 (payments s) in
  (mkListing (List.length rows) rows, s).

End Server.

(* ===================================================================== *)
(** ** The specification's vocabulary *)
(* ===================================================================== *)

Module Spec.
Import JsNum Js Store Server.

(** [v.k1.k2...] where every step may be missing. *)
Definition at_path (v : value) (ks : list string) : value :=
  fold_left opt ks v.

(** A request body as the JSON body parser leaves it in [req.body]: an object
    or an array, never [null] or [undefined]. *)
Definition parsed_body (b : value) : Prop := nullish b = false.

(** The response reports success ([success: true]). *)
Definition succeeded (r : response) : bool :=
  match body r with
  | JsonBody v =>
      match prop v "success" with
      | VBool true => true
      | _ => false
      end
  | TextBody _ => false
  end.

(** A field of a JSON response. *)
Definition response_field (r : response) (k : string) : value :=
  match body r with
  | JsonBody v => prop v k
  | TextBody _ => VUndefined
  end.

(** The value stands for no number: it cannot be converted at all, or it
    converts to NaN. *)
Definition not_numeric (v : value) : bool :=
  ToPrimitive_throws v || isNaN (ToNumber v).

(** A validation failure of the specification: [amount] missing, [payee]
    missing, [amount] not numeric, or [amount <= 0]. *)
Definition fails_validation (b : value) : Prop :=
  prop b "amount" = VUndefined \/
  prop b "payee" = VUndefined \/
  not_numeric (prop b "amount") = true \/
  (ToPrimitive_throws (prop b "amount") = false /\
   le (ToNumber (prop b "amount")) pos_zero = true).

(** The nearest integer, the upper one on a tie. *)
Definition round_half_up (q : Q) : Z := Qfloor (q + (1 # 2)).

(** Minor units as the specification words them: [round(a * 100)] as a
    base-10 integer text. *)
Definition claimed_minor_units (a : Q) : string :=
  Z_to_string (round_half_up (a * (100 # 1))).

(** The first value of the [Location] response header, if the header is
    there. *)
Definition location_header (op : api_result) : option string :=
  match find (fun kv => String.eqb "location" (fst kv)) (api_headers op) with
  | Some (_, l :: _) => Some l
  | _ => None
  end.

(** The [id] field of the JSON body ([undefined] without a JSON body). *)
Definition body_id (op : api_result) : value :=
  match api_body_of op with
  | Json v => opt v "id"
  | Text _ => VUndefined
  end.

(** The resource URL as the specification words it: the body's [id] when it
    is truthy, else the [Location] header whenever it is present, else
    null. *)
Definition claimed_resource_url (op : api_result) : value :=
  if truthy (body_id op) then body_id op
  else match location_header op with
       | Some l => VStr l
       | None => VNull
       end.



(** Two versions of a row that differ at most in [status] and
    [op_response]. *)
Definition same_but_status_and_response (r r' : payment) : Prop :=
  id r' = id r /\ local_id r' = local_id r /\ amount r' = amount r /\
  currency r' = currency r /\ payee r' = payee r /\
  resource_url r' = resource_url r /\ created_at r' = created_at r.

(** The outbound call of [createPayment] for a given target and payload. *)
Definition creation_call (cfg : config) (url : string)
    (payload : list (string * value)) : outbound :=
  mkOutbound url "POST"
    [("Content-Type", "application/json");
     ("Authorization", "Bearer " ++ OPEN_PAYMENTS_API_KEY cfg)]
    (Some (VObj payload)).

(** The [incomingAmount.value] of the payload of an outbound call. *)
Definition sent_value (o : outbound) : value :=
  match out_body o with
  | Some payload => at_path payload ["incomingAmount"; "value"]
  | None => VUndefined
  end.

(** The resource URL a webhook supplies, in the specification's words:
    [payload.data.id] or [payload.id], whichever is there first, null when
    neither is. *)
Definition claimed_webhook_url (payload : value) : value :=
  if truthy (at_path payload ["data"; "id"])
  then at_path payload ["data"; "id"]
  else if truthy (at_path payload ["id"])
       then at_path payload ["id"]
       else VNull.

(** The [localId] a webhook names: the first one there among
    [data.metadata.localId], [metadata.localId] and [metadata.local_id]. *)
Definition claimed_webhook_localId (payload : value) : value :=
  if truthy (at_path payload ["data"; "metadata"; "localId"])
  then at_path payload ["data"; "metadata"; "localId"]
  else if truthy (at_path payload ["metadata"; "localId"])
       then at_path payload ["metadata"; "localId"]
       else if truthy (at_path payload ["metadata"; "local_id"])
            then at_path payload ["metadata"; "local_id"]
            else VNull.

(** The memo sent when the request gives none. *)
Definition default_memo (b : value) : string :=
  "Pago por servicio (" ++ ToString (prop b "amount") ++ " "
  ++ ToString (currency_of b) ++ ")".

(** The memo of a request: its own when it is truthy, else the description;
    the error thrown when the description cannot be made. *)
Definition request_memo (b : value) : result value :=
  if truthy (prop b "memo") then Ok (prop b "memo")
  else if ToPrimitive_throws (prop b "amount")
          || ToPrimitive_throws (currency_of b)
       then Throw conversion_error
       else Ok (VStr (default_memo b)).

(** The payload of a request with its [expiresAt], when the request asks
    for one; the error thrown when the memo or the expiry cannot be made. *)
Definition request_payload (w : world) (b : value)
  : result (list (string * value)) :=
  let e := prop b "expiresInSeconds" in
  match request_memo b with
  | Throw err => Throw err
  | Ok memo =>
      let base := payload_of (currency_of b) (prop b "payee") memo
                    (ToNumber (prop b "amount")) (randomUUID_1 w) in
      if truthy e
      then if ToPrimitive_throws e then Throw conversion_error
           else if lt pos_zero (ToNumber e)
           then match Date_toISOString
                        (add (of_Z (Date_now w))
                           (mul (ToNumber e) (of_Z 1000))) with
                | Some iso => Ok (base ++ [("expiresAt", VStr iso)])%list
                | None => Throw (RangeError "Invalid time value")
                end
           else Ok base
      else Ok base
  end.

(** The URL a payment for payee [p] is posted to. *)
Definition target_url (p : string) : string :=
  strip_trailing_slashes p ++ "/incoming-payments".

(** The arguments of [insert.run] (line 100) for request [b], whose payee
    is the text [p], answered by [op]. *)
Definition insert_arguments (w : world) (b : value) (p : string)
    (op : api_result) : list value :=
  [VStr (randomUUID_2 w); VStr (randomUUID_1 w);
   VNum (ToNumber (prop b "amount")); currency_of b; VStr p;
   VStr (statusText_of op); resource_url_of op; stringified (op_value op)].

(** The row [createPayment] writes for request [b] when [vals] are the
    eight values bound. *)
Definition new_row (w : world) (b : value) (vals : list sql) : payment :=
  inserted_row (randomUUID_2 w) (randomUUID_1 w) (ToNumber (prop b "amount"))
    vals (CURRENT_TIMESTAMP w).

(** The success response of [createPayment]. *)
Definition created (w : world) (op : api_result) : response :=
  mkResponse 200
    (JsonBody (VObj [("success", VBool true);
                     ("localId", VStr (randomUUID_1 w));
                     ("localDbId", VStr (randomUUID_2 w));
                     ("resource_url", resource_url_of op);
                     ("op", op_value op)])).

(** [createPayment] once the call for [payload] has been made, by the way it
    ends: no answer from the wallet, arguments that [run] refuses, a primary
    key already taken, or success. *)
Definition outcome_after_call (cfg : config) (w : world) (b : value)
    (p : string) (payload : list (string * value)) (s : state)
  : response * state :=
  let o := creation_call cfg (target_url p) payload in
  let s1 := mkState (payments s) (sent s ++ [o])%list in
  match remote w (on_wire o) with
  | None => (internal_error (fetch_error w (on_wire o)), s1)
  | Some op =>
      match Store.bind 8 (insert_arguments w b p op) with
      | inl e => (internal_error (bind_error e), s1)
      | inr vals =>
          match Store.insert (new_row w b vals) (payments s) with
          | Some t => (created w op, mkState t (sent s ++ [o])%list)
          | None =>
              (internal_error
                 (SqliteError "UNIQUE constraint failed: payments.id"), s1)
          end
      end
  end.

(** [createPayment] in direct style, by the way it ends. *)
Definition create_outcome (cfg : config) (w : world) (b : value) (s : state)
  : response * state :=
  if nullish b
  then (internal_error (destructure_error b), s)
  else if negb (truthy (prop b "amount")) || negb (truthy (prop b "payee"))
  then (failure 400 "amount and payee required", s)
  else if ToPrimitive_throws (prop b "amount")
  then (internal_error conversion_error, s)
  else if isNaN (ToNumber (prop b "amount"))
          || le (ToNumber (prop b "amount")) pos_zero
  then (failure 400 "invalid amount", s)
  else match request_payload w b with
       | Throw e => (internal_error e, s)
       | Ok payload =>
           match prop b "payee" with
           | VStr p => outcome_after_call cfg w b p payload s
           | _ =>
               (internal_error
                  (TypeError "payee.replace is not a function"), s)
           end
       end.

(** The arguments of [update.run] on a poll (line 134). *)
Definition poll_arguments (op : api_result) : list value :=
  [poll_newStatus op; stringified (op_value op); poll_localId op].

(** The arguments of [update.run] on a webhook (line 157). *)
Definition webhook_arguments (payload : value) : list value :=
  [webhook_newStatus payload; stringified payload;
   webhook_resource_url payload; webhook_localId payload].

(** What a poll that fetched [op] does to the table: the [UPDATE] when a
    [localId] and a status were extracted and [run] takes its arguments,
    nothing otherwise. *)
Definition poll_rewrite (op : api_result) (t : table) : table :=
  if truthy (poll_localId op) && truthy (poll_newStatus op)
  then match Store.bind 3 (poll_arguments op) with
       | inr vals =>
           update_status (value_at 0 vals) (value_at 1 vals)
             (value_at 2 vals) t
       | inl _ => t
       end
  else t.

(** What a webhook does to the table. *)
Definition webhook_rewrite (payload : value) (t : table) : table :=
  if truthy (webhook_localId payload)
  then match Store.bind 4 (webhook_arguments payload) with
       | inr vals =>
           update_status_url (value_at 0 vals) (value_at 1 vals)
             (value_at 2 vals) (value_at 3 vals) t
       | inl _ => t
       end
  else t.

(** [n] slashes. *)
Fixpoint slashes (n : nat) : string :=
  match n with
  | O => EmptyString
  | S n' => String "/" (slashes n')
  end.

(** The text ends with a slash. *)
Definition ends_with_slash (s : string) : Prop :=
  exists t : string, s = t ++ "/".

(** The text starts with a slash. *)
Definition starts_with_slash (s : string) : Prop :=
  exists t : string, s = String "/" t.

(** [r] is at least as new as [r']. *)
Definition not_older (r r' : payment) : Prop :=
  String.leb (created_at r') (created_at r) = true.

(** Every amount in the table is above zero. *)
Definition amounts_positive (t : table) : Prop :=
  Forall (fun r => lt pos_zero (amount r) = true) t.

(** No two rows share their primary key. *)
Definition ids_unique (t : table) : Prop := NoDup (map id t).

(** The fields of a row that no update ever writes. *)
Definition same_identity (r r' : payment) : Prop :=
  id r' = id r /\ local_id r' = local_id r /\ amount r' = amount r /\
  currency r' = currency r /\ payee r' = payee r /\
  created_at r' = created_at r.

(** A row with a new status and a new stored answer. *)
Definition with_status (st resp : sql) (r : payment) : payment :=
  mkPayment (id r) (local_id r) (amount r) (currency r) (payee r)
    st (resource_url r) resp (created_at r).

(** A row with a new status, a new stored answer and a new resource URL. *)
Definition with_status_url (st resp url : sql) (r : payment) : payment :=
  mkPayment (id r) (local_id r) (amount r) (currency r) (payee r)
    st url resp (created_at r).

(** The call carries the two headers of [callApi], the configured key among
    them, and no other. *)
Definition authorised (cfg : config) (o : outbound) : Prop :=
  out_headers o
  = [("Content-Type", "application/json");
     ("Authorization", "Bearer " ++ OPEN_PAYMENTS_API_KEY cfg)].

(** The outbound call of a poll. *)
Definition poll_call (cfg : config) (raw : string) : outbound :=
  mkOutbound (poll_url cfg raw) "GET"
    [("Content-Type", "application/json");
     ("Authorization", "Bearer " ++ OPEN_PAYMENTS_API_KEY cfg)]
    None.

End Spec.

(* ===================================================================== *)
(** ** Sample data *)
(* ===================================================================== *)

Module Sample.
Import JsNum Js Store Server.

Definition cfg : config := mkConfig EmptyString "TEST_KEY".

Definition merchant : string := "https://wallet.example/merchant".

Definition created_body : value :=
  VObj [("id", VStr "https://wallet.example/merchant/incoming-payments/abc")].

(** What [fetch] rejects with when the wallet's host refuses the
    connection. *)
Definition connection_refused (o : wire) : js_error :=
  FetchError ("request to " ++ w_url o
              ++ " failed, reason: connect ECONNREFUSED 203.0.113.7:443").

(** A wallet that answers 201 with the new resource in the body. *)
Definition wallet_created : world :=
  mkWorld "7f0c5a5e-0001" "7f0c5a5e-0002" 1730505600000 "2024-11-02 00:00:00"
    (fun _ => Some (mkApiResult 201 [] (Json created_body))) connection_refused.

(** A wallet that answers 202 with a body that names no resource. *)
Definition wallet_accepted : world :=
  mkWorld "7f0c5a5e-0001" "7f0c5a5e-0002" 1730505600000 "2024-11-02 00:00:00"
    (fun _ => Some (mkApiResult 202 [] (Json (VObj [])))) connection_refused.

Definition location_only : api_result :=
  mkApiResult 201
    [("location", ["https://wallet.example/merchant/incoming-payments/abc"])]
    (Text "Created").

(** A wallet that answers 201 with a [Location] header and a body that is
    not JSON. *)
Definition wallet_location_only : world :=
  mkWorld "7f0c5a5e-0001" "7f0c5a5e-0002" 1730505600000 "2024-11-02 00:00:00"
    (fun _ => Some location_only) connection_refused.

(** A resource that reports [completed] for payment [1b9d6bcd-0001], and a
    wallet that serves it. *)
Definition completed : api_result :=
  mkApiResult 200 []
    (Json (VObj [("status", VStr "completed");
                 ("metadata", VObj [("localId", VStr "1b9d6bcd-0001")])])).

Definition wallet_completed : world :=
  mkWorld "7f0c5a5e-0003" "7f0c5a5e-0004" 1730505600000 "2024-11-02 00:00:05"
    (fun _ => Some completed) connection_refused.

Definition empty : state := mkState [] [].

Definition request (amount : value) : value :=
  VObj [("amount", amount); ("payee", VStr merchant)].

(** A stored payment whose resource URL is known. *)
Definition stored : payment :=
  mkPayment "1b9d6bcd-0002" "1b9d6bcd-0001" (of_Z 5) (SqlText "MXN")
    (SqlText merchant)
    (SqlText "created")
    (SqlText "https://wallet.example/merchant/incoming-payments/abc")
    (SqlText "{}") "2024-11-02 00:00:00".

Definition one_payment : state := mkState [stored] [].

(** A webhook notification that names the payment and carries no [id]. *)
Definition webhook_without_id : value :=
  VObj [("status", VStr "completed");
        ("metadata", VObj [("localId", VStr "1b9d6bcd-0001")])].

(** A webhook notification that names no payment. *)
Definition webhook_without_localId : value :=
  VObj [("status", VStr "completed"); ("id", VStr "https://wallet.example/x")].

Definition resource : string :=
  "https://wallet.example/merchant/incoming-payments/abc".

(** A wallet that is down behind its gateway: 503 and a page of HTML. *)
Definition unavailable : api_result :=
  mkApiResult 503 [] (Text "<html>Service Unavailable</html>").

Definition wallet_unavailable : world :=
  mkWorld "7f0c5a5e-0001" "7f0c5a5e-0002" 1730505600000 "2024-11-02 00:00:00"
    (fun _ => Some unavailable) connection_refused.

(** A wallet that cannot be reached. *)
Definition wallet_unreachable : world :=
  mkWorld "7f0c5a5e-0001" "7f0c5a5e-0002" 1730505600000 "2024-11-02 00:00:00"
    (fun _ => None) connection_refused.

(** A wallet that answers 201 while the key drawn for the new row is the
    one of the stored payment. *)
Definition wallet_same_key : world :=
  mkWorld "7f0c5a5e-0001" "1b9d6bcd-0002" 1730505600000 "2024-11-02 00:00:00"
    (fun _ => Some (mkApiResult 201 [] (Json created_body))) connection_refused.

Definition request_expiring (seconds : value) : value :=
  VObj [("amount", VNum (of_Z 5)); ("payee", VStr merchant);
        ("expiresInSeconds", seconds)].

Definition request_to (payee : value) : value :=
  VObj [("amount", VNum (of_Z 5)); ("payee", payee)].

(** A webhook notification that names the payment and whose status is not
    a text or a number. *)
Definition webhook_with_odd_status : value :=
  VObj [("status", VBool true);
        ("id", VStr "https://wallet.example/x");
        ("metadata", VObj [("localId", VStr "1b9d6bcd-0001")])].

(** A webhook notification whose [localId] is an array of one text, and
    one whose status is such an array. *)
Definition webhook_with_array_localId : value :=
  VObj [("status", VStr "completed");
        ("metadata", VObj [("localId", VArr [VStr "1b9d6bcd-0001"])])].

Definition webhook_with_array_status : value :=
  VObj [("status", VArr [VStr "settled"]);
        ("id", VStr "https://wallet.example/x");
        ("metadata", VObj [("localId", VStr "1b9d6bcd-0001")])].

(** A webhook notification that names a payment the table does not hold. *)
Definition webhook_for_unknown : value :=
  VObj [("status", VStr "completed");
        ("metadata", VObj [("localId", VStr "00000000-0000")])].

(** A webhook notification with a status and the resource's URL. *)
Definition webhook_completed : value :=
  VObj [("data",
         VObj [("id", VStr "https://wallet.example/merchant/incoming-payments/xyz");
               ("status", VStr "completed");
               ("metadata", VObj [("localId", VStr "1b9d6bcd-0001")])])].

(** A resource that reports [completed] for a payment the table does not
    hold, and a wallet that serves it. *)
Definition completed_unknown : api_result :=
  mkApiResult 200 []
    (Json (VObj [("status", VStr "completed");
                 ("metadata", VObj [("localId", VStr "00000000-0000")])])).

Definition wallet_completed_unknown : world :=
  mkWorld "7f0c5a5e-0003" "7f0c5a5e-0004" 1730505600000 "2024-11-02 00:00:05"
    (fun _ => Some completed_unknown) connection_refused.

(** A resource whose status is a boolean, and a wallet that serves it. *)
Definition odd_status : api_result :=
  mkApiResult 200 []
    (Json (VObj [("status", VBool true);
                 ("metadata", VObj [("localId", VStr "1b9d6bcd-0001")])])).

Definition wallet_odd_status : world :=
  mkWorld "7f0c5a5e-0003" "7f0c5a5e-0004" 1730505600000 "2024-11-02 00:00:05"
    (fun _ => Some odd_status) connection_refused.

(** The resource of the payment that [wallet_created] helps create, as
    completed, and a wallet that serves it. *)
Definition completed_new : api_result :=
  mkApiResult 200 []
    (Json (VObj [("status", VStr "completed");
                 ("metadata", VObj [("localId", VStr "7f0c5a5e-0001")])])).

Definition wallet_completed_new : world :=
  mkWorld "7f0c5a5e-0003" "7f0c5a5e-0004" 1730505660000 "2024-11-02 00:01:00"
    (fun _ => Some completed_new) connection_refused.

(** The webhook notification for that payment. *)
Definition webhook_completed_new : value :=
  VObj [("data",
         VObj [("id", VStr "https://wallet.example/merchant/incoming-payments/abc");
               ("status", VStr "completed");
               ("metadata", VObj [("localId", VStr "7f0c5a5e-0001")])])].

(** A wallet that answers 201 with a [Location] header and a JSON body
    without an [id]. *)
Definition location_and_json : api_result :=
  mkApiResult 201
    [("location", ["https://wallet.example/merchant/incoming-payments/abc"])]
    (Json (VObj [("status", VStr "pending")])).

Definition wallet_location_and_json : world :=
  mkWorld "7f0c5a5e-0001" "7f0c5a5e-0002" 1730505600000 "2024-11-02 00:00:00"
    (fun _ => Some location_and_json) connection_refused.

(** A request whose amount is an object with a [toString] field. *)
Definition request_unconvertible : value :=
  VObj [("amount", VObj [("toString", VNum (of_Z 1))]);
        ("payee", VStr merchant)].

(** A request whose currency is the empty array, and a wallet that answers
    201 with an [id] that is an array of two texts. *)
Definition request_without_currency_values : value :=
  VObj [("amount", VNum (of_Z 5)); ("payee", VStr merchant);
        ("currency", VArr [])].

Definition two_ids : api_result :=
  mkApiResult 201 [] (Json (VObj [("id", VArr [VStr "x"; VStr "y"])])).

Definition wallet_two_ids : world :=
  mkWorld "7f0c5a5e-0001" "7f0c5a5e-0002" 1730505600000 "2024-11-02 00:00:00"
    (fun _ => Some two_ids) connection_refused.

(** Runs of the handlers on the data above. *)
Definition paid : response * state :=
  createPayment cfg wallet_created (request (VNum (of_Z 5))) empty.

Definition paid_accepted : response * state :=
  createPayment cfg wallet_accepted (request (VNum (of_Z 5))) empty.

Definition paid_again : response * state :=
  createPayment cfg wallet_created (request (VNum (of_Z 5))) one_payment.

Definition paid_without_json : response * state :=
  createPayment cfg wallet_location_only (request (VNum (of_Z 5))) empty.

Definition paid_with_location_and_json : response * state :=
  createPayment cfg wallet_location_and_json (request (VNum (of_Z 5))) empty.

Definition refused_unconvertible : response * state :=
  createPayment cfg wallet_created request_unconvertible one_payment.

Definition paid_shifted : response * state :=
  createPayment cfg wallet_two_ids request_without_currency_values empty.

Definition paid_infinity_text : response * state :=
  createPayment cfg wallet_created (request (VStr "Infinity")) empty.

Definition paid_infinity_number : response * state :=
  createPayment cfg wallet_created (request (VNum pos_infinity)) empty.

Definition just_below_tie : value := VStr "1.1149999999999999".

Definition paid_just_below_tie : response * state :=
  createPayment cfg wallet_created (request just_below_tie) empty.

Definition paid_1e19 : response * state :=
  createPayment cfg wallet_created (request (VStr "1e19")) empty.

Definition paid_435 : response * state :=
  createPayment cfg wallet_created (request (VStr "4.35")) empty.

Definition refused_negative : response * state :=
  createPayment cfg wallet_created (request (VStr "-3")) one_payment.


Definition notified_without_id : response * state :=
  applyWebhook webhook_without_id one_payment.

End Sample.

(* ===================================================================== *)
(** ** Properties *)
(* ===================================================================== *)

Import JsNum Js Store Server Spec.
Local Open Scope handler_scope.

Arguments ToNumber : simpl never.
Arguments ToString : simpl never.
Arguments JSON_stringify : simpl never.
Arguments valueInt_of : simpl never.
Arguments Number_toString : simpl never.
Arguments StringToNumber : simpl never.
Arguments Date_toISOString : simpl never.
Arguments strip_trailing_slashes : simpl never.
Arguments strip_leading_slashes : simpl never.
Arguments mul : simpl never.
Arguments add : simpl never.
Arguments of_Z : simpl never.
Arguments Math_pow10 : simpl never.

(** *** The number model on known results *)

Example parse_and_print_a_tenth :
  Number_toString (StringToNumber "0.1") = "0.1".
Proof. vm_compute. reflexivity. Qed.

Example sum_of_a_tenth_and_a_fifth :
  Number_toString (add (StringToNumber "0.1") (StringToNumber "0.2"))
  = "0.30000000000000004".
Proof. vm_compute. reflexivity. Qed.

Example product_of_4_35_and_100 :
  Number_toString (mul (StringToNumber "4.35") (Math_pow10 2))
  = "434.99999999999994".
Proof. vm_compute. reflexivity. Qed.

Example print_exponent_from_1e21 :
  Number_toString (StringToNumber "1e21") = "1e+21" /\
  Number_toString (StringToNumber "123456789012345680000")
  = "123456789012345680000" /\
  Number_toString (StringToNumber "0.0000001") = "1e-7".
Proof. vm_compute. repeat split. Qed.

Example print_beyond_the_significand :
  Number_toString (of_Z (2 ^ 60)) = "1152921504606847000" /\
  Number_toString (StringToNumber "9007199254740993") = "9007199254740992".
Proof. vm_compute. repeat split. Qed.

Example parse_odd_texts :
  StringToNumber "  42  " = of_Z 42 /\
  StringToNumber EmptyString = pos_zero /\
  StringToNumber "0x1F" = of_Z 31 /\
  StringToNumber "-Infinity" = neg_infinity /\
  StringToNumber "1e400" = pos_infinity /\
  StringToNumber "12px" = nan /\
  StringToNumber "." = nan.
Proof. vm_compute. repeat split. Qed.

Example round_ties_go_up :
  Math_round (StringToNumber "2.5") = of_Z 3 /\
  Math_round (StringToNumber "-2.5") = of_Z (-2) /\
  Math_round (StringToNumber "-0.2") = neg_zero /\
  Math_round (StringToNumber "0.49999999999999994") = pos_zero.
Proof. vm_compute. repeat split. Qed.

Example small_integers_are_exact :
  of_Z 100 = binary_normalize prec emax 100 0 false /\
  of_Z (2 ^ 53 - 1) = binary_normalize prec emax (2 ^ 53 - 1) 0 false /\
  valid_binary prec emax (of_Z 201) = true.
Proof. vm_compute. repeat split. Qed.

Example arrays_and_objects_as_numbers :
  ToNumber (VArr []) = pos_zero /\
  ToNumber (VArr [VStr "5"]) = of_Z 5 /\
  ToNumber (VArr [VNum (of_Z 1); VNum (of_Z 2)]) = nan /\
  ToNumber (VObj []) = nan.
Proof. vm_compute. repeat split. Qed.

Example iso_text_of_a_time :
  Date_toISOString (of_Z 1730505600000) = Some "2024-11-02T00:00:00.000Z" /\
  Date_toISOString (of_Z 8640000000000001) = None.
Proof. vm_compute. repeat split. Qed.

(** *** The scenarios of the specification *)

(** A payment of 5.00 MXN answered 201 with an [id]: stored as "created"
    with that resource URL, and 500 minor units were asked for. *)
Example scenario_created :
  succeeded (fst Sample.paid) = true /\
  map status (payments (snd Sample.paid)) = [SqlText "created"] /\
  map resource_url (payments (snd Sample.paid))
  = [SqlText "https://wallet.example/merchant/incoming-payments/abc"] /\
  map sent_value (sent (snd Sample.paid)) = [VStr "500"] /\
  map out_url (sent (snd Sample.paid))
  = ["https://wallet.example/merchant/incoming-payments"].
Proof. vm_compute. repeat split. Qed.

(** The same payment answered 202 without an [id]: stored as "pending" with
    no resource URL. *)
Example scenario_pending :
  succeeded (fst Sample.paid_accepted) = true /\
  map status (payments (snd Sample.paid_accepted)) = [SqlText "pending"] /\
  map resource_url (payments (snd Sample.paid_accepted)) = [SqlNull].
Proof. vm_compute. repeat split. Qed.

(** The wallet cannot be reached: [fetch] rejects, the handler answers 500
    with the text of the error, the call is in the log and nothing is
    stored. *)
Example scenario_unreachable :
  createPayment Sample.cfg Sample.wallet_unreachable
    (Sample.request (VNum (of_Z 5))) Sample.one_payment
  = (failure 500
       ("FetchError: request to "
        ++ "https://wallet.example/merchant/incoming-payments"
        ++ " failed, reason: connect ECONNREFUSED 203.0.113.7:443"),
     mkState (payments Sample.one_payment)
       [creation_call Sample.cfg
          "https://wallet.example/merchant/incoming-payments"
          (payload_of (VStr "MXN") (VStr Sample.merchant)
             (VStr "Pago por servicio (5 MXN)") (of_Z 5) "7f0c5a5e-0001")]).
Proof. vm_compute. reflexivity. Qed.

(** A poll and a webhook that name a payment the table does not hold are
    answered as any other, and change no row. *)
Example scenario_unknown_payment :
  code (fst (pollStatus Sample.cfg Sample.wallet_completed_unknown
               Sample.resource Sample.one_payment)) = 200 /\
  payments (snd (pollStatus Sample.cfg Sample.wallet_completed_unknown
                   Sample.resource Sample.one_payment))
  = payments Sample.one_payment /\
  applyWebhook Sample.webhook_for_unknown Sample.one_payment
  = (mkResponse 200 (TextBody "ok"), Sample.one_payment).
Proof. vm_compute. repeat split. Qed.

(** *** White space, conversions and the arguments of [run] *)

(** U+00A0, U+FEFF and U+2028 around a number are trimmed like blanks. *)
Example parse_between_wide_spaces :
  StringToNumber (String "194" (String "160" "5")) = of_Z 5 /\
  StringToNumber (String "239" (String "187" (String "191" "60"))) = of_Z 60 /\
  StringToNumber ("7" ++ String "226" (String "128" (String "168" " ")))
  = of_Z 7 /\
  StringToNumber (String "160" "5") = nan.
Proof. vm_compute. repeat split. Qed.

Example conversions_that_throw :
  ToPrimitive_throws (VObj [("toString", VNum (of_Z 1))]) = true /\
  ToPrimitive_throws (VArr [VNull; VObj [("toString", VNull)]]) = true /\
  ToPrimitive_throws (VObj [("valueOf", VNum (of_Z 1))]) = false /\
  ToPrimitive_throws (VArr [VStr "5"]) = false.
Proof. vm_compute. repeat split. Qed.

(** An array is spread over the parameters, an object binds none of them,
    a boolean is refused, and the count must come out right. *)
Example arguments_of_run :
  Store.bind 3 [VStr "a"; VNum (of_Z 1); VNull]
  = inr [SqlText "a"; SqlReal (of_Z 1); SqlNull] /\
  Store.bind 3 [VArr [VStr "a"]; VStr "b"; VArr [VStr "c"]]
  = inr [SqlText "a"; SqlText "b"; SqlText "c"] /\
  Store.bind 3 [VArr []; VStr "b"; VArr [VStr "c"; VStr "d"]]
  = inr [SqlText "b"; SqlText "c"; SqlText "d"] /\
  Store.bind 3 [VArr [VStr "a"; VStr "b"]; VStr "c"; VObj []]
  = inr [SqlText "a"; SqlText "b"; SqlText "c"] /\
  Store.bind 3 [VBool true; VStr "b"; VStr "c"] = inl NotBindable /\
  Store.bind 3 [VArr [VArr []]; VStr "b"; VStr "c"] = inl NotBindable /\
  Store.bind 3 [VObj []; VStr "b"; VStr "c"] = inl TooFewValues /\
  Store.bind 3 [VArr [VStr "a"; VStr "b"]; VStr "c"; VStr "d"]
  = inl TooManyValues /\
  Store.bind 3 [VObj []; VStr "b"; VObj []] = inl TwoObjects.
Proof. vm_compute. repeat split. Qed.

(** A [localId] or a status that is an array of one text reaches the
    [UPDATE] as that text: the row is rewritten. *)
Example array_arguments_are_spread :
  map status (payments (snd (applyWebhook Sample.webhook_with_array_localId
                               Sample.one_payment)))
  = [SqlText "completed"] /\
  map resource_url
    (payments (snd (applyWebhook Sample.webhook_with_array_localId
                      Sample.one_payment)))
  = [SqlNull] /\
  map status (payments (snd (applyWebhook Sample.webhook_with_array_status
                               Sample.one_payment)))
  = [SqlText "settled"] /\
  map resource_url
    (payments (snd (applyWebhook Sample.webhook_with_array_status
                      Sample.one_payment)))
  = [SqlText "https://wallet.example/x"].
Proof. vm_compute. repeat split. Qed.

(** When every argument is a number, a string or null and there is one for
    each parameter, the values bound are the arguments, in order. *)
Lemma bind_values_scalars (n : nat) (vs : list value) (ps bound : list sql) :
  Forall2 (fun v p => scalar v = Some p) vs ps ->
  (List.length bound + List.length vs <= n)%nat ->
  bind_values n vs bound = inr (bound ++ ps)%list.
Proof.
  intros H. revert bound.
  induction H as [| v p vs ps Hv _ IH]; intros bound Hn; cbn [bind_values].
  - rewrite app_nil_r. reflexivity.
  - rewrite Hv. cbn [List.length] in Hn.
    assert (Hlt : (List.length bound <? n)%nat = true)
      by (apply Nat.ltb_lt; lia).
    rewrite Hlt, IH.
    + rewrite <- app_assoc. reflexivity.
    + rewrite length_app. cbn. lia.
Qed.

Lemma bind_arguments_scalars (n : nat) (args : list value)
    (ps bound : list sql) (named : bool) :
  Forall2 (fun v p => scalar v = Some p) args ps ->
  (List.length bound + List.length args = n)%nat ->
  bind_arguments n args named bound = inr (bound ++ ps)%list.
Proof.
  intros H. revert bound.
  induction H as [| v p args ps Hv _ IH]; intros bound Hn.
  - cbn [bind_arguments]. cbn in Hn. rewrite app_nil_r.
    assert (Hge : (List.length bound <? n)%nat = false)
      by (apply Nat.ltb_ge; lia).
    rewrite Hge. reflexivity.
  - cbn [List.length] in Hn.
    assert (Hone : bind_values n [v] bound = inr (bound ++ [p])%list).
    { apply bind_values_scalars; [repeat constructor; exact Hv |].
      cbn. lia. }
    assert (Hrest : bind_arguments n args named (bound ++ [p])%list
                    = inr (bound ++ p :: ps)%list).
    { rewrite IH; [rewrite <- app_assoc; reflexivity |].
      rewrite length_app. cbn. lia. }
    destruct v; try discriminate;
      cbn [bind_arguments]; rewrite Hone; exact Hrest.
Qed.

Lemma bind_scalars (args : list value) (ps : list sql) :
  Forall2 (fun v p => scalar v = Some p) args ps ->
  Store.bind (List.length args) args = inr ps.
Proof.
  intros H. unfold Store.bind.
  apply (bind_arguments_scalars _ args ps [] false H). reflexivity.
Qed.

(** *** The handlers as equations *)

Lemma state_eta (s : state) : mkState (payments s) (sent s) = s.
Proof. destruct s. reflexivity. Qed.

(** Lines 69 to 85: the payload is made, or its making throws. *)
Lemma payload_step (w : world) (b : value)
    (k : list (string * value) -> M response) (s : state) :
  bind (memo_of (prop b "amount") (currency_of b) (prop b "memo"))
    (fun memo' =>
       bind (with_expiry w (prop b "expiresInSeconds")
               (payload_of (currency_of b) (prop b "payee") memo'
                  (ToNumber (prop b "amount")) (randomUUID_1 w)))
         k) s
  = match request_payload w b with
    | Ok payload => k payload s
    | Throw e => (Throw e, s)
    end.
Proof.
  assert (Hexp : forall memo',
    bind (with_expiry w (prop b "expiresInSeconds")
            (payload_of (currency_of b) (prop b "payee") memo'
               (ToNumber (prop b "amount")) (randomUUID_1 w))) k s
    = match
        (let e := prop b "expiresInSeconds" in
         let base := payload_of (currency_of b) (prop b "payee") memo'
                       (ToNumber (prop b "amount")) (randomUUID_1 w) in
         if truthy e
         then if ToPrimitive_throws e then Throw conversion_error
              else if lt pos_zero (ToNumber e)
              then match Date_toISOString
                           (add (of_Z (Date_now w))
                              (mul (ToNumber e) (of_Z 1000))) with
                   | Some iso => Ok (base ++ [("expiresAt", VStr iso)])%list
                   | None => Throw (RangeError "Invalid time value")
                   end
              else Ok base
         else Ok base)
      with
      | Ok payload => k payload s
      | Throw e => (Throw e, s)
      end).
  { intros memo'. unfold bind, with_expiry, Number_of. cbv zeta.
    destruct (truthy (prop b "expiresInSeconds")); [| reflexivity].
    destruct (ToPrimitive_throws (prop b "expiresInSeconds"));
      [reflexivity |].
    unfold bind, ret at 1. cbv beta iota.
    destruct (lt pos_zero (ToNumber (prop b "expiresInSeconds")));
      [| reflexivity].
    destruct (Date_toISOString _); reflexivity. }
  unfold request_payload, request_memo. cbv zeta.
  unfold bind at 1. unfold memo_of.
  destruct (truthy (prop b "memo")).
  - unfold ret at 1. cbv beta iota. apply Hexp.
  - unfold bind, String_of.
    destruct (ToPrimitive_throws (prop b "amount")); [reflexivity |].
    unfold ret at 1. cbv beta iota.
    destruct (ToPrimitive_throws (currency_of b)); [reflexivity |].
    unfold ret at 1 2. cbv beta iota. cbn [orb].
    apply (Hexp (VStr (default_memo b))).
Qed.

(** Lines 89 to 108: the call, the insert and the answer. *)
Lemma call_step (cfg : config) (w : world) (b : value) (p : string)
    (payload : list (string * value)) (s : state) :
  handle
    (op <- callApi cfg w (strip_trailing_slashes p ++ "/incoming-payments")
             "POST" (Some (VObj payload)) ;;
     vals <- bind_run 8 [VStr (randomUUID_2 w); VStr (randomUUID_1 w);
                         VNum (ToNumber (prop b "amount")); currency_of b;
                         VStr p; VStr (statusText_of op); resource_url_of op;
                         stringified (op_value op)] ;;
     run_insert (inserted_row (randomUUID_2 w) (randomUUID_1 w)
                   (ToNumber (prop b "amount")) vals (CURRENT_TIMESTAMP w)) ;;;
     ret (mkResponse 200
            (JsonBody (VObj [("success", VBool true);
                             ("localId", VStr (randomUUID_1 w));
                             ("localDbId", VStr (randomUUID_2 w));
                             ("resource_url", resource_url_of op);
                             ("op", op_value op)]))))
    internal_error s
  = outcome_after_call cfg w b p payload s.
Proof.
  unfold handle, outcome_after_call, bind, callApi, creation_call, target_url.
  cbn [truthy]. cbv zeta.
  destruct (remote w _) as [op |]; [| reflexivity].
  unfold bind_run, insert_arguments.
  destruct (Store.bind 8 _) as [e | vals]; [reflexivity |].
  cbn [ret throw].
  unfold run_insert, new_row. cbn [payments sent].
  destruct (Store.insert _ (payments s)); reflexivity.
Qed.

(** [POST /create-payment], outcome by outcome. *)
Lemma createPayment_equation (cfg : config) (w : world) (b : value)
    (s : state) :
  createPayment cfg w b s = create_outcome cfg w b s.
Proof.
  unfold createPayment, create_outcome, create_payment_body.
  unfold handle at 1. unfold bind at 1. unfold destructure.
  destruct (nullish b); [reflexivity |].
  unfold ret at 1. cbv beta iota.
  destruct (negb (truthy (prop b "amount")) || negb (truthy (prop b "payee")));
    [reflexivity |].
  unfold bind at 1. unfold Number_of.
  destruct (ToPrimitive_throws (prop b "amount")); [reflexivity |].
  unfold ret at 1. cbv beta iota.
  destruct (isNaN (ToNumber (prop b "amount"))
            || le (ToNumber (prop b "amount")) pos_zero); [reflexivity |].
  cbv zeta. rewrite payload_step.
  destruct (request_payload w b) as [payload | e]; [| reflexivity].
  unfold bind at 1. unfold replace_receiver.
  destruct (prop b "payee") as [| | | | p | |] eqn:Hp; try reflexivity.
  unfold ret at 1. cbv beta iota.
  apply (call_step cfg w b p payload s).
Qed.

Lemma poll_update_runs (op : api_result) (s : state) :
  try_catch (poll_update op) (fun _ => ret tt) s
  = (Ok tt, mkState (poll_rewrite op (payments s)) (sent s)).
Proof.
  unfold try_catch, poll_update, poll_rewrite, poll_arguments, bind, bind_run.
  cbv zeta.
  destruct (truthy (poll_localId op) && truthy (poll_newStatus op));
    [| unfold ret; rewrite state_eta; reflexivity].
  destruct (Store.bind 3 _) as [e | vals];
    [unfold ret, throw; rewrite state_eta; reflexivity |].
  reflexivity.
Qed.

(** [GET /status/*], outcome by outcome. *)
Lemma pollStatus_equation (cfg : config) (w : world) (raw : string)
    (s : state) :
  pollStatus cfg w raw s =
  match raw with
  | EmptyString => (failure 400 "resource path required", s)
  | _ =>
      let s1 := mkState (payments s) (sent s ++ [poll_call cfg raw])%list in
      match remote w (on_wire (poll_call cfg raw)) with
      | Some op =>
          (mkResponse 200
             (JsonBody (VObj [("success", VBool true); ("op", op_value op)])),
           mkState (poll_rewrite op (payments s))
                   (sent s ++ [poll_call cfg raw])%list)
      | None =>
          (internal_error (fetch_error w (on_wire (poll_call cfg raw))), s1)
      end
  end.
Proof.
  unfold pollStatus, handle, poll_status_body.
  destruct raw as [| c raw']; [reflexivity |].
  unfold bind at 1. unfold callApi.
  fold (poll_call cfg (String c raw')).
  cbv zeta.
  destruct (remote w (on_wire (poll_call cfg (String c raw')))) as [op |];
    [| reflexivity].
  unfold bind. rewrite poll_update_runs. reflexivity.
Qed.

Lemma webhook_update_runs (payload : value) (s : state) :
  try_catch (webhook_update payload) (fun _ => ret tt) s
  = (Ok tt, mkState (webhook_rewrite payload (payments s)) (sent s)).
Proof.
  unfold try_catch, webhook_update, webhook_rewrite, webhook_arguments, bind,
    bind_run.
  cbv zeta.
  destruct (truthy (webhook_localId payload));
    [| unfold ret; rewrite state_eta; reflexivity].
  destruct (Store.bind 4 _) as [e | vals];
    [unfold ret, throw; rewrite state_eta; reflexivity |].
  reflexivity.
Qed.

(** [POST /webhook]: the answer is always "ok", the call log is never
    touched. *)
Lemma applyWebhook_equation (payload : value) (s : state) :
  applyWebhook payload s
  = (mkResponse 200 (TextBody "ok"),
     mkState (webhook_rewrite payload (payments s)) (sent s)).
Proof.
  unfold applyWebhook, handle, webhook_body, bind.
  rewrite webhook_update_runs. reflexivity.
Qed.

(** *** The two [UPDATE] statements *)

Lemma update_status_as_map (st resp : sql) (lid : string) (t : table) :
  update_status st resp (SqlText lid) t
  = map (fun r => if String.eqb (local_id r) lid
                  then with_status (text_affinity st) (text_affinity resp) r
                  else r) t.
Proof. reflexivity. Qed.

Lemma update_status_url_as_map (st resp url : sql) (lid : string) (t : table) :
  update_status_url st resp url (SqlText lid) t
  = map (fun r => if String.eqb (local_id r) lid
                  then with_status_url (text_affinity st) (text_affinity resp)
                         (text_affinity url) r
                  else r) t.
Proof. reflexivity. Qed.

(** The poll's [UPDATE] writes [status] and [op_response] of the rows its
    [WHERE] selects, and nothing else. *)
Lemma update_status_frame (st resp lid : sql) (t : table) :
  Forall2 (fun r r' =>
             same_but_status_and_response r r' /\
             (local_id_is lid r = false -> r' = r) /\
             (local_id_is lid r = true ->
              r' = with_status (text_affinity st) (text_affinity resp) r))
          t (update_status st resp lid t).
Proof.
  unfold update_status.
  induction t as [| r t IH]; cbn [map]; constructor; [| exact IH].
  destruct (local_id_is lid r).
  - split; [repeat split |]. split; [discriminate | reflexivity].
  - split; [repeat split |]. split; [reflexivity | discriminate].
Qed.

(** The webhook's [UPDATE] writes [status], [op_response] and [resource_url]
    of the rows its [WHERE] selects, and nothing else. *)
Lemma update_status_url_frame (st resp url lid : sql) (t : table) :
  Forall2 (fun r r' =>
             (local_id_is lid r = false /\ r' = r) \/
             (local_id_is lid r = true /\
              r' = with_status_url (text_affinity st) (text_affinity resp)
                     (text_affinity url) r))
          t (update_status_url st resp url lid t).
Proof.
  unfold update_status_url.
  induction t as [| r t IH]; cbn [map]; constructor; [| exact IH].
  destruct (local_id_is lid r).
  - right. split; reflexivity.
  - left. split; reflexivity.
Qed.

Lemma update_status_identity (st resp lid : sql) (t : table) :
  Forall2 same_identity t (update_status st resp lid t).
Proof.
  unfold update_status.
  induction t as [| r t IH]; cbn [map]; constructor; [| exact IH].
  destruct (local_id_is lid r); repeat split.
Qed.

Lemma update_status_url_identity (st resp url lid : sql) (t : table) :
  Forall2 same_identity t (update_status_url st resp url lid t).
Proof.
  unfold update_status_url.
  induction t as [| r t IH]; cbn [map]; constructor; [| exact IH].
  destruct (local_id_is lid r); repeat split.
Qed.

Lemma identity_refl (t : table) : Forall2 same_identity t t.
Proof. induction t; constructor; [repeat split | assumption]. Qed.

(** Running the same [UPDATE] again changes nothing more. *)
Lemma update_status_twice (st resp lid : sql) (t : table) :
  update_status st resp lid (update_status st resp lid t)
  = update_status st resp lid t.
Proof.
  unfold update_status. rewrite map_map. apply map_ext. intros r.
  destruct (local_id_is lid r) eqn:Hm.
  - destruct lid; cbn in *; try discriminate. rewrite Hm. reflexivity.
  - rewrite Hm. reflexivity.
Qed.

Lemma update_status_url_twice (st resp url lid : sql) (t : table) :
  update_status_url st resp url lid (update_status_url st resp url lid t)
  = update_status_url st resp url lid t.
Proof.
  unfold update_status_url. rewrite map_map. apply map_ext. intros r.
  destruct (local_id_is lid r) eqn:Hm.
  - destruct lid; cbn in *; try discriminate. rewrite Hm. reflexivity.
  - rewrite Hm. reflexivity.
Qed.

Lemma poll_rewrite_twice (op : api_result) (t : table) :
  poll_rewrite op (poll_rewrite op t) = poll_rewrite op t.
Proof.
  unfold poll_rewrite.
  destruct (truthy (poll_localId op) && truthy (poll_newStatus op));
    [| reflexivity].
  destruct (Store.bind 3 (poll_arguments op)); [reflexivity |].
  apply update_status_twice.
Qed.

Lemma webhook_rewrite_twice (payload : value) (t : table) :
  webhook_rewrite payload (webhook_rewrite payload t)
  = webhook_rewrite payload t.
Proof.
  unfold webhook_rewrite.
  destruct (truthy (webhook_localId payload)); [| reflexivity].
  destruct (Store.bind 4 (webhook_arguments payload)); [reflexivity |].
  apply update_status_url_twice.
Qed.

Lemma poll_rewrite_identity (op : api_result) (t : table) :
  Forall2 same_identity t (poll_rewrite op t).
Proof.
  unfold poll_rewrite.
  destruct (truthy (poll_localId op) && truthy (poll_newStatus op));
    [| apply identity_refl].
  destruct (Store.bind 3 (poll_arguments op)); [apply identity_refl |].
  apply update_status_identity.
Qed.

Lemma webhook_rewrite_identity (payload : value) (t : table) :
  Forall2 same_identity t (webhook_rewrite payload t).
Proof.
  unfold webhook_rewrite.
  destruct (truthy (webhook_localId payload)); [| apply identity_refl].
  destruct (Store.bind 4 (webhook_arguments payload)); [apply identity_refl |].
  apply update_status_url_identity.
Qed.

(** An object always has a JSON text. *)
Lemma stringified_object (ps : list (string * value)) :
  exists t : string,
    JSON_stringify (VObj ps) = Some t /\ stringified (VObj ps) = VStr t.
Proof. unfold stringified. cbn [JSON_stringify]. eexists. split; reflexivity. Qed.

Lemma op_response_text (op : api_result) :
  exists t : string,
    JSON_stringify (op_value op) = Some t /\
    stringified (op_value op) = VStr t.
Proof. unfold op_value. apply stringified_object. Qed.

(** *** How [createPayment] ends *)

Lemma insert_appends (r : payment) (t t' : table) :
  Store.insert r t = Some t' ->
  t' = (t ++ [r])%list /\ existsb (has_id (id r)) t = false.
Proof.
  unfold Store.insert. destruct (existsb _ t); intros [= <-].
  split; reflexivity.
Qed.

Lemma outcome_after_call_cases (cfg : config) (w : world) (b : value)
    (p : string) (payload : list (string * value)) (s : state) :
  let out := outcome_after_call cfg w b p payload s in
  sent (snd out)
  = (sent s ++ [creation_call cfg (target_url p) payload])%list /\
  ((succeeded (fst out) = false /\ code (fst out) = 500 /\
    payments (snd out) = payments s) \/
   (exists (op : api_result) (vals : list sql),
      remote w (on_wire (creation_call cfg (target_url p) payload)) = Some op /\
      Store.bind 8 (insert_arguments w b p op) = inr vals /\
      existsb (has_id (randomUUID_2 w)) (payments s) = false /\
      fst out = created w op /\
      payments (snd out) = (payments s ++ [new_row w b vals])%list)).
Proof.
  unfold outcome_after_call. cbv zeta.
  destruct (remote w _) as [op |] eqn:Hr; [| split; [| left]; repeat split].
  destruct (Store.bind 8 _) as [e | vals] eqn:Hb;
    [split; [| left]; repeat split |].
  destruct (Store.insert _ (payments s)) as [t |] eqn:Hi;
    [| split; [| left]; repeat split].
  apply insert_appends in Hi as [-> Hf].
  split; [reflexivity |]. right.
  exists op, vals. repeat split; assumption.
Qed.

(** What a successful [createPayment] has done: the request passed both
    tests, its amount converts, its payload could be made, its payee is a
    text, one POST went to the wallet, which answered [op], [run] took its
    arguments and one row with a fresh key was appended. *)
Lemma createPayment_success
    (cfg : config) (w : world) (b : value) (s : state)
    (r : response) (s' : state) :
  createPayment cfg w b s = (r, s') ->
  succeeded r = true ->
  exists (payload : list (string * value)) (p : string)
         (op : api_result) (vals : list sql),
    nullish b = false /\
    truthy (prop b "amount") = true /\
    prop b "payee" = VStr p /\
    ToPrimitive_throws (prop b "amount") = false /\
    isNaN (ToNumber (prop b "amount"))
    || le (ToNumber (prop b "amount")) pos_zero = false /\
    request_payload w b = Ok payload /\
    remote w (on_wire (creation_call cfg (target_url p) payload)) = Some op /\
    Store.bind 8 (insert_arguments w b p op) = inr vals /\
    existsb (has_id (randomUUID_2 w)) (payments s) = false /\
    s' = mkState (payments s ++ [new_row w b vals])%list
           (sent s ++ [creation_call cfg (target_url p) payload])%list /\
    r = created w op.
Proof.
  rewrite createPayment_equation. unfold create_outcome.
  destruct (nullish b) eqn:Hn; [intros [= <- _]; discriminate |].
  destruct (negb (truthy (prop b "amount")) || negb (truthy (prop b "payee")))
    eqn:Hpres; [intros [= <- _]; discriminate |].
  destruct (ToPrimitive_throws (prop b "amount")) eqn:Hconv;
    [intros [= <- _]; discriminate |].
  destruct (isNaN (ToNumber (prop b "amount"))
            || le (ToNumber (prop b "amount")) pos_zero) eqn:Hnum;
    [intros [= <- _]; discriminate |].
  destruct (request_payload w b) as [payload | e] eqn:Hpay;
    [| intros [= <- _]; discriminate].
  destruct (prop b "payee") as [| | | | p | |] eqn:Hp;
    try (intros [= <- _]; discriminate).
  intros H Hs.
  destruct (outcome_after_call_cases cfg w b p payload s)
    as [Hsent [(Hf & _) | (op & vals & Hr & Hb & Hfresh & Hfst & Hpm)]].
  - rewrite H in Hf. cbn [fst] in Hf. rewrite Hf in Hs. discriminate.
  - rewrite H in Hsent, Hfst, Hpm. cbn [fst snd] in Hsent, Hfst, Hpm.
    exists payload, p, op, vals.
    apply orb_false_elim in Hpres as [Ha _].
    apply negb_false_iff in Ha.
    repeat split; try assumption.
    destruct s' as [t' l']. cbn in Hsent, Hpm. rewrite Hsent, Hpm.
    reflexivity.
Qed.

Lemma request_payload_shape (w : world) (b : value)
    (payload : list (string * value)) :
  request_payload w b = Ok payload ->
  exists memo : value,
    request_memo b = Ok memo /\
    (payload = payload_of (currency_of b) (prop b "payee") memo
                 (ToNumber (prop b "amount")) (randomUUID_1 w) \/
     exists iso : string,
       payload = (payload_of (currency_of b) (prop b "payee") memo
                    (ToNumber (prop b "amount")) (randomUUID_1 w)
                  ++ [("expiresAt", VStr iso)])%list).
Proof.
  unfold request_payload. cbv zeta.
  destruct (request_memo b) as [memo | e]; [| discriminate].
  intros H. exists memo. split; [reflexivity |].
  destruct (truthy (prop b "expiresInSeconds"));
    [| injection H as <-; left; reflexivity].
  destruct (ToPrimitive_throws (prop b "expiresInSeconds")); [discriminate |].
  destruct (lt pos_zero (ToNumber (prop b "expiresInSeconds")));
    [| injection H as <-; left; reflexivity].
  destruct (Date_toISOString _) as [iso |]; [| discriminate].
  injection H as <-. right. exists iso. reflexivity.
Qed.

(** When [createPayment] has made a call, the request passed both tests,
    its payload could be made and its payee is a text; the call is the one
    POST for that payload. *)
Lemma createPayment_call_made
    (cfg : config) (w : world) (b : value) (s : state)
    (r : response) (s' : state) :
  createPayment cfg w b s = (r, s') ->
  sent s' <> sent s ->
  exists (p : string) (payload : list (string * value)),
    ToPrimitive_throws (prop b "amount") = false /\
    isNaN (ToNumber (prop b "amount"))
    || le (ToNumber (prop b "amount")) pos_zero = false /\
    request_payload w b = Ok payload /\
    prop b "payee" = VStr p /\
    sent s' = (sent s ++ [creation_call cfg (target_url p) payload])%list.
Proof.
  rewrite createPayment_equation. unfold create_outcome.
  destruct (nullish b);
    [intros [= _ <-] Hn; contradiction Hn; reflexivity |].
  destruct (negb (truthy (prop b "amount")) || negb (truthy (prop b "payee")));
    [intros [= _ <-] Hn; contradiction Hn; reflexivity |].
  destruct (ToPrimitive_throws (prop b "amount"));
    [intros [= _ <-] Hn; contradiction Hn; reflexivity |].
  destruct (isNaN (ToNumber (prop b "amount"))
            || le (ToNumber (prop b "amount")) pos_zero);
    [intros [= _ <-] Hn; contradiction Hn; reflexivity |].
  destruct (request_payload w b) as [payload | e];
    [| intros [= _ <-] Hn; contradiction Hn; reflexivity].
  destruct (prop b "payee") as [| | | | p | |];
    try (intros [= _ <-] Hn; contradiction Hn; reflexivity).
  intros H _.
  pose proof (outcome_after_call_cases cfg w b p payload s) as [Hsent _].
  rewrite H in Hsent. cbn [snd] in Hsent.
  exists p, payload. repeat split. exact Hsent.
Qed.

(** *** Validation in [createPayment] *)

(** The numeric test lets through exactly the positive finite numbers and
    [+Infinity]. *)
Lemma numeric_test_accepts (x : number) :
  isNaN x || le x pos_zero = false <->
  x = pos_infinity \/ (isFinite x = true /\ lt pos_zero x = true).
Proof.
  destruct x as [[|] | [|] | | [|] m e]; cbn; split;
    try discriminate; try tauto;
    try (intros [H | [H1 H2]]; discriminate).
Qed.

(** A falsy [amount] or [payee] stops the handler at the presence test. *)
Lemma presence_test (cfg : config) (w : world) (b : value) (s : state) :
  parsed_body b ->
  truthy (prop b "amount") = false \/ truthy (prop b "payee") = false ->
  createPayment cfg w b s = (failure 400 "amount and payee required", s).
Proof.
  intros Hb Hf. rewrite createPayment_equation. unfold create_outcome.
  unfold parsed_body in Hb. rewrite Hb.
  destruct Hf as [-> | ->]; [reflexivity |].
  rewrite orb_true_r. reflexivity.
Qed.

(** Past the presence test, an [amount] that [Number] cannot convert makes
    the handler throw, and the answer is 500. *)
Lemma conversion_failure (cfg : config) (w : world) (b : value) (s : state) :
  parsed_body b ->
  truthy (prop b "amount") = true ->
  truthy (prop b "payee") = true ->
  ToPrimitive_throws (prop b "amount") = true ->
  createPayment cfg w b s = (internal_error conversion_error, s).
Proof.
  intros Hb Ha Hp Hc. rewrite createPayment_equation. unfold create_outcome.
  unfold parsed_body in Hb. rewrite Hb, Ha, Hp, Hc. reflexivity.
Qed.

(** Past the presence test, a NaN or non-positive [Number(amount)] stops the
    handler at the numeric test. *)
Lemma numeric_test (cfg : config) (w : world) (b : value) (s : state) :
  parsed_body b ->
  truthy (prop b "amount") = true ->
  truthy (prop b "payee") = true ->
  ToPrimitive_throws (prop b "amount") = false ->
  isNaN (ToNumber (prop b "amount")) || le (ToNumber (prop b "amount")) pos_zero
    = true ->
  createPayment cfg w b s = (failure 400 "invalid amount", s).
Proof.
  intros Hb Ha Hp Hc Hn. rewrite createPayment_equation. unfold create_outcome.
  unfold parsed_body in Hb. rewrite Hb, Ha, Hp, Hc, Hn. reflexivity.
Qed.

(** C10. A request whose [amount] is the number 0, the empty string or any
    other falsy value is rejected at the presence test, with status 400 and
    the message "amount and payee required"; it never reaches the numeric
    test and its message "invalid amount". Nothing is stored or sent. *)
Theorem falsy_amount_is_reported_missing
    (cfg : config) (w : world) (b : value) (s : state) :
  parsed_body b ->
  truthy (prop b "amount") = false ->
  createPayment cfg w b s = (failure 400 "amount and payee required", s) /\
  fst (createPayment cfg w b s) <> failure 400 "invalid amount".
Proof.
  intros Hb Ha.
  rewrite (presence_test cfg w b s Hb (or_introl Ha)).
  split; [reflexivity | discriminate].
Qed.

Lemma falsy_amount_is_reported_missing_witness :
  (createPayment Sample.cfg Sample.wallet_created
     (Sample.request (VNum pos_zero)) Sample.empty
   = (failure 400 "amount and payee required", Sample.empty) /\
   fst (createPayment Sample.cfg Sample.wallet_created
          (Sample.request (VNum pos_zero)) Sample.empty)
   <> failure 400 "invalid amount") /\
  (createPayment Sample.cfg Sample.wallet_created
     (Sample.request (VStr EmptyString)) Sample.empty
   = (failure 400 "amount and payee required", Sample.empty) /\
   fst (createPayment Sample.cfg Sample.wallet_created
          (Sample.request (VStr EmptyString)) Sample.empty)
   <> failure 400 "invalid amount").
Proof.
  split.
  - apply (falsy_amount_is_reported_missing Sample.cfg Sample.wallet_created
             (Sample.request (VNum pos_zero)) Sample.empty); reflexivity.
  - apply (falsy_amount_is_reported_missing Sample.cfg Sample.wallet_created
             (Sample.request (VStr EmptyString)) Sample.empty); reflexivity.
Defined.

(** C4, at a request the handler should refuse with a validation error.
    The amount of this request is an object with a [toString] field of its
    own: it is not numeric, so the request fails validation in the
    specification's sense; [Number(amount)] throws, and the answer is 500
    with the text of the TypeError, not a 400 with a validation message.
    Nothing is stored or sent. The same request with the empty object as
    its amount is refused as the specification says: [Number] makes NaN of
    it, and the answer is 400 "invalid amount". *)
Theorem unconvertible_amount_is_answered_500 :
  parsed_body Sample.request_unconvertible /\
  fails_validation Sample.request_unconvertible /\
  Sample.refused_unconvertible
  = (failure 500 "TypeError: Cannot convert object to primitive value",
     Sample.one_payment) /\
  code (fst Sample.refused_unconvertible) <> 400 /\
  fails_validation (Sample.request (VObj [])) /\
  createPayment Sample.cfg Sample.wallet_created (Sample.request (VObj []))
    Sample.one_payment
  = (failure 400 "invalid amount", Sample.one_payment).
Proof.
  split; [reflexivity |].
  split; [right; right; left; vm_compute; reflexivity |].
  split; [vm_compute; reflexivity |].
  split; [vm_compute; discriminate |].
  split; [right; right; left; vm_compute; reflexivity |].
  vm_compute. reflexivity.
Qed.

(** *** The webhook *)

(** C7. A webhook payload in which none of [data.metadata.localId],
    [metadata.localId] and [metadata.local_id] is truthy is answered with
    200 and the text "ok", and changes no row of the table. *)
Theorem webhook_without_localId_changes_nothing (payload : value) (s : state) :
  truthy (at_path payload ["data"; "metadata"; "localId"]) = false ->
  truthy (at_path payload ["metadata"; "localId"]) = false ->
  truthy (at_path payload ["metadata"; "local_id"]) = false ->
  applyWebhook payload s = (mkResponse 200 (TextBody "ok"), s).
Proof.
  unfold at_path. simpl fold_left. intros H1 H2 H3.
  rewrite applyWebhook_equation. f_equal.
  transitivity (mkState (payments s) (sent s)); [| apply state_eta].
  f_equal. unfold webhook_rewrite, webhook_localId, or_else.
  rewrite H1, H2, H3. reflexivity.
Qed.

Lemma webhook_without_localId_changes_nothing_witness :
  applyWebhook Sample.webhook_without_localId Sample.one_payment
  = (mkResponse 200 (TextBody "ok"), Sample.one_payment).
Proof.
  apply (webhook_without_localId_changes_nothing
           Sample.webhook_without_localId Sample.one_payment); reflexivity.
Defined.

(** *** What a successful [createPayment] stores, sends and returns *)

(** C9. After a successful [createPayment] the same [localId] is in the
    three places that carry it: the [localId] field of the response, the
    [metadata.localId] of the payload of the one outbound call, and the
    [local_id] column of the one row appended to the table. *)
Theorem localId_is_the_same_everywhere
    (cfg : config) (w : world) (b : value) (s : state)
    (r : response) (s' : state) :
  createPayment cfg w b s = (r, s') ->
  succeeded r = true ->
  exists (localId : string) (row : payment) (o : outbound) (payload : value),
    payments s' = (payments s ++ [row])%list /\
    sent s' = (sent s ++ [o])%list /\
    out_body o = Some payload /\
    response_field r "localId" = VStr localId /\
    at_path payload ["metadata"; "localId"] = VStr localId /\
    local_id row = localId.
Proof.
  intros H Hs.
  destruct (createPayment_success cfg w b s r s' H Hs)
    as (payload & p & op & vals & _ & _ & _ & _ & _ & Hpay & _ & _ & _
        & -> & ->).
  destruct (request_payload_shape w b payload Hpay) as (memo & _ & Hp).
  eexists (randomUUID_1 w), _, _, (VObj payload).
  repeat split.
  destruct Hp as [-> | [iso ->]]; reflexivity.
Qed.

Lemma localId_is_the_same_everywhere_witness :
  exists (localId : string) (row : payment) (o : outbound) (payload : value),
    payments (snd Sample.paid_again)
    = (payments Sample.one_payment ++ [row])%list /\
    sent (snd Sample.paid_again) = (sent Sample.one_payment ++ [o])%list /\
    out_body o = Some payload /\
    response_field (fst Sample.paid_again) "localId" = VStr localId /\
    at_path payload ["metadata"; "localId"] = VStr localId /\
    local_id row = localId.
Proof.
  apply (localId_is_the_same_everywhere Sample.cfg Sample.wallet_created
           (Sample.request (VNum (of_Z 5))) Sample.one_payment
           (fst Sample.paid_again) (snd Sample.paid_again)).
  - vm_compute. reflexivity.
  - vm_compute. reflexivity.
Defined.

(** C5, at a request where the stored status is neither. The request's
    currency is the empty array and the wallet answers 201 with an [id]
    that is an array of two texts. [insert.run] is given eight arguments;
    the driver spreads the two arrays over the parameters, so the eight
    values bound are the key, the localId, the amount, the payee,
    "created", "x", "y" and the JSON text: the answer is success, and the
    row stored under status code 201 has status "x", while "created" sits
    in its [payee] column. *)
Theorem shifted_values_store_another_status :
  api_status Sample.two_ids = 201 /\
  statusText_of Sample.two_ids = "created" /\
  match Store.bind 8
          (insert_arguments Sample.wallet_two_ids
             Sample.request_without_currency_values Sample.merchant
             Sample.two_ids) with
  | inr vals => firstn 7 vals
  | inl _ => []
  end
  = [SqlText "7f0c5a5e-0002"; SqlText "7f0c5a5e-0001"; SqlReal (of_Z 5);
     SqlText Sample.merchant; SqlText "created"; SqlText "x"; SqlText "y"] /\
  succeeded (fst Sample.paid_shifted) = true /\
  code (fst Sample.paid_shifted) = 200 /\
  map status (payments (snd Sample.paid_shifted)) = [SqlText "x"] /\
  map payee (payments (snd Sample.paid_shifted)) = [SqlText "created"] /\
  map currency (payments (snd Sample.paid_shifted))
  = [SqlText Sample.merchant] /\
  map resource_url (payments (snd Sample.paid_shifted)) = [SqlText "y"].
Proof.
  vm_compute. repeat split.
Qed.

(** C2, at an amount the handler should refuse: the text "Infinity", and
    the number a JSON body such as [1e999] parses to, are truthy, are not
    NaN and are not [<= 0], so the request passes the numeric test although
    the amount is not finite; the payment is stored with an infinite amount
    and the value "Infinity" is sent to the wallet. *)
Theorem infinite_amount_passes_validation :
  ToNumber (VStr "Infinity") = pos_infinity /\
  isFinite pos_infinity = false /\
  succeeded (fst Sample.paid_infinity_text) = true /\
  fst Sample.paid_infinity_text <> failure 400 "invalid amount" /\
  map amount (payments (snd Sample.paid_infinity_text)) = [pos_infinity] /\
  map sent_value (sent (snd Sample.paid_infinity_text)) = [VStr "Infinity"] /\
  succeeded (fst Sample.paid_infinity_number) = true /\
  map amount (payments (snd Sample.paid_infinity_number)) = [pos_infinity] /\
  map sent_value (sent (snd Sample.paid_infinity_number)) = [VStr "Infinity"].
Proof.
  vm_compute. repeat split; discriminate.
Qed.

(** C3, at a response the handler should take the header from. The wallet
    answers 201 with a [Location] header and a body that is not JSON: the
    specification's wording gives the header's value, the handler stores
    and returns null. With the same header and a JSON body without an [id]
    the handler does take the header's value. *)
Theorem location_header_is_ignored_without_json :
  succeeded (fst Sample.paid_without_json) = true /\
  claimed_resource_url Sample.location_only =
    VStr "https://wallet.example/merchant/incoming-payments/abc" /\
  response_field (fst Sample.paid_without_json) "resource_url" = VNull /\
  map resource_url (payments (snd Sample.paid_without_json)) = [SqlNull] /\
  response_field (fst Sample.paid_without_json) "resource_url"
    <> claimed_resource_url Sample.location_only /\
  succeeded (fst Sample.paid_with_location_and_json) = true /\
  response_field (fst Sample.paid_with_location_and_json) "resource_url"
  = VStr "https://wallet.example/merchant/incoming-payments/abc" /\
  map resource_url (payments (snd Sample.paid_with_location_and_json))
  = [SqlText "https://wallet.example/merchant/incoming-payments/abc"].
Proof.
  vm_compute. repeat split; discriminate.
Qed.

(** *** Minor units *)

Lemma digits2_pos_size (p : positive) : digits2_pos p = Pos.size p.
Proof. induction p; cbn; congruence. Qed.

(** A positive integer below [2^53] has at most 53 binary digits. *)
Lemma digits2_small (p : positive) :
  Zpos p < 2 ^ 53 -> Zpos (digits2_pos p) <= 53.
Proof.
  intros Hp. rewrite digits2_pos_size.
  destruct (Z_le_gt_dec (Zpos (Pos.size p)) 53) as [H | H]; [exact H |].
  exfalso.
  pose proof (Pos.size_le p) as Hle.
  assert (H2 : 2 ^ 54 <= 2 ^ Zpos (Pos.size p))
    by (apply Z.pow_le_mono_r; lia).
  assert (H3 : 2 ^ Zpos (Pos.size p) <= Zpos (p~0)).
  { change (2 ^ Zpos (Pos.size p)) with (Zpos 2 ^ Zpos (Pos.size p)).
    rewrite <- Pos2Z.inj_pow. exact Hle. }
  change (2 ^ 54) with (2 * 2 ^ 53) in H2. lia.
Qed.

Lemma shiftl_pos (p : positive) (n : N) :
  Zpos (Pos.shiftl p n) = Zpos p * 2 ^ Z.of_N n.
Proof.
  change (Zpos (Pos.shiftl p n)) with (Z.of_N (N.shiftl (Npos p) n)).
  rewrite N2Z.inj_shiftl. apply Z.shiftl_mul_pow2. apply N2Z.is_nonneg.
Qed.

(** The integer shifted up to fill the significand still denotes itself. *)
Lemma to_integer_shifted (p : positive) (n : N) :
  to_integer (S754_finite false (Pos.shiftl p n) (- Z.of_N n)) = Some (Zpos p).
Proof.
  destruct n as [| j]; cbn [Z.of_N Z.opp to_integer].
  - cbn [Pos.shiftl]. rewrite Z.mul_1_r. reflexivity.
  - assert (E : Zpos (Pos.shiftl p (Npos j)) = Zpos p * Zpos (2 ^ j)).
    { rewrite shiftl_pos. cbn [Z.of_N]. rewrite Pos2Z.inj_pow. reflexivity. }
    rewrite E. rewrite Z.mod_mul by discriminate.
    rewrite Z.div_mul by discriminate. reflexivity.
Qed.

(** A finite number that denotes an integer below [2^53] in magnitude prints
    as that integer. *)
Lemma integer_toString (s : bool) (m : positive) (e : Z) (q : positive) :
  to_integer (S754_finite false m e) = Some (Zpos q) ->
  Zpos q < 2 ^ 53 ->
  Number_toString (S754_finite s m e)
  = Z_to_string (if s then Zneg q else Zpos q).
Proof.
  intros Hi Hq. unfold Number_toString, positive_toString.
  rewrite Hi.
  destruct (Z.ltb_spec (Zpos q) (2 ^ 53)) as [_ | H]; [| lia].
  destruct s; reflexivity.
Qed.

Lemma of_pos_toString (s : bool) (p : positive) :
  Zpos p < 2 ^ 53 ->
  Number_toString (of_pos s p) = Z_to_string (if s then Zneg p else Zpos p).
Proof.
  intros Hz. unfold of_pos.
  assert (Hd : Zpos (digits2_pos p) <= 53) by (apply digits2_small; exact Hz).
  destruct (Z.leb_spec (Zpos (digits2_pos p)) prec) as [_ | H];
    [| unfold prec in H; lia].
  replace (Zpos (digits2_pos p) - prec)
    with (- Z.of_N (Z.to_N (prec - Zpos (digits2_pos p))))
    by (unfold prec; rewrite Z2N.id; lia).
  apply integer_toString; [apply to_integer_shifted | exact Hz].
Qed.

Lemma of_Z_toString (z : Z) :
  Z.abs z < 2 ^ 53 -> Number_toString (of_Z z) = Z_to_string z.
Proof.
  intros Hz. destruct z as [| p | p]; [reflexivity | |]; unfold of_Z.
  - apply (of_pos_toString false p). exact Hz.
  - apply (of_pos_toString true p). exact Hz.
Qed.

(** Rounding half up, on the significand and exponent. *)
Lemma round_half_up_fraction (s : bool) (m k : positive) :
  round_half_up (to_Q (S754_finite s m (Zneg k)))
  = (2 * (if s then Zneg m else Zpos m) + Zpos (2 ^ k)) / Zpos (2 ^ (k + 1)).
Proof.
  unfold round_half_up, to_Q.
  assert (E : Zpos (2 ^ (k + 1)) = Zpos (2 ^ k * 2)).
  { rewrite Pos.add_1_r, Pos.pow_succ_r. f_equal. apply Pos.mul_comm. }
  rewrite E.
  destruct s; unfold Qopp, Qplus, Qfloor; cbn [Qnum Qden];
    f_equal; lia.
Qed.

Lemma round_half_up_integer (s : bool) (m : positive) (e : Z) :
  0 <= e ->
  round_half_up (to_Q (S754_finite s m e))
  = if s then - (Zpos m * 2 ^ e) else Zpos m * 2 ^ e.
Proof.
  intros He. unfold round_half_up, to_Q.
  assert (Hv : (match e with
                | Zneg k => Zpos m # 2 ^ k
                | _ => (Zpos m * 2 ^ e) # 1
                end) = (Zpos m * 2 ^ e) # 1)
    by (destruct e; [reflexivity | reflexivity | lia]).
  rewrite Hv.
  destruct s; unfold Qopp, Qplus, Qfloor; cbn [Qnum Qden].
  - replace (- (Zpos m * 2 ^ e) * 2 + 1 * 1)
      with (1 + - (Zpos m * 2 ^ e) * 2) by lia.
    rewrite Z.div_add by discriminate. reflexivity.
  - replace (Zpos m * 2 ^ e * 2 + 1 * 1)
      with (1 + Zpos m * 2 ^ e * 2) by lia.
    rewrite Z.div_add by discriminate. reflexivity.
Qed.

(** [Math.round(x).toString()] of a finite [x] whose rounding stays below
    [2^53] in magnitude is the decimal text of [floor (x + 1/2)]. *)
Lemma round_toString (s : bool) (m : positive) (e : Z) :
  Z.abs (round_half_up (to_Q (S754_finite s m e))) < 2 ^ 53 ->
  Number_toString (Math_round (S754_finite s m e))
  = Z_to_string (round_half_up (to_Q (S754_finite s m e))).
Proof.
  destruct e as [| e | k].
  - rewrite round_half_up_integer by lia. intros Hb.
    cbn [Math_round].
    assert (Hq : exists q, Zpos m * 2 ^ 0 = Zpos q) by (exists m; lia).
    destruct Hq as [q Hq]. rewrite Hq in *.
    rewrite (integer_toString s m 0 q).
    + destruct s; reflexivity.
    + cbn [to_integer]. rewrite Hq. reflexivity.
    + destruct s; lia.
  - rewrite round_half_up_integer by lia. intros Hb.
    cbn [Math_round].
    assert (Hq : exists q, Zpos m * 2 ^ Zpos e = Zpos q).
    { exists (m * 2 ^ e)%positive. rewrite Pos2Z.inj_mul, Pos2Z.inj_pow.
      reflexivity. }
    destruct Hq as [q Hq]. rewrite Hq in *.
    rewrite (integer_toString s m (Zpos e) q).
    + destruct s; reflexivity.
    + cbn [to_integer]. rewrite Hq. reflexivity.
    + destruct s; lia.
  - rewrite round_half_up_fraction. intros Hb.
    cbn [Math_round].
    set (z := (2 * (if s then Zneg m else Zpos m) + Zpos (2 ^ k))
              / Zpos (2 ^ (k + 1))) in *.
    destruct z as [| p | p] eqn:Hz.
    + reflexivity.
    + apply of_Z_toString. exact Hb.
    + apply of_Z_toString. exact Hb.
Qed.

(** *** The value sent *)

(** C8, as it stands, fails. The amount "1.1149999999999999" is accepted;
    both the decimal itself and the number it parses to, times 100, are
    below 111.5, so [round(a * 100)] is 111; the product computed in
    floating point is 111.5 and the value sent is "112". And the amount
    "1e19" is accepted and the value sent is "1e+21", which is not the text
    of an integer in base 10. *)
Lemma product_is_rounded_before_rounding :
  succeeded (fst Sample.paid_just_below_tie) = true /\
  map sent_value (sent (snd Sample.paid_just_below_tie)) = [VStr "112"] /\
  claimed_minor_units (to_Q (ToNumber Sample.just_below_tie)) = "111" /\
  claimed_minor_units (11149999999999999 # 10000000000000000) = "111" /\
  map sent_value (sent (snd Sample.paid_just_below_tie))
    <> [VStr (claimed_minor_units (to_Q (ToNumber Sample.just_below_tie)))] /\
  succeeded (fst Sample.paid_1e19) = true /\
  map sent_value (sent (snd Sample.paid_1e19)) = [VStr "1e+21"] /\
  claimed_minor_units (to_Q (ToNumber (VStr "1e19")))
  = "1000000000000000000000".
Proof.
  vm_compute. repeat split; discriminate.
Qed.

(** C8, amended. Whenever [createPayment] makes its outbound call, and the
    floating-point product [p] of the parsed amount and 100 is finite with
    [floor (p + 1/2)] below [2^53] in magnitude, the [incomingAmount.value]
    sent is the base-10 text of the integer [floor (p + 1/2)]. *)
Theorem value_sent_is_rounded_product
    (cfg : config) (w : world) (b : value) (s : state)
    (r : response) (s' : state) (sg : bool) (m : positive) (e : Z) :
  createPayment cfg w b s = (r, s') ->
  sent s' <> sent s ->
  mul (ToNumber (prop b "amount")) (Math_pow10 assetScale)
    = S754_finite sg m e ->
  Z.abs (round_half_up (to_Q (S754_finite sg m e))) < 2 ^ 53 ->
  exists o : outbound,
    sent s' = (sent s ++ [o])%list /\
    sent_value o
    = VStr (Z_to_string (round_half_up (to_Q (S754_finite sg m e)))).
Proof.
  intros H Hsent Hp Hb.
  destruct (createPayment_call_made cfg w b s r s' H Hsent)
    as (p & payload & _ & _ & Hpay & _ & ->).
  destruct (request_payload_shape w b payload Hpay) as (memo & _ & Hshape).
  eexists. split; [reflexivity |].
  assert (Hv : valueInt_of (ToNumber (prop b "amount"))
               = Z_to_string (round_half_up (to_Q (S754_finite sg m e)))).
  { unfold valueInt_of. rewrite Hp. apply round_toString. exact Hb. }
  unfold sent_value, creation_call. cbn [out_body].
  destruct Hshape as [-> | [iso ->]]; unfold at_path, payload_of;
    cbn; rewrite Hv; reflexivity.
Qed.

Lemma value_sent_is_rounded_product_witness :
  exists o : outbound,
    sent (snd Sample.paid_435) = (sent Sample.empty ++ [o])%list /\
    sent_value o
    = VStr (Z_to_string
              (round_half_up
                 (to_Q (S754_finite false 7652600929320959 (-44))))).
Proof.
  apply (value_sent_is_rounded_product Sample.cfg Sample.wallet_created
           (Sample.request (VStr "4.35")) Sample.empty
           (fst Sample.paid_435) (snd Sample.paid_435)).
  - vm_compute. reflexivity.
  - vm_compute. discriminate.
  - vm_compute. reflexivity.
  - vm_compute. reflexivity.
Defined.

(** *** What [run] binds *)






(** *** Polling *)




(** A row the [WHERE] selects holds the text bound to it. *)
Lemma selected_row (lid : sql) (r : payment) :
  local_id_is lid r = true -> lid = SqlText (local_id r).
Proof.
  destruct lid; try discriminate. cbn. intros H.
  apply String.eqb_eq in H. rewrite H. reflexivity.
Qed.

(** A poll that got the answer [op] either leaves the table alone or has
    run the [UPDATE], on the values [run] bound, under a truthy [localId]
    and a truthy status. *)
Lemma poll_rewrite_cases (op : api_result) (t : table) :
  poll_rewrite op t = t \/
  truthy (poll_localId op) = true /\
  truthy (poll_newStatus op) = true /\
  exists vals : list sql,
    Store.bind 3 (poll_arguments op) = inr vals /\
    poll_rewrite op t
    = update_status (value_at 0 vals) (value_at 1 vals) (value_at 2 vals) t.
Proof.
  unfold poll_rewrite.
  destruct (truthy (poll_localId op)); [| left; reflexivity].
  destruct (truthy (poll_newStatus op)); [| left; reflexivity].
  cbn [andb].
  destruct (Store.bind 3 (poll_arguments op)) as [e | vals];
    [left; reflexivity |].
  right. split; [reflexivity |]. split; [reflexivity |].
  exists vals. split; reflexivity.
Qed.



(** *** The resource URL of a stored payment *)

(** Whatever a poll answers, the table is as it was or went through the
    poll's [UPDATE]. *)
Lemma pollStatus_table (cfg : config) (w : world) (raw : string) (s : state) :
  payments (snd (pollStatus cfg w raw s)) = payments s \/
  exists st resp lid : sql,
    payments (snd (pollStatus cfg w raw s))
    = update_status st resp lid (payments s).
Proof.
  rewrite pollStatus_equation.
  destruct raw as [| c raw']; [left; reflexivity |]. cbv zeta.
  destruct (remote w _) as [op |]; [| left; reflexivity].
  cbn [snd payments].
  destruct (poll_rewrite_cases op (payments s))
    as [-> | (_ & _ & vals & _ & ->)]; [left; reflexivity |].
  right. eexists _, _, _. reflexivity.
Qed.

Lemma webhook_resource_url_as_claimed (payload : value) :
  webhook_resource_url payload = claimed_webhook_url payload.
Proof.
  unfold webhook_resource_url, claimed_webhook_url, at_path, or_else.
  cbn [fold_left].
  destruct (truthy (opt (opt payload "data") "id")) eqn:H1.
  - rewrite H1. reflexivity.
  - destruct (truthy (opt payload "id")); reflexivity.
Qed.

Lemma webhook_localId_as_claimed (payload : value) :
  webhook_localId payload = claimed_webhook_localId payload.
Proof.
  unfold webhook_localId, claimed_webhook_localId, at_path, or_else.
  cbn [fold_left].
  destruct (truthy (opt (opt (opt payload "data") "metadata") "localId"))
    eqn:H1.
  - rewrite !H1. reflexivity.
  - destruct (truthy (opt (opt payload "metadata") "localId")) eqn:H2.
    + rewrite H2. reflexivity.
    + destruct (truthy (opt (opt payload "metadata") "local_id"));
        reflexivity.
Qed.

(** A webhook either leaves the table alone or has run its [UPDATE] on the
    values [run] bound. *)
Lemma webhook_rewrite_cases (payload : value) (t : table) :
  webhook_rewrite payload t = t \/
  truthy (webhook_localId payload) = true /\
  exists vals : list sql,
    Store.bind 4 (webhook_arguments payload) = inr vals /\
    webhook_rewrite payload t
    = update_status_url (value_at 0 vals) (value_at 1 vals)
        (value_at 2 vals) (value_at 3 vals) t.
Proof.
  unfold webhook_rewrite.
  destruct (truthy (webhook_localId payload)); [| left; reflexivity].
  destruct (Store.bind 4 (webhook_arguments payload)) as [e | vals];
    [left; reflexivity |].
  right. split; [reflexivity |]. exists vals. split; reflexivity.
Qed.

(** A payload that names a payment is an object. *)
Lemma named_payload_is_object (payload : value) :
  truthy (webhook_localId payload) = true ->
  exists ps : list (string * value), payload = VObj ps.
Proof.
  destruct payload; try discriminate. intros _. eexists. reflexivity.
Qed.

Lemma nonempty_text_is_truthy (t : string) :
  t <> EmptyString -> truthy (VStr t) = true.
Proof. destruct t; [intros H; contradiction H |]; reflexivity. Qed.

(** The ordinary webhook: its [localId] is a text and its status and URL
    are each a number, a text or null. [run] then binds, in order, the
    status, the JSON text of the payload, the URL and the [localId]. *)
Lemma webhook_rewrite_named (payload : value) (lid : string) (st url : sql)
    (t : table) :
  webhook_localId payload = VStr lid ->
  lid <> EmptyString ->
  scalar (webhook_newStatus payload) = Some st ->
  scalar (webhook_resource_url payload) = Some url ->
  exists json : string,
    JSON_stringify payload = Some json /\
    Store.bind 4 (webhook_arguments payload)
    = inr [st; SqlText json; url; SqlText lid] /\
    webhook_rewrite payload t
    = map (fun r => if String.eqb (local_id r) lid
                    then with_status_url (text_affinity st) (SqlText json)
                           (text_affinity url) r
                    else r) t.
Proof.
  intros Hl Hne Hs Hu.
  assert (Htl : truthy (webhook_localId payload) = true).
  { rewrite Hl. apply nonempty_text_is_truthy. exact Hne. }
  destruct (named_payload_is_object payload Htl) as [ps ->].
  destruct (stringified_object ps) as (json & Hj & Hsj).
  exists json. split; [exact Hj |].
  assert (Hb : Store.bind 4 (webhook_arguments (VObj ps))
               = inr [st; SqlText json; url; SqlText lid]).
  { unfold webhook_arguments. rewrite Hsj, Hl.
    apply (bind_scalars
             [webhook_newStatus (VObj ps); VStr json;
              webhook_resource_url (VObj ps); VStr lid]).
    repeat constructor; assumption. }
  split; [exact Hb |].
  unfold webhook_rewrite. rewrite Htl, Hb.
  apply update_status_url_as_map.
Qed.

(** C1, as it stands, fails: the stored payment has a resource URL; a
    webhook that names the payment and carries neither [data.id] nor [id]
    is answered "ok" and leaves the row with a null resource URL. *)
Lemma webhook_without_id_erases_resource_url :
  map resource_url (payments Sample.one_payment)
  = [SqlText "https://wallet.example/merchant/incoming-payments/abc"] /\
  claimed_webhook_localId Sample.webhook_without_id
  = VStr (local_id Sample.stored) /\
  at_path Sample.webhook_without_id ["data"; "id"] = VUndefined /\
  at_path Sample.webhook_without_id ["id"] = VUndefined /\
  fst Sample.notified_without_id = mkResponse 200 (TextBody "ok") /\
  map resource_url (payments (snd Sample.notified_without_id)) = [SqlNull].
Proof.
  vm_compute. repeat split.
Qed.

(** C1, amended. No poll ever changes the [resource_url] of a row. A
    webhook changes a row only when its [UPDATE] runs, only if the row's
    [local_id] is the text bound to the [WHERE], and then the row's
    [resource_url] is the value bound to that column. For a webhook whose
    [localId] is a non-empty text and whose status and URL are each a
    number, a text or null, the rows rewritten are exactly those whose
    [local_id] is that [localId], and each of them gets the URL the webhook
    supplies: [data.id] or [id] when one of them is there, and null when
    neither is. *)
Theorem resource_url_is_set_by_webhooks_only :
  (forall (cfg : config) (w : world) (raw : string) (s : state),
      Forall2 (fun r r' => resource_url r' = resource_url r)
              (payments s) (payments (snd (pollStatus cfg w raw s)))) /\
  (forall (payload : value) (s : state),
      Forall2 (fun r r' =>
                 r' = r \/
                 exists vals : list sql,
                   Store.bind 4 (webhook_arguments payload) = inr vals /\
                   value_at 3 vals = SqlText (local_id r) /\
                   resource_url r' = text_affinity (value_at 2 vals))
              (payments s) (payments (snd (applyWebhook payload s)))) /\
  (forall (payload : value) (s : state) (lid : string) (st url : sql),
      claimed_webhook_localId payload = VStr lid ->
      lid <> EmptyString ->
      scalar (webhook_newStatus payload) = Some st ->
      scalar (claimed_webhook_url payload) = Some url ->
      Forall2 (fun r r' =>
                 if String.eqb (local_id r) lid
                 then resource_url r' = text_affinity url
                 else r' = r)
              (payments s) (payments (snd (applyWebhook payload s))) /\
      (truthy (at_path payload ["data"; "id"]) = false ->
       truthy (at_path payload ["id"]) = false ->
       url = SqlNull)).
Proof.
  split; [| split].
  - intros cfg w raw s.
    destruct (pollStatus_table cfg w raw s) as [-> | (st & resp & lid & ->)].
    + induction (payments s); constructor; [reflexivity | assumption].
    + eapply Forall2_impl; [| apply (update_status_frame st resp lid)].
      intros r r' [(_ & _ & _ & _ & _ & Hu & _) _]. exact Hu.
  - intros payload s.
    rewrite applyWebhook_equation. cbn [snd payments].
    destruct (webhook_rewrite_cases payload (payments s))
      as [-> | (_ & vals & Hb & ->)].
    + induction (payments s); constructor; [left; reflexivity | assumption].
    + eapply Forall2_impl;
        [| apply (update_status_url_frame (value_at 0 vals) (value_at 1 vals)
                    (value_at 2 vals) (value_at 3 vals))].
      intros r r' [[_ ->] | [Hm ->]]; [left; reflexivity |].
      right. exists vals. split; [exact Hb |].
      split; [apply selected_row; exact Hm | reflexivity].
  - intros payload s lid st url Hl Hne Hs Hu.
    rewrite <- webhook_localId_as_claimed in Hl.
    split.
    + rewrite <- webhook_resource_url_as_claimed in Hu.
      rewrite applyWebhook_equation. cbn [snd payments].
      destruct (webhook_rewrite_named payload lid st url (payments s)
                  Hl Hne Hs Hu) as (json & _ & _ & ->).
      induction (payments s) as [| r t IH]; cbn [map]; constructor;
        [| exact IH].
      destruct (String.eqb (local_id r) lid); reflexivity.
    + intros H1 H2. unfold claimed_webhook_url in Hu.
      rewrite H1, H2 in Hu. injection Hu as <-. reflexivity.
Qed.

Lemma resource_url_is_set_by_webhooks_only_witness :
  Forall2 (fun r r' =>
             if String.eqb (local_id r) "1b9d6bcd-0001"
             then resource_url r'
                  = text_affinity
                      (SqlText
                         "https://wallet.example/merchant/incoming-payments/xyz")
             else r' = r)
          (payments Sample.one_payment)
          (payments (snd (applyWebhook Sample.webhook_completed
                            Sample.one_payment))).
Proof.
  apply (proj2 (proj2 resource_url_is_set_by_webhooks_only)
           Sample.webhook_completed Sample.one_payment "1b9d6bcd-0001"
           (SqlText "completed")
           (SqlText "https://wallet.example/merchant/incoming-payments/xyz")).
  - vm_compute. reflexivity.
  - discriminate.
  - vm_compute. reflexivity.
  - vm_compute. reflexivity.
Defined.

(* ===================================================================== *)
(** ** Further properties of the handlers *)
(* ===================================================================== *)

(** *** How [createPayment] ends *)

(** X1. A row is stored exactly when the handler answers success. Answering
    success (status 200), [createPayment] has appended one row to the table
    and made one outbound call; answering anything else (status 400 or 500),
    it has left the table as it was. *)
Theorem createPayment_stores_iff_success
    (cfg : config) (w : world) (b : value) (s : state) :
  (succeeded (fst (createPayment cfg w b s)) = true /\
   code (fst (createPayment cfg w b s)) = 200 /\
   exists (row : payment) (o : outbound),
     payments (snd (createPayment cfg w b s)) = (payments s ++ [row])%list /\
     sent (snd (createPayment cfg w b s)) = (sent s ++ [o])%list) \/
  (succeeded (fst (createPayment cfg w b s)) = false /\
   (code (fst (createPayment cfg w b s)) = 400 \/
    code (fst (createPayment cfg w b s)) = 500) /\
   payments (snd (createPayment cfg w b s)) = payments s).
Proof.
  rewrite createPayment_equation. unfold create_outcome.
  destruct (nullish b); [right; repeat split; right; reflexivity |].
  destruct (negb (truthy (prop b "amount")) || negb (truthy (prop b "payee")));
    [right; repeat split; left; reflexivity |].
  destruct (ToPrimitive_throws (prop b "amount"));
    [right; repeat split; right; reflexivity |].
  destruct (isNaN (ToNumber (prop b "amount"))
            || le (ToNumber (prop b "amount")) pos_zero);
    [right; repeat split; left; reflexivity |].
  destruct (request_payload w b) as [payload | e];
    [| right; repeat split; right; reflexivity].
  destruct (prop b "payee") as [| | | | p | |];
    try (right; repeat split; right; reflexivity).
  destruct (outcome_after_call_cases cfg w b p payload s)
    as [Hsent [(Hs & Hc & Hp) | (op & vals & _ & _ & _ & Hr & Hp)]].
  - right. rewrite Hs, Hc, Hp. repeat split. right. reflexivity.
  - left. rewrite Hr, Hp, Hsent. repeat split.
    eexists _, _. split; reflexivity.
Qed.

(** When the currency and the resource URL are each a number, a text or
    null, [run] binds its eight arguments as they stand. *)
Lemma insert_arguments_bound (w : world) (b : value) (p : string)
    (op : api_result) (pc pu : sql) :
  scalar (currency_of b) = Some pc ->
  scalar (resource_url_of op) = Some pu ->
  exists t : string,
    JSON_stringify (op_value op) = Some t /\
    Store.bind 8 (insert_arguments w b p op)
    = inr [SqlText (randomUUID_2 w); SqlText (randomUUID_1 w);
           SqlReal (ToNumber (prop b "amount")); pc; SqlText p;
           SqlText (statusText_of op); pu; SqlText t].
Proof.
  intros Hc Hu.
  destruct (op_response_text op) as (t & Hj & Hs).
  exists t. split; [exact Hj |].
  unfold insert_arguments. rewrite Hs.
  apply (bind_scalars
           [VStr (randomUUID_2 w); VStr (randomUUID_1 w);
            VNum (ToNumber (prop b "amount")); currency_of b; VStr p;
            VStr (statusText_of op); resource_url_of op; VStr t]).
  repeat constructor; assumption.
Qed.

(** X2. A request with a truthy amount that converts to a number above
    zero and a payee that is a non-empty text, whose payload can be made
    (neither the memo nor the expiry throws), whose currency is a number, a
    text or null and whose key is fresh, succeeds whatever status code the
    wallet answers with, as long as the resource URL read from the answer
    is a number, a text or null: the answer is returned as it is and the
    row is stored. *)
Theorem createPayment_succeeds
    (cfg : config) (w : world) (b : value) (s : state)
    (p : string) (payload : list (string * value)) (op : api_result)
    (pc pu : sql) :
  parsed_body b ->
  truthy (prop b "amount") = true ->
  ToPrimitive_throws (prop b "amount") = false ->
  isNaN (ToNumber (prop b "amount")) || le (ToNumber (prop b "amount")) pos_zero
    = false ->
  prop b "payee" = VStr p ->
  p <> EmptyString ->
  request_payload w b = Ok payload ->
  remote w (on_wire (creation_call cfg (target_url p) payload)) = Some op ->
  scalar (currency_of b) = Some pc ->
  scalar (resource_url_of op) = Some pu ->
  existsb (has_id (randomUUID_2 w)) (payments s) = false ->
  exists t : string,
    JSON_stringify (op_value op) = Some t /\
    createPayment cfg w b s
    = (created w op,
       mkState
         (payments s ++
          [mkPayment (randomUUID_2 w) (randomUUID_1 w)
             (ToNumber (prop b "amount")) (text_affinity pc) (SqlText p)
             (SqlText (statusText_of op)) (text_affinity pu) (SqlText t)
             (CURRENT_TIMESTAMP w)])%list
         (sent s ++ [creation_call cfg (target_url p) payload])%list).
Proof.
  intros Hb Ha Hconv Hv Hp Hne Hpay Hr Hc Hu Hfresh.
  destruct (insert_arguments_bound w b p op pc pu Hc Hu) as (t & Hj & Hbind).
  exists t. split; [exact Hj |].
  rewrite createPayment_equation. unfold create_outcome.
  unfold parsed_body in Hb. rewrite Hb, Ha, Hconv, Hv, Hpay, Hp.
  rewrite (nonempty_text_is_truthy p Hne). cbn [negb orb].
  unfold outcome_after_call. rewrite Hr, Hbind.
  unfold Store.insert, new_row, inserted_row. cbn [id]. rewrite Hfresh.
  reflexivity.
Qed.

Lemma createPayment_succeeds_witness :
  exists t : string,
    JSON_stringify (op_value Sample.unavailable) = Some t /\
    createPayment Sample.cfg Sample.wallet_unavailable
      (Sample.request (VNum (of_Z 5))) Sample.one_payment
    = (created Sample.wallet_unavailable Sample.unavailable,
       mkState
         (payments Sample.one_payment ++
          [mkPayment (randomUUID_2 Sample.wallet_unavailable)
             (randomUUID_1 Sample.wallet_unavailable)
             (ToNumber (prop (Sample.request (VNum (of_Z 5))) "amount"))
             (text_affinity (SqlText "MXN")) (SqlText Sample.merchant)
             (SqlText (statusText_of Sample.unavailable))
             (text_affinity SqlNull) (SqlText t)
             (CURRENT_TIMESTAMP Sample.wallet_unavailable)])%list
         (sent Sample.one_payment ++
          [creation_call Sample.cfg (target_url Sample.merchant)
             (payload_of (VStr "MXN") (VStr Sample.merchant)
                (VStr "Pago por servicio (5 MXN)") (of_Z 5)
                "7f0c5a5e-0001")])%list).
Proof.
  apply (createPayment_succeeds Sample.cfg Sample.wallet_unavailable
           (Sample.request (VNum (of_Z 5))) Sample.one_payment
           Sample.merchant
           (payload_of (VStr "MXN") (VStr Sample.merchant)
              (VStr "Pago por servicio (5 MXN)") (of_Z 5) "7f0c5a5e-0001")
           Sample.unavailable (SqlText "MXN") SqlNull).
  - reflexivity.
  - reflexivity.
  - reflexivity.
  - reflexivity.
  - reflexivity.
  - discriminate.
  - vm_compute. reflexivity.
  - reflexivity.
  - reflexivity.
  - reflexivity.
  - reflexivity.
Defined.

(** X3. A request that passes validation but whose payee is not a string (a
    number, [true], an array, an object) is answered 500; no call is made
    and nothing is stored. *)
Theorem payee_that_is_no_string
    (cfg : config) (w : world) (b : value) (s : state) :
  parsed_body b ->
  truthy (prop b "amount") = true ->
  truthy (prop b "payee") = true ->
  isNaN (ToNumber (prop b "amount")) || le (ToNumber (prop b "amount")) pos_zero
    = false ->
  (forall p : string, prop b "payee" <> VStr p) ->
  code (fst (createPayment cfg w b s)) = 500 /\
  succeeded (fst (createPayment cfg w b s)) = false /\
  snd (createPayment cfg w b s) = s.
Proof.
  intros Hb Ha Hp Hv Hns.
  rewrite createPayment_equation. unfold create_outcome.
  unfold parsed_body in Hb. rewrite Hb, Ha, Hp, Hv. cbn [negb orb].
  destruct (ToPrimitive_throws (prop b "amount")); [repeat split |].
  destruct (request_payload w b); [| repeat split].
  destruct (prop b "payee") as [| | | | p | |]; try solve [repeat split].
  exfalso. apply (Hns p). reflexivity.
Qed.

Lemma payee_that_is_no_string_witness :
  code (fst (createPayment Sample.cfg Sample.wallet_created
               (Sample.request_to (VNum (of_Z 42))) Sample.one_payment)) = 500 /\
  succeeded (fst (createPayment Sample.cfg Sample.wallet_created
                    (Sample.request_to (VNum (of_Z 42))) Sample.one_payment))
  = false /\
  snd (createPayment Sample.cfg Sample.wallet_created
         (Sample.request_to (VNum (of_Z 42))) Sample.one_payment)
  = Sample.one_payment.
Proof.
  apply (payee_that_is_no_string Sample.cfg Sample.wallet_created
           (Sample.request_to (VNum (of_Z 42))) Sample.one_payment).
  - reflexivity.
  - reflexivity.
  - reflexivity.
  - reflexivity.
  - intros p. vm_compute. discriminate.
Defined.

(** X4. A valid request whose memo can be made (it has a truthy memo, or its
    currency converts to text) and which asks for an expiry that is no date
    any more (the clock plus the seconds asked for leaves the range of
    dates) is answered 500 with the RangeError of [toISOString]; no call is
    made and nothing is stored. *)
Theorem expiry_out_of_range
    (cfg : config) (w : world) (b : value) (s : state) :
  parsed_body b ->
  truthy (prop b "amount") = true ->
  truthy (prop b "payee") = true ->
  ToPrimitive_throws (prop b "amount") = false ->
  isNaN (ToNumber (prop b "amount")) || le (ToNumber (prop b "amount")) pos_zero
    = false ->
  truthy (prop b "memo") = true \/
  ToPrimitive_throws (currency_of b) = false ->
  truthy (prop b "expiresInSeconds") = true ->
  ToPrimitive_throws (prop b "expiresInSeconds") = false ->
  lt pos_zero (ToNumber (prop b "expiresInSeconds")) = true ->
  Date_toISOString
    (add (of_Z (Date_now w))
       (mul (ToNumber (prop b "expiresInSeconds")) (of_Z 1000))) = None ->
  createPayment cfg w b s
  = (failure 500 "RangeError: Invalid time value", s).
Proof.
  intros Hb Ha Hp Hconv Hv Hmemo He Hec Hpos Hd.
  rewrite createPayment_equation. unfold create_outcome, request_payload.
  unfold parsed_body in Hb. cbv zeta.
  rewrite Hb, Ha, Hp, Hconv, Hv. cbn [negb orb].
  assert (Hm : exists memo, request_memo b = Ok memo).
  { unfold request_memo. rewrite Hconv. cbn [orb].
    destruct (truthy (prop b "memo")); [eexists; reflexivity |].
    destruct Hmemo as [Hm | Hm]; [discriminate |].
    rewrite Hm. eexists. reflexivity. }
  destruct Hm as [memo ->].
  rewrite He, Hec, Hpos, Hd. reflexivity.
Qed.

Lemma expiry_out_of_range_witness :
  createPayment Sample.cfg Sample.wallet_created
    (Sample.request_expiring (VStr "1e300")) Sample.one_payment
  = (failure 500 "RangeError: Invalid time value", Sample.one_payment).
Proof.
  apply (expiry_out_of_range Sample.cfg Sample.wallet_created
           (Sample.request_expiring (VStr "1e300")) Sample.one_payment);
    try (right; vm_compute; reflexivity); vm_compute; reflexivity.
Defined.

(** X5. Once [callApi] has been asked to make the call, a failure (the
    wallet gives no answer, [run] refuses the arguments of the [INSERT], the
    key of the new row is taken) is answered 500 and leaves the table as it
    was, while the call is in the log: whatever the wallet created when it
    got the call has no row. *)
Theorem failure_after_the_call
    (cfg : config) (w : world) (b : value) (s : state)
    (p : string) (payload : list (string * value)) :
  parsed_body b ->
  truthy (prop b "amount") = true ->
  ToPrimitive_throws (prop b "amount") = false ->
  isNaN (ToNumber (prop b "amount")) || le (ToNumber (prop b "amount")) pos_zero
    = false ->
  prop b "payee" = VStr p ->
  p <> EmptyString ->
  request_payload w b = Ok payload ->
  (remote w (on_wire (creation_call cfg (target_url p) payload)) = None \/
   exists op : api_result,
     remote w (on_wire (creation_call cfg (target_url p) payload)) = Some op /\
     ((exists e : bind_failure,
          Store.bind 8 (insert_arguments w b p op) = inl e) \/
      existsb (has_id (randomUUID_2 w)) (payments s) = true)) ->
  code (fst (createPayment cfg w b s)) = 500 /\
  succeeded (fst (createPayment cfg w b s)) = false /\
  payments (snd (createPayment cfg w b s)) = payments s /\
  sent (snd (createPayment cfg w b s))
  = (sent s ++ [creation_call cfg (target_url p) payload])%list.
Proof.
  intros Hb Ha Hconv Hv Hp Hne Hpay Hfail.
  rewrite createPayment_equation. unfold create_outcome.
  unfold parsed_body in Hb. rewrite Hb, Ha, Hconv, Hv, Hpay, Hp.
  rewrite (nonempty_text_is_truthy p Hne). cbn [negb orb].
  destruct (outcome_after_call_cases cfg w b p payload s)
    as [Hsent [(Hs & Hc & Ht) | (op & vals & Hr & Hbind & Hf & _)]].
  - repeat split; assumption.
  - exfalso. destruct Hfail as [H | (op' & Hr' & [[e H] | H])].
    + rewrite H in Hr. discriminate.
    + rewrite Hr' in Hr. injection Hr as ->. rewrite H in Hbind. discriminate.
    + rewrite H in Hf. discriminate.
Qed.

Lemma failure_after_the_call_witness :
  code (fst (createPayment Sample.cfg Sample.wallet_same_key
               (Sample.request (VNum (of_Z 5))) Sample.one_payment)) = 500 /\
  succeeded (fst (createPayment Sample.cfg Sample.wallet_same_key
                    (Sample.request (VNum (of_Z 5))) Sample.one_payment))
  = false /\
  payments (snd (createPayment Sample.cfg Sample.wallet_same_key
                   (Sample.request (VNum (of_Z 5))) Sample.one_payment))
  = payments Sample.one_payment /\
  sent (snd (createPayment Sample.cfg Sample.wallet_same_key
               (Sample.request (VNum (of_Z 5))) Sample.one_payment))
  = (sent Sample.one_payment ++
     [creation_call Sample.cfg (target_url Sample.merchant)
        (payload_of (VStr "MXN") (VStr Sample.merchant)
           (VStr "Pago por servicio (5 MXN)") (of_Z 5)
           "7f0c5a5e-0001")])%list.
Proof.
  apply (failure_after_the_call Sample.cfg Sample.wallet_same_key
           (Sample.request (VNum (of_Z 5))) Sample.one_payment
           Sample.merchant
           (payload_of (VStr "MXN") (VStr Sample.merchant)
              (VStr "Pago por servicio (5 MXN)") (of_Z 5) "7f0c5a5e-0001")).
  - reflexivity.
  - reflexivity.
  - reflexivity.
  - reflexivity.
  - reflexivity.
  - discriminate.
  - vm_compute. reflexivity.
  - right. eexists. split; [reflexivity |]. right. reflexivity.
Defined.
(** *** Slashes *)

Lemma string_of_list_app (l1 l2 : list ascii) :
  string_of_list_ascii (l1 ++ l2)
  = string_of_list_ascii l1 ++ string_of_list_ascii l2.
Proof. induction l1 as [| c l1 IH]; cbn; [reflexivity | rewrite IH; reflexivity]. Qed.

Lemma list_of_string_app (s1 s2 : string) :
  list_ascii_of_string (s1 ++ s2)
  = (list_ascii_of_string s1 ++ list_ascii_of_string s2)%list.
Proof. induction s1 as [| c s1 IH]; cbn; [reflexivity | rewrite IH; reflexivity]. Qed.

Lemma slashes_repeat (n : nat) :
  string_of_list_ascii (repeat "/"%char n) = slashes n.
Proof. induction n as [| n IH]; cbn; [reflexivity | rewrite IH; reflexivity]. Qed.

(** [drop_slashes] removes the slashes in front, all of them. *)
Lemma drop_slashes_spec (l : list ascii) :
  (exists n : nat, l = (repeat "/"%char n ++ drop_slashes l)%list) /\
  (forall t : list ascii, drop_slashes l <> "/"%char :: t).
Proof.
  induction l as [| c l [[n Hn] Hd]].
  - split; [exists 0%nat; reflexivity | discriminate].
  - cbn [drop_slashes].
    destruct (Ascii.eqb_spec c "/"%char) as [-> | Hc].
    + split; [| exact Hd]. exists (S n). cbn. f_equal. exact Hn.
    + assert (E : drop_slashes (c :: l) = c :: l).
      { cbn. destruct c as [[|] [|] [|] [|] [|] [|] [|] [|]];
          try reflexivity. contradiction Hc. reflexivity. }
      cbn [drop_slashes] in E. rewrite E.
      split; [exists 0%nat; reflexivity |].
      intros t [= Hc' _]. contradiction.
Qed.

(** [s.replace(/\/+$/, "")] takes the slashes off the end of [s], all of
    them and nothing else. *)
Lemma strip_trailing_slashes_spec (s : string) :
  (exists n : nat, s = strip_trailing_slashes s ++ slashes n) /\
  ~ ends_with_slash (strip_trailing_slashes s).
Proof.
  unfold strip_trailing_slashes.
  destruct (drop_slashes_spec (rev (list_ascii_of_string s))) as [[n Hn] Hd].
  remember (drop_slashes (rev (list_ascii_of_string s))) as d eqn:Ed.
  apply (f_equal (@rev ascii)) in Hn.
  rewrite rev_involutive, rev_app_distr, rev_repeat in Hn.
  clear Ed.
  split.
  - exists n.
    rewrite <- (string_of_list_ascii_of_string s). rewrite Hn.
    rewrite string_of_list_app, slashes_repeat. reflexivity.
  - intros [t Ht].
    apply (f_equal list_ascii_of_string) in Ht.
    rewrite list_ascii_of_string_of_list_ascii, list_of_string_app in Ht.
    apply (f_equal (@rev ascii)) in Ht.
    rewrite rev_involutive, rev_app_distr in Ht. cbn in Ht.
    exact (Hd _ Ht).
Qed.

(** X6. The creation call goes to the payee's address with its trailing slashes
    taken off, all of them and nothing else, followed by
    [/incoming-payments]: one slash joins the two, however many the payee
    ended with. *)
Theorem creation_url_has_one_slash (p : string) :
  exists (base : string) (n : nat),
    p = base ++ slashes n /\
    ~ ends_with_slash base /\
    target_url p = base ++ "/incoming-payments".
Proof.
  destruct (strip_trailing_slashes_spec p) as [[n Hn] He].
  exists (strip_trailing_slashes p), n.
  split; [exact Hn |]. split; [exact He | reflexivity].
Qed.

(** X7. The URL a poll fetches: the reference itself when it is absolute; else
    the configured base without its trailing slashes, one slash, and the
    reference without its leading slashes, so that exactly one slash joins
    the two (with no base configured the URL is just a slash and the
    reference). *)
Theorem poll_url_joins_with_one_slash (cfg : config) (raw : string) :
  poll_url cfg raw
  = (if startsWith raw "http://" || startsWith raw "https://"
     then raw
     else strip_trailing_slashes (OPEN_PAYMENTS_BASE cfg) ++ "/"
          ++ strip_leading_slashes raw) /\
  ~ ends_with_slash (strip_trailing_slashes (OPEN_PAYMENTS_BASE cfg)) /\
  ~ starts_with_slash (strip_leading_slashes raw).
Proof.
  split; [| split].
  - unfold poll_url.
    destruct (startsWith raw "http://" || startsWith raw "https://");
      [reflexivity |].
    destruct (OPEN_PAYMENTS_BASE cfg); reflexivity.
  - apply strip_trailing_slashes_spec.
  - unfold strip_leading_slashes. intros [t Ht].
    apply (f_equal list_ascii_of_string) in Ht.
    rewrite list_ascii_of_string_of_list_ascii in Ht.
    exact (proj2 (drop_slashes_spec (list_ascii_of_string raw)) _ Ht).
Qed.


(** *** The record and the payload of a payment *)

(** X8. After a successful [createPayment] the new row, the payload sent and
    the response agree: the request's payee is the wallet address of the
    payload and the call went to that payee's [incoming-payments]; the
    row's amount is [Number(amount)]; the asset code sent is the request's
    currency, "MXN" when it names none, and the asset scale sent is 2; the
    row's key is the [localDbId] of the response. When the currency and the
    resource URL read from the answer are each a number, a text or null,
    the row's currency, payee, status and resource URL are that currency,
    that payee, "created" or "pending", and that URL. *)
Theorem record_mirrors_request
    (cfg : config) (w : world) (b : value) (s : state)
    (r : response) (s' : state) :
  createPayment cfg w b s = (r, s') ->
  succeeded r = true ->
  exists (row : payment) (o : outbound) (payload : value) (p : string)
         (op : api_result),
    payments s' = (payments s ++ [row])%list /\
    sent s' = (sent s ++ [o])%list /\
    remote w (on_wire o) = Some op /\
    out_body o = Some payload /\
    out_method o = "POST" /\
    prop b "payee" = VStr p /\
    out_url o = target_url p /\
    prop payload "walletAddress" = VStr p /\
    at_path payload ["incomingAmount"; "assetCode"] = currency_of b /\
    (prop b "currency" = VUndefined -> currency_of b = VStr "MXN") /\
    at_path payload ["incomingAmount"; "assetScale"] = VNum (of_Z 2) /\
    amount row = ToNumber (prop b "amount") /\
    response_field r "localDbId" = VStr (id row) /\
    created_at row = CURRENT_TIMESTAMP w /\
    (forall pc pu : sql,
        scalar (currency_of b) = Some pc ->
        scalar (resource_url_of op) = Some pu ->
        currency row = text_affinity pc /\
        payee row = SqlText p /\
        (status row = SqlText "created" \/ status row = SqlText "pending") /\
        status row = SqlText (statusText_of op) /\
        resource_url row = text_affinity pu).
Proof.
  intros H Hs.
  destruct (createPayment_success cfg w b s r s' H Hs)
    as (payload & p & op & vals & _ & _ & Hp & _ & _ & Hpay & Hr & Hbind & _
        & -> & ->).
  destruct (request_payload_shape w b payload Hpay) as (memo & _ & Hshape).
  exists (new_row w b vals), (creation_call cfg (target_url p) payload),
    (VObj payload), p, op.
  split; [reflexivity |]. split; [reflexivity |]. split; [exact Hr |].
  split; [reflexivity |]. split; [reflexivity |]. split; [exact Hp |].
  split; [reflexivity |].
  assert (Hw : prop (VObj payload) "walletAddress" = VStr p
               /\ at_path (VObj payload) ["incomingAmount"; "assetCode"]
                  = currency_of b
               /\ at_path (VObj payload) ["incomingAmount"; "assetScale"]
                  = VNum (of_Z 2)).
  { rewrite <- Hp.
    destruct Hshape as [-> | [iso ->]]; repeat split. }
  destruct Hw as (Hw1 & Hw2 & Hw3).
  split; [exact Hw1 |]. split; [exact Hw2 |].
  split; [intros Hu; unfold currency_of; rewrite Hu; reflexivity |].
  split; [exact Hw3 |]. split; [reflexivity |]. split; [reflexivity |].
  split; [reflexivity |].
  intros pc pu Hc Hu.
  destruct (insert_arguments_bound w b p op pc pu Hc Hu) as (t & _ & Hb').
  rewrite Hb' in Hbind. injection Hbind as <-.
  split; [reflexivity |]. split; [reflexivity |].
  split; [| split; reflexivity].
  cbn. unfold statusText_of.
  destruct ((api_status op =? 201) || (api_status op =? 200));
    [left | right]; reflexivity.
Qed.

Lemma record_mirrors_request_witness :
  exists (row : payment) (o : outbound) (payload : value) (p : string)
         (op : api_result),
    payments (snd Sample.paid_again)
    = (payments Sample.one_payment ++ [row])%list /\
    sent (snd Sample.paid_again) = (sent Sample.one_payment ++ [o])%list /\
    remote Sample.wallet_created (on_wire o) = Some op /\
    out_body o = Some payload /\
    out_method o = "POST" /\
    prop (Sample.request (VNum (of_Z 5))) "payee" = VStr p /\
    out_url o = target_url p /\
    prop payload "walletAddress" = VStr p /\
    at_path payload ["incomingAmount"; "assetCode"]
    = currency_of (Sample.request (VNum (of_Z 5))) /\
    (prop (Sample.request (VNum (of_Z 5))) "currency" = VUndefined ->
     currency_of (Sample.request (VNum (of_Z 5))) = VStr "MXN") /\
    at_path payload ["incomingAmount"; "assetScale"] = VNum (of_Z 2) /\
    amount row = ToNumber (prop (Sample.request (VNum (of_Z 5))) "amount") /\
    response_field (fst Sample.paid_again) "localDbId" = VStr (id row) /\
    created_at row = CURRENT_TIMESTAMP Sample.wallet_created /\
    (forall pc pu : sql,
        scalar (currency_of (Sample.request (VNum (of_Z 5)))) = Some pc ->
        scalar (resource_url_of op) = Some pu ->
        currency row = text_affinity pc /\
        payee row = SqlText p /\
        (status row = SqlText "created" \/ status row = SqlText "pending") /\
        status row = SqlText (statusText_of op) /\
        resource_url row = text_affinity pu).
Proof.
  apply (record_mirrors_request Sample.cfg Sample.wallet_created
           (Sample.request (VNum (of_Z 5))) Sample.one_payment
           (fst Sample.paid_again) (snd Sample.paid_again)).
  - vm_compute. reflexivity.
  - vm_compute. reflexivity.
Defined.

(** X9. The payload carries [expiresAt] exactly when the request asks for an
    expiry ([expiresInSeconds] truthy and above 0 as a number): then it is
    the ISO text of the clock plus that many seconds. *)
Theorem expiry_is_sent_when_asked_for
    (cfg : config) (w : world) (b : value) (s : state)
    (r : response) (s' : state) :
  createPayment cfg w b s = (r, s') ->
  sent s' <> sent s ->
  exists (o : outbound) (payload : value),
    sent s' = (sent s ++ [o])%list /\
    out_body o = Some payload /\
    prop payload "expiresAt"
    = (if truthy (prop b "expiresInSeconds")
          && lt pos_zero (ToNumber (prop b "expiresInSeconds"))
       then match Date_toISOString
                    (add (of_Z (Date_now w))
                       (mul (ToNumber (prop b "expiresInSeconds"))
                          (of_Z 1000))) with
            | Some iso => VStr iso
            | None => VUndefined
            end
       else VUndefined).
Proof.
  intros H Hsent.
  destruct (createPayment_call_made cfg w b s r s' H Hsent)
    as (p & payload & _ & _ & Hpay & _ & ->).
  exists (creation_call cfg (target_url p) payload), (VObj payload).
  split; [reflexivity |]. split; [reflexivity |].
  unfold request_payload in Hpay. cbv zeta in Hpay.
  destruct (request_memo b) as [memo | e]; [| discriminate].
  destruct (truthy (prop b "expiresInSeconds"));
    [| injection Hpay as <-; reflexivity].
  destruct (ToPrimitive_throws (prop b "expiresInSeconds")); [discriminate |].
  cbn [andb].
  destruct (lt pos_zero (ToNumber (prop b "expiresInSeconds")));
    [| injection Hpay as <-; reflexivity].
  destruct (Date_toISOString _) as [iso |]; [| discriminate].
  injection Hpay as <-. reflexivity.
Qed.

Lemma expiry_is_sent_when_asked_for_witness :
  exists (o : outbound) (payload : value),
    sent (snd (createPayment Sample.cfg Sample.wallet_created
                 (Sample.request_expiring (VNum (of_Z 60))) Sample.empty))
    = (sent Sample.empty ++ [o])%list /\
    out_body o = Some payload /\
    prop payload "expiresAt"
    = (if truthy (prop (Sample.request_expiring (VNum (of_Z 60)))
                    "expiresInSeconds")
          && lt pos_zero
               (ToNumber (prop (Sample.request_expiring (VNum (of_Z 60)))
                            "expiresInSeconds"))
       then match Date_toISOString
                    (add (of_Z (Date_now Sample.wallet_created))
                       (mul (ToNumber
                               (prop (Sample.request_expiring (VNum (of_Z 60)))
                                  "expiresInSeconds"))
                          (of_Z 1000))) with
            | Some iso => VStr iso
            | None => VUndefined
            end
       else VUndefined).
Proof.
  apply (expiry_is_sent_when_asked_for Sample.cfg Sample.wallet_created
           (Sample.request_expiring (VNum (of_Z 60))) Sample.empty
           (fst (createPayment Sample.cfg Sample.wallet_created
                   (Sample.request_expiring (VNum (of_Z 60))) Sample.empty))
           (snd (createPayment Sample.cfg Sample.wallet_created
                   (Sample.request_expiring (VNum (of_Z 60))) Sample.empty))).
  - vm_compute. reflexivity.
  - vm_compute. discriminate.
Defined.

Example expiry_a_minute_from_now :
  map (fun o => match out_body o with
                | Some payload => prop payload "expiresAt"
                | None => VUndefined
                end)
      (sent (snd (createPayment Sample.cfg Sample.wallet_created
                    (Sample.request_expiring (VNum (of_Z 60))) Sample.empty)))
  = [VStr "2024-11-02T00:01:00.000Z"] /\
  map (fun o => match out_body o with
                | Some payload => prop payload "expiresAt"
                | None => VUndefined
                end)
      (sent (snd (createPayment Sample.cfg Sample.wallet_created
                    (Sample.request_expiring
                       (VStr (String "194" (String "160" "60"))))
                    Sample.empty)))
  = [VStr "2024-11-02T00:01:00.000Z"].
Proof. vm_compute. split; reflexivity. Qed.

(** *** Invariants of the table *)

Lemma identity_keeps_ids (t t' : table) :
  Forall2 same_identity t t' -> map id t' = map id t.
Proof.
  induction 1 as [| r r' t t' (Hi & _) _ IH]; [reflexivity |].
  cbn. rewrite Hi, IH. reflexivity.
Qed.

Lemma identity_keeps_amounts (t t' : table) :
  Forall2 same_identity t t' -> amounts_positive t -> amounts_positive t'.
Proof.
  unfold amounts_positive.
  induction 1 as [| r r' t t' (_ & _ & Ha & _) _ IH]; intros Hp;
    [constructor |].
  inversion Hp as [| ? ? Hr Ht]; subst.
  constructor; [rewrite Ha; exact Hr | apply IH; exact Ht].
Qed.

Lemma fresh_id_not_in (i : string) (t : table) :
  existsb (has_id i) t = false -> ~ In i (map id t).
Proof.
  intros He Hin. apply in_map_iff in Hin as (r & Hr & Hin).
  assert (Ht : existsb (has_id i) t = true).
  { apply existsb_exists. exists r. split; [exact Hin |].
    unfold has_id. rewrite Hr. apply String.eqb_refl. }
  rewrite Ht in He. discriminate.
Qed.

Lemma accepted_is_above_zero (x : number) :
  isNaN x || le x pos_zero = false -> lt pos_zero x = true.
Proof.
  destruct x as [[|] | [|] | | [|] m e]; cbn; intros H;
    try discriminate; reflexivity.
Qed.

(** What [createPayment] leaves in the table: the table as it was, or one
    more row with a fresh key and an amount above zero. *)
Lemma createPayment_table (cfg : config) (w : world) (b : value) (s : state) :
  payments (snd (createPayment cfg w b s)) = payments s \/
  exists row : payment,
    payments (snd (createPayment cfg w b s)) = (payments s ++ [row])%list /\
    ~ In (id row) (map id (payments s)) /\
    lt pos_zero (amount row) = true.
Proof.
  rewrite createPayment_equation. unfold create_outcome.
  destruct (nullish b); [left; reflexivity |].
  destruct (negb (truthy (prop b "amount")) || negb (truthy (prop b "payee")));
    [left; reflexivity |].
  destruct (ToPrimitive_throws (prop b "amount")); [left; reflexivity |].
  destruct (isNaN (ToNumber (prop b "amount"))
            || le (ToNumber (prop b "amount")) pos_zero) eqn:Hv;
    [left; reflexivity |].
  destruct (request_payload w b) as [payload | e]; [| left; reflexivity].
  destruct (prop b "payee") as [| | | | p | |]; try (left; reflexivity).
  destruct (outcome_after_call_cases cfg w b p payload s)
    as [_ [(_ & _ & Hp) | (op & vals & _ & _ & Hf & _ & Hp)]].
  - left. exact Hp.
  - right. eexists. split; [exact Hp |]. split.
    + apply fresh_id_not_in. exact Hf.
    + apply accepted_is_above_zero. exact Hv.
Qed.

(** X10. The primary key stays a key: if no two rows share their [id], no two
    rows share it after any of the three handlers has run. *)
Theorem keys_stay_unique
    (cfg : config) (w w' : world) (b : value) (raw : string)
    (payload : value) (s : state) :
  ids_unique (payments s) ->
  ids_unique (payments (snd (createPayment cfg w b s))) /\
  ids_unique (payments (snd (pollStatus cfg w' raw s))) /\
  ids_unique (payments (snd (applyWebhook payload s))).
Proof.
  unfold ids_unique. intros Hu. split; [| split].
  - destruct (createPayment_table cfg w b s) as [-> | (row & -> & Hf & _)];
      [exact Hu |].
    rewrite map_app. apply NoDup_app; [exact Hu | |].
    + constructor; [intros [] | constructor].
    + intros a Ha [<- | []]. contradiction.
  - rewrite pollStatus_equation.
    destruct raw as [| c raw']; [exact Hu |]. cbv zeta.
    destruct (remote w' _) as [op |]; [| exact Hu].
    cbn [snd payments].
    rewrite (identity_keeps_ids _ _ (poll_rewrite_identity op (payments s))).
    exact Hu.
  - rewrite applyWebhook_equation. cbn [snd payments].
    rewrite (identity_keeps_ids _ _
               (webhook_rewrite_identity payload (payments s))).
    exact Hu.
Qed.

Lemma keys_stay_unique_witness :
  ids_unique (payments (snd (createPayment Sample.cfg Sample.wallet_created
                               (Sample.request (VNum (of_Z 5)))
                               Sample.one_payment))) /\
  ids_unique (payments (snd (pollStatus Sample.cfg Sample.wallet_completed
                               Sample.resource Sample.one_payment))) /\
  ids_unique (payments (snd (applyWebhook Sample.webhook_without_id
                               Sample.one_payment))).
Proof.
  apply (keys_stay_unique Sample.cfg Sample.wallet_created
           Sample.wallet_completed
           (Sample.request (VNum (of_Z 5))) Sample.resource
           Sample.webhook_without_id Sample.one_payment).
  unfold ids_unique. simpl. constructor; [simpl; tauto | constructor].
Defined.

(** X11. Amounts stay above zero: if every stored amount is above zero, every
    stored amount is above zero after any of the three handlers has run. *)
Theorem amounts_stay_positive
    (cfg : config) (w w' : world) (b : value) (raw : string)
    (payload : value) (s : state) :
  amounts_positive (payments s) ->
  amounts_positive (payments (snd (createPayment cfg w b s))) /\
  amounts_positive (payments (snd (pollStatus cfg w' raw s))) /\
  amounts_positive (payments (snd (applyWebhook payload s))).
Proof.
  intros Hp. split; [| split].
  - destruct (createPayment_table cfg w b s) as [-> | (row & -> & _ & Ha)];
      [exact Hp |].
    apply Forall_app. split; [exact Hp |].
    constructor; [exact Ha | constructor].
  - rewrite pollStatus_equation.
    destruct raw as [| c raw']; [exact Hp |]. cbv zeta.
    destruct (remote w' _) as [op |]; [| exact Hp].
    cbn [snd payments].
    apply (identity_keeps_amounts (payments s));
      [apply poll_rewrite_identity | exact Hp].
  - rewrite applyWebhook_equation. cbn [snd payments].
    apply (identity_keeps_amounts (payments s));
      [apply webhook_rewrite_identity | exact Hp].
Qed.

Lemma amounts_stay_positive_witness :
  amounts_positive
    (payments (snd (createPayment Sample.cfg Sample.wallet_created
                      (Sample.request (VStr "0.01")) Sample.one_payment))) /\
  amounts_positive
    (payments (snd (pollStatus Sample.cfg Sample.wallet_completed
                      Sample.resource Sample.one_payment))) /\
  amounts_positive
    (payments (snd (applyWebhook Sample.webhook_completed
                      Sample.one_payment))).
Proof.
  apply (amounts_stay_positive Sample.cfg Sample.wallet_created
           Sample.wallet_completed
           (Sample.request (VStr "0.01")) Sample.resource
           Sample.webhook_completed Sample.one_payment).
  unfold amounts_positive. simpl. constructor; [reflexivity | constructor].
Defined.

(** *** Polling *)

(** X12. A poll answers 200 exactly when a path was given and the wallet gave an
    answer, whatever that answer's own status code. Without a path it
    answers 400 and calls nobody; with one it makes one GET without a body,
    also when the wallet cannot be reached, and then answers 500. Whenever
    the answer is not 200 the table is as it was. *)
Theorem poll_answers_200_iff_wallet_answered
    (cfg : config) (w : world) (raw : string) (s : state) :
  (code (fst (pollStatus cfg w raw s)) = 200 <->
   raw <> EmptyString /\
   exists op : api_result, remote w (on_wire (poll_call cfg raw)) = Some op) /\
  (raw = EmptyString ->
   pollStatus cfg w raw s = (failure 400 "resource path required", s)) /\
  (raw <> EmptyString ->
   sent (snd (pollStatus cfg w raw s)) = (sent s ++ [poll_call cfg raw])%list /\
   out_method (poll_call cfg raw) = "GET" /\
   out_body (poll_call cfg raw) = None) /\
  (raw <> EmptyString ->
   remote w (on_wire (poll_call cfg raw)) = None ->
   code (fst (pollStatus cfg w raw s)) = 500 /\
   succeeded (fst (pollStatus cfg w raw s)) = false) /\
  (code (fst (pollStatus cfg w raw s)) <> 200 ->
   payments (snd (pollStatus cfg w raw s)) = payments s).
Proof.
  rewrite pollStatus_equation.
  destruct raw as [| c raw'].
  - split; [split; [discriminate | intros [H _]; contradiction H; reflexivity] |].
    split; [reflexivity |].
    split; [intros H; contradiction H; reflexivity |].
    split; [intros H; contradiction H; reflexivity |].
    reflexivity.
  - cbv zeta.
    destruct (remote w (on_wire (poll_call cfg (String c raw')))) as [op |].
    + split; [split; [intros _; split; [discriminate | exists op; reflexivity]
                     | reflexivity] |].
      split; [discriminate |].
      split; [intros _; repeat split |].
      split; [discriminate |].
      intros H. contradiction H. reflexivity.
    + split; [split; [discriminate | intros (_ & op & Hop); discriminate] |].
      split; [discriminate |].
      split; [intros _; repeat split |].
      split; [intros _ _; split; reflexivity |].
      reflexivity.
Qed.


(** The ordinary poll: the answer's [localId] is a text and its status is a
    number or a text. [run] then binds, in order, the status, the JSON text
    of the answer and the [localId]. *)
Lemma poll_rewrite_named (op : api_result) (lid : string) (st : sql)
    (t : table) :
  poll_localId op = VStr lid ->
  lid <> EmptyString ->
  truthy (poll_newStatus op) = true ->
  scalar (poll_newStatus op) = Some st ->
  exists json : string,
    JSON_stringify (op_value op) = Some json /\
    Store.bind 3 (poll_arguments op) = inr [st; SqlText json; SqlText lid] /\
    poll_rewrite op t
    = map (fun r => if String.eqb (local_id r) lid
                    then with_status (text_affinity st) (SqlText json) r
                    else r) t.
Proof.
  intros Hl Hne Ht Hs.
  destruct (op_response_text op) as (json & Hj & Hsj).
  exists json. split; [exact Hj |].
  assert (Hb : Store.bind 3 (poll_arguments op)
               = inr [st; SqlText json; SqlText lid]).
  { unfold poll_arguments. rewrite Hsj, Hl.
    apply (bind_scalars [poll_newStatus op; VStr json; VStr lid]).
    repeat constructor; assumption. }
  split; [exact Hb |].
  unfold poll_rewrite. rewrite Hb, Ht, Hl.
  rewrite (nonempty_text_is_truthy lid Hne). cbn [andb].
  apply update_status_as_map.
Qed.

(** X13. When the wallet's answer names a payment (a non-empty text under
    [metadata.localId]) and carries a truthy status that is a text or a
    number, the poll writes that status, as the TEXT column keeps it, and
    the JSON text of the whole answer to every row with that [local_id],
    and leaves every other row as it was. *)
Theorem poll_records_the_status
    (cfg : config) (w : world) (raw : string) (s : state)
    (op : api_result) (lid : string) (st : sql) :
  raw <> EmptyString ->
  remote w (on_wire (poll_call cfg raw)) = Some op ->
  poll_localId op = VStr lid ->
  lid <> EmptyString ->
  truthy (poll_newStatus op) = true ->
  scalar (poll_newStatus op) = Some st ->
  exists json : string,
    JSON_stringify (op_value op) = Some json /\
    payments (snd (pollStatus cfg w raw s))
    = map (fun r => if String.eqb (local_id r) lid
                    then with_status (text_affinity st) (SqlText json) r
                    else r)
          (payments s).
Proof.
  intros Hraw Hop Hl Hne Ht Hb.
  rewrite pollStatus_equation.
  destruct raw as [| c raw']; [contradiction Hraw; reflexivity |].
  cbv zeta. rewrite Hop. cbn [snd payments].
  destruct (poll_rewrite_named op lid st (payments s) Hl Hne Ht Hb)
    as (json & Hj & _ & Hrw).
  exists json. split; assumption.
Qed.

Lemma poll_records_the_status_witness :
  exists json : string,
    JSON_stringify (op_value Sample.completed) = Some json /\
    payments (snd (pollStatus Sample.cfg Sample.wallet_completed
                     Sample.resource Sample.one_payment))
    = map (fun r => if String.eqb (local_id r) "1b9d6bcd-0001"
                    then with_status (text_affinity (SqlText "completed"))
                           (SqlText json) r
                    else r)
          (payments Sample.one_payment).
Proof.
  apply (poll_records_the_status Sample.cfg Sample.wallet_completed
           Sample.resource Sample.one_payment Sample.completed
           "1b9d6bcd-0001" (SqlText "completed")).
  - discriminate.
  - reflexivity.
  - vm_compute. reflexivity.
  - discriminate.
  - vm_compute. reflexivity.
  - vm_compute. reflexivity.
Defined.

(** X14. A failure of the poll's [UPDATE] is silent: when [run] rejects the
    arguments read from the wallet's answer (a boolean status, say, which
    the driver cannot bind), the poll still answers 200 with the answer,
    and the table is as it was. *)
Theorem poll_update_failure_is_silent
    (cfg : config) (w : world) (raw : string) (s : state) (op : api_result)
    (e : bind_failure) :
  raw <> EmptyString ->
  remote w (on_wire (poll_call cfg raw)) = Some op ->
  Store.bind 3 (poll_arguments op) = inl e ->
  pollStatus cfg w raw s
  = (mkResponse 200
       (JsonBody (VObj [("success", VBool true); ("op", op_value op)])),
     mkState (payments s) (sent s ++ [poll_call cfg raw])%list).
Proof.
  intros Hraw Hop Hb.
  rewrite pollStatus_equation.
  destruct raw as [| c raw']; [contradiction Hraw; reflexivity |].
  cbv zeta. rewrite Hop. do 2 f_equal.
  unfold poll_rewrite. rewrite Hb.
  destruct (truthy (poll_localId op) && truthy (poll_newStatus op));
    reflexivity.
Qed.

Lemma poll_update_failure_is_silent_witness :
  pollStatus Sample.cfg Sample.wallet_odd_status Sample.resource
    Sample.one_payment
  = (mkResponse 200
       (JsonBody (VObj [("success", VBool true);
                        ("op", op_value Sample.odd_status)])),
     mkState (payments Sample.one_payment)
       (sent Sample.one_payment
        ++ [poll_call Sample.cfg Sample.resource])%list).
Proof.
  apply (poll_update_failure_is_silent Sample.cfg Sample.wallet_odd_status
           Sample.resource Sample.one_payment Sample.odd_status NotBindable).
  - discriminate.
  - reflexivity.
  - vm_compute. reflexivity.
Defined.

(** X15. Polling again changes nothing more: a second poll of the same path that
    gets the same answer leaves the table as the first poll left it. *)
Theorem polling_again_changes_nothing
    (cfg : config) (w w' : world) (raw : string) (s : state) :
  remote w' (on_wire (poll_call cfg raw))
  = remote w (on_wire (poll_call cfg raw)) ->
  payments (snd (pollStatus cfg w' raw (snd (pollStatus cfg w raw s))))
  = payments (snd (pollStatus cfg w raw s)).
Proof.
  intros Hsame. rewrite !pollStatus_equation.
  destruct raw as [| c raw']; [reflexivity |].
  cbv zeta. rewrite Hsame.
  destruct (remote w (on_wire (poll_call cfg (String c raw')))) as [op |];
    [| reflexivity].
  cbn [snd payments]. apply poll_rewrite_twice.
Qed.

Lemma polling_again_changes_nothing_witness :
  payments (snd (pollStatus Sample.cfg Sample.wallet_completed Sample.resource
                   (snd (pollStatus Sample.cfg Sample.wallet_completed
                           Sample.resource Sample.one_payment))))
  = payments (snd (pollStatus Sample.cfg Sample.wallet_completed
                     Sample.resource Sample.one_payment)).
Proof.
  apply (polling_again_changes_nothing Sample.cfg Sample.wallet_completed
           Sample.wallet_completed Sample.resource Sample.one_payment).
  reflexivity.
Defined.

(** *** Webhooks *)

(** X16. A webhook is always answered 200 "ok": the handler's 500 is never
    reached. It makes no outbound call, and it adds no row, removes none,
    and leaves [id], [local_id], [amount], [currency], [payee] and
    [created_at] of every row as they were. *)
Theorem webhook_is_always_answered_ok (payload : value) (s : state) :
  fst (applyWebhook payload s) = mkResponse 200 (TextBody "ok") /\
  sent (snd (applyWebhook payload s)) = sent s /\
  Forall2 same_identity (payments s) (payments (snd (applyWebhook payload s))).
Proof.
  rewrite applyWebhook_equation. cbn [fst snd payments sent].
  split; [reflexivity |]. split; [reflexivity |].
  apply webhook_rewrite_identity.
Qed.


(** X17. When a webhook names a payment (a non-empty text as its [localId])
    and its status and resource URL are each a text, a number or null,
    every row with that [local_id] gets the status and the resource URL, as
    the TEXT columns keep them, and the JSON text of the whole payload, and
    every other row stays as it was. *)
Theorem webhook_records_status_and_url
    (payload : value) (s : state) (lid : string) (st url : sql) :
  webhook_localId payload = VStr lid ->
  lid <> EmptyString ->
  scalar (webhook_newStatus payload) = Some st ->
  scalar (webhook_resource_url payload) = Some url ->
  exists json : string,
    JSON_stringify payload = Some json /\
    payments (snd (applyWebhook payload s))
    = map (fun r => if String.eqb (local_id r) lid
                    then with_status_url (text_affinity st) (SqlText json)
                           (text_affinity url) r
                    else r)
          (payments s).
Proof.
  intros Hl Hne Hs Hu.
  rewrite applyWebhook_equation. cbn [snd payments].
  destruct (webhook_rewrite_named payload lid st url (payments s)
              Hl Hne Hs Hu) as (json & Hj & _ & Hrw).
  exists json. split; assumption.
Qed.

Lemma webhook_records_status_and_url_witness :
  exists json : string,
    JSON_stringify Sample.webhook_completed = Some json /\
    payments (snd (applyWebhook Sample.webhook_completed Sample.one_payment))
    = map (fun r => if String.eqb (local_id r) "1b9d6bcd-0001"
                    then with_status_url (text_affinity (SqlText "completed"))
                           (SqlText json)
                           (text_affinity
                              (SqlText "https://wallet.example/merchant/incoming-payments/xyz"))
                           r
                    else r)
          (payments Sample.one_payment).
Proof.
  apply (webhook_records_status_and_url Sample.webhook_completed
           Sample.one_payment "1b9d6bcd-0001" (SqlText "completed")
           (SqlText "https://wallet.example/merchant/incoming-payments/xyz")).
  - vm_compute. reflexivity.
  - discriminate.
  - vm_compute. reflexivity.
  - vm_compute. reflexivity.
Defined.

(** X18. A failure of the webhook's [UPDATE] is silent: when [run] rejects
    the arguments read from the payload (a boolean status, say, which the
    driver cannot bind), the webhook is answered "ok" and nothing has
    changed. *)
Theorem webhook_update_failure_is_silent
    (payload : value) (s : state) (e : bind_failure) :
  Store.bind 4 (webhook_arguments payload) = inl e ->
  applyWebhook payload s = (mkResponse 200 (TextBody "ok"), s).
Proof.
  intros Hb. rewrite applyWebhook_equation. f_equal.
  transitivity (mkState (payments s) (sent s)); [| apply state_eta].
  f_equal. unfold webhook_rewrite. rewrite Hb.
  destruct (truthy (webhook_localId payload)); reflexivity.
Qed.

Lemma webhook_update_failure_is_silent_witness :
  applyWebhook Sample.webhook_with_odd_status Sample.one_payment
  = (mkResponse 200 (TextBody "ok"), Sample.one_payment).
Proof.
  apply (webhook_update_failure_is_silent Sample.webhook_with_odd_status
           Sample.one_payment NotBindable).
  vm_compute. reflexivity.
Defined.

(** X19. Delivering a webhook again changes nothing more: the second delivery
    gets the same answer and leaves the state as the first one left it. *)
Theorem webhook_redelivery_changes_nothing (payload : value) (s : state) :
  applyWebhook payload (snd (applyWebhook payload s))
  = applyWebhook payload s.
Proof.
  rewrite !applyWebhook_equation. cbn [snd payments sent].
  rewrite webhook_rewrite_twice. reflexivity.
Qed.

(** *** Listing *)

Lemma string_leb_trans (s1 s2 s3 : string) :
  String.leb s1 s2 = true -> String.leb s2 s3 = true ->
  String.leb s1 s3 = true.
Proof.
  unfold String.leb. revert s2 s3.
  induction s1 as [| a s1 IH]; intros [| b s2] [| c s3]; cbn;
    try reflexivity; try discriminate.
  unfold Ascii.compare.
  destruct (N.compare_spec (N_of_ascii a) (N_of_ascii b)) as [Hab | Hab | Hab];
    try discriminate;
    destruct (N.compare_spec (N_of_ascii b) (N_of_ascii c)) as [Hbc | Hbc | Hbc];
    try discriminate; intros H1 H2.
  - rewrite Hab, Hbc, N.compare_refl. apply (IH s2 s3); assumption.
  - rewrite Hab. apply N.compare_lt_iff in Hbc. rewrite Hbc. reflexivity.
  - rewrite <- Hbc. apply N.compare_lt_iff in Hab. rewrite Hab. reflexivity.
  - assert (Hac : (N_of_ascii a ?= N_of_ascii c)%N = Lt).
    { apply N.compare_lt_iff. lia. }
    rewrite Hac. reflexivity.
Qed.

Lemma not_older_trans (x y z : payment) :
  not_older x y -> not_older y z -> not_older x z.
Proof.
  unfold not_older. intros Hxy Hyz.
  apply (string_leb_trans _ (created_at y)); assumption.
Qed.

Lemma insert_newest_perm (r : payment) (l : table) :
  Permutation (insert_newest r l) (r :: l).
Proof.
  induction l as [| x l IH]; cbn; [apply Permutation_refl |].
  destruct (String.leb (created_at x) (created_at r));
    [apply Permutation_refl |].
  apply perm_trans with (x :: r :: l); [apply perm_skip; exact IH |].
  apply perm_swap.
Qed.

Lemma newest_first_perm (t : table) : Permutation (newest_first t) t.
Proof.
  unfold newest_first.
  induction t as [| r t IH]; cbn; [apply Permutation_refl |].
  apply perm_trans with (r :: fold_right insert_newest [] t);
    [apply insert_newest_perm | apply perm_skip; exact IH].
Qed.

Lemma insert_newest_sorted (r : payment) (l : table) :
  StronglySorted not_older l -> StronglySorted not_older (insert_newest r l).
Proof.
  induction 1 as [| x l Hs IH Hx]; cbn;
    [constructor; constructor |].
  destruct (String.leb (created_at x) (created_at r)) eqn:Hle.
  - constructor; [constructor; assumption |].
    constructor; [exact Hle |].
    eapply Forall_impl; [| exact Hx].
    intros y Hy. apply (not_older_trans r x y); [exact Hle | exact Hy].
  - constructor; [exact IH |].
    apply (Permutation_Forall (Permutation_sym (insert_newest_perm r l))).
    constructor; [| exact Hx].
    unfold not_older.
    destruct (String.leb_total (created_at x) (created_at r)) as [H | H];
      [rewrite H in Hle; discriminate | exact H].
Qed.

Lemma newest_first_sorted (t : table) :
  StronglySorted not_older (newest_first t).
Proof.
  unfold newest_first.
  induction t as [| r t IH]; cbn; [constructor |].
  apply insert_newest_sorted. exact IH.
Qed.

Lemma sorted_prefix (l1 l2 : table) :
  StronglySorted not_older (l1 ++ l2)%list ->
  StronglySorted not_older l1 /\
  (forall r r' : payment, In r l1 -> In r' l2 -> not_older r r').
Proof.
  induction l1 as [| x l1 IH]; cbn; intros Hs.
  - split; [constructor | intros r r' []].
  - apply StronglySorted_inv in Hs as [Hs Hx].
    destruct (IH Hs) as [Hs1 Hcross].
    apply Forall_app in Hx as [Hx1 Hx2].
    split; [constructor; assumption |].
    intros r r' [<- | Hr] Hr'.
    + rewrite Forall_forall in Hx2. apply Hx2. exact Hr'.
    + apply Hcross; assumption.
Qed.

(** X20. [GET /payments] changes nothing and answers with the newest rows: at
    most 100 of them, all rows when the table has no more; the rows come
    newest first; [count] is their number; and no row left out is newer
    than a row listed. *)
Theorem listPayments_lists_the_newest (s : state) :
  exists rest : table,
    snd (listPayments s) = s /\
    Permutation (rows (fst (listPayments s)) ++ rest)%list (payments s) /\
    count (fst (listPayments s))
    = Nat.min 100 (List.length (payments s)) /\
    List.length (rows (fst (listPayments s))) = count (fst (listPayments s)) /\
    StronglySorted not_older (rows (fst (listPayments s))) /\
    (forall r r' : payment,
        In r (rows (fst (listPayments s))) -> In r' rest -> not_older r r').
Proof.
  exists (skipn 100 (newest_first (payments s))).
  split; [reflexivity |].
  unfold listPayments. cbv zeta. cbn [fst rows count].
  unfold recent. rewrite firstn_skipn.
  split; [apply newest_first_perm |].
  split.
  - rewrite length_firstn.
    rewrite (Permutation_length (newest_first_perm (payments s))).
    reflexivity.
  - split; [reflexivity |].
    apply sorted_prefix. rewrite firstn_skipn. apply newest_first_sorted.
Qed.


(** *** The life of a payment *)

(** X21. A payment just created is listed, as long as the table held fewer than
    100 rows: [GET /payments] then counts one row more and shows a row whose
    [id] and [local_id] are the [localDbId] and [localId] that
    [POST /create-payment] answered with, and whose amount is the number
    the request's amount stands for. *)
Theorem created_payment_is_listed
    (cfg : config) (w : world) (b : value) (s : state)
    (r : response) (s1 : state) :
  createPayment cfg w b s = (r, s1) ->
  succeeded r = true ->
  (List.length (payments s) < 100)%nat ->
  exists row : payment,
    In row (rows (fst (listPayments s1))) /\
    count (fst (listPayments s1)) = S (List.length (payments s)) /\
    VStr (id row) = response_field r "localDbId" /\
    VStr (local_id row) = response_field r "localId" /\
    amount row = ToNumber (prop b "amount").
Proof.
  intros H Hs Hlen.
  destruct (createPayment_success cfg w b s r s1 H Hs)
    as (payload & p & op & vals & _ & _ & _ & _ & _ & _ & _ & _ & _
        & -> & ->).
  unfold listPayments, recent. cbv zeta. cbn [fst rows count payments].
  rewrite firstn_all2;
    [| rewrite (Permutation_length (newest_first_perm _)), length_app;
       cbn [List.length]; lia].
  exists (new_row w b vals). split.
  - apply (Permutation_in _ (Permutation_sym (newest_first_perm _))).
    apply in_or_app. right. left. reflexivity.
  - split.
    + rewrite (Permutation_length (newest_first_perm _)), length_app.
      cbn [List.length]. lia.
    + repeat split.
Qed.

Lemma created_payment_is_listed_witness :
  exists row : payment,
    In row (rows (fst (listPayments (snd Sample.paid_again)))) /\
    count (fst (listPayments (snd Sample.paid_again)))
    = S (List.length (payments Sample.one_payment)) /\
    VStr (id row) = response_field (fst Sample.paid_again) "localDbId" /\
    VStr (local_id row) = response_field (fst Sample.paid_again) "localId" /\
    amount row = ToNumber (prop (Sample.request (VNum (of_Z 5))) "amount").
Proof.
  apply (created_payment_is_listed Sample.cfg Sample.wallet_created
           (Sample.request (VNum (of_Z 5))) Sample.one_payment
           (fst Sample.paid_again) (snd Sample.paid_again)).
  - vm_compute. reflexivity.
  - vm_compute. reflexivity.
  - simpl. lia.
Defined.

Lemma map_last_row (f : payment -> payment) (t : table) (row : payment) :
  map f (t ++ [row])%list = (map f t ++ [f row])%list.
Proof. rewrite map_app. reflexivity. Qed.

(** X22. A poll reconciles the payment that was created: when the wallet's
    answer names the [localId] that [POST /create-payment] drew and carries
    a truthy status that is a text or a number, the row that request stored
    has that status afterwards, as the TEXT column keeps it, while its key,
    its amount, its currency, its payee, its resource URL and its creation
    time are as the creation left them. *)
Theorem poll_reconciles_a_created_payment
    (cfg : config) (w w' : world) (b : value) (s : state)
    (r : response) (s1 : state) (raw : string) (op : api_result) (st : sql) :
  createPayment cfg w b s = (r, s1) ->
  succeeded r = true ->
  randomUUID_1 w <> EmptyString ->
  raw <> EmptyString ->
  remote w' (on_wire (poll_call cfg raw)) = Some op ->
  poll_localId op = VStr (randomUUID_1 w) ->
  truthy (poll_newStatus op) = true ->
  scalar (poll_newStatus op) = Some st ->
  exists (stored row : payment) (t : table),
    payments s1 = (payments s ++ [stored])%list /\
    payments (snd (pollStatus cfg w' raw s1)) = (t ++ [row])%list /\
    List.length t = List.length (payments s) /\
    VStr (id row) = response_field r "localDbId" /\
    VStr (local_id row) = response_field r "localId" /\
    status row = text_affinity st /\
    amount row = ToNumber (prop b "amount") /\
    same_identity stored row /\
    resource_url row = resource_url stored.
Proof.
  intros H Hs Hne Hraw Hop Hl Ht Hb.
  destruct (createPayment_success cfg w b s r s1 H Hs)
    as (payload & p & op0 & vals & _ & _ & _ & _ & _ & _ & _ & _ & _
        & -> & ->).
  rewrite pollStatus_equation.
  destruct raw as [| c raw']; [contradiction Hraw; reflexivity |].
  cbv zeta. rewrite Hop. cbn [snd payments].
  match goal with
  | |- context [poll_rewrite op ?t] =>
      destruct (poll_rewrite_named op (randomUUID_1 w) st t Hl Hne Ht Hb)
        as (json & _ & _ & ->)
  end.
  rewrite map_last_row.
  cbn [local_id new_row inserted_row]. rewrite String.eqb_refl.
  eexists _, _, _. split; [reflexivity |]. split; [reflexivity |].
  split; [apply length_map |].
  repeat split.
Qed.

Lemma poll_reconciles_a_created_payment_witness :
  exists (stored row : payment) (t : table),
    payments (snd Sample.paid) = (payments Sample.empty ++ [stored])%list /\
    payments (snd (pollStatus Sample.cfg Sample.wallet_completed_new
                     Sample.resource (snd Sample.paid)))
    = (t ++ [row])%list /\
    List.length t = List.length (payments Sample.empty) /\
    VStr (id row) = response_field (fst Sample.paid) "localDbId" /\
    VStr (local_id row) = response_field (fst Sample.paid) "localId" /\
    status row = text_affinity (SqlText "completed") /\
    amount row = ToNumber (prop (Sample.request (VNum (of_Z 5))) "amount") /\
    same_identity stored row /\
    resource_url row = resource_url stored.
Proof.
  apply (poll_reconciles_a_created_payment Sample.cfg Sample.wallet_created
           Sample.wallet_completed_new (Sample.request (VNum (of_Z 5)))
           Sample.empty (fst Sample.paid) (snd Sample.paid) Sample.resource
           Sample.completed_new (SqlText "completed")).
  - vm_compute. reflexivity.
  - vm_compute. reflexivity.
  - discriminate.
  - discriminate.
  - reflexivity.
  - vm_compute. reflexivity.
  - vm_compute. reflexivity.
  - vm_compute. reflexivity.
Defined.

(** X23. A webhook settles the payment that was created: when the
    notification names the [localId] that [POST /create-payment] drew and
    its status and resource URL are each a text, a number or null, the row
    that request stored gets that status and that resource URL, as the TEXT
    columns keep them, while its key, its amount, its currency, its payee
    and its creation time are as the creation left them. *)
Theorem webhook_settles_a_created_payment
    (cfg : config) (w : world) (b : value) (s : state)
    (r : response) (s1 : state) (payload : value) (st url : sql) :
  createPayment cfg w b s = (r, s1) ->
  succeeded r = true ->
  randomUUID_1 w <> EmptyString ->
  webhook_localId payload = VStr (randomUUID_1 w) ->
  scalar (webhook_newStatus payload) = Some st ->
  scalar (webhook_resource_url payload) = Some url ->
  exists (stored row : payment) (t : table),
    payments s1 = (payments s ++ [stored])%list /\
    payments (snd (applyWebhook payload s1)) = (t ++ [row])%list /\
    List.length t = List.length (payments s) /\
    VStr (id row) = response_field r "localDbId" /\
    VStr (local_id row) = response_field r "localId" /\
    status row = text_affinity st /\
    resource_url row = text_affinity url /\
    amount row = ToNumber (prop b "amount") /\
    same_identity stored row.
Proof.
  intros H Hs Hne Hl Hb Hu.
  destruct (createPayment_success cfg w b s r s1 H Hs)
    as (pl & p & op0 & vals & _ & _ & _ & _ & _ & _ & _ & _ & _
        & -> & ->).
  rewrite applyWebhook_equation. cbn [snd payments].
  match goal with
  | |- context [webhook_rewrite payload ?t] =>
      destruct (webhook_rewrite_named payload (randomUUID_1 w) st url t
                  Hl Hne Hb Hu)
        as (json & _ & _ & ->)
  end.
  rewrite map_last_row.
  cbn [local_id new_row inserted_row]. rewrite String.eqb_refl.
  eexists _, _, _. split; [reflexivity |]. split; [reflexivity |].
  split; [apply length_map |].
  repeat split.
Qed.

Lemma webhook_settles_a_created_payment_witness :
  exists (stored row : payment) (t : table),
    payments (snd Sample.paid_accepted)
    = (payments Sample.empty ++ [stored])%list /\
    payments (snd (applyWebhook Sample.webhook_completed_new
                     (snd Sample.paid_accepted)))
    = (t ++ [row])%list /\
    List.length t = List.length (payments Sample.empty) /\
    VStr (id row) = response_field (fst Sample.paid_accepted) "localDbId" /\
    VStr (local_id row) = response_field (fst Sample.paid_accepted) "localId" /\
    status row = text_affinity (SqlText "completed") /\
    resource_url row
    = text_affinity
        (SqlText "https://wallet.example/merchant/incoming-payments/abc") /\
    amount row = ToNumber (prop (Sample.request (VNum (of_Z 5))) "amount") /\
    same_identity stored row.
Proof.
  apply (webhook_settles_a_created_payment Sample.cfg Sample.wallet_accepted
           (Sample.request (VNum (of_Z 5))) Sample.empty
           (fst Sample.paid_accepted) (snd Sample.paid_accepted)
           Sample.webhook_completed_new (SqlText "completed")
           (SqlText "https://wallet.example/merchant/incoming-payments/abc")).
  - vm_compute. reflexivity.
  - vm_compute. reflexivity.
  - discriminate.
  - vm_compute. reflexivity.
  - vm_compute. reflexivity.
  - vm_compute. reflexivity.
Defined.

(** *** Outbound calls *)

(** X24. A request makes at most one outbound call, and every call carries the
    configured API key. The call of [POST /create-payment] is a POST to the
    address the request names as its payee; the call of [GET /status/*] is
    a GET of the URL made from the path. *)
Theorem calls_carry_the_api_key
    (cfg : config) (w : world) (b : value) (raw : string) (s : state) :
  (sent (snd (createPayment cfg w b s)) = sent s \/
   exists (o : outbound) (p : string),
     sent (snd (createPayment cfg w b s)) = (sent s ++ [o])%list /\
     prop b "payee" = VStr p /\
     out_url o = target_url p /\
     out_method o = "POST" /\
     authorised cfg o) /\
  (sent (snd (pollStatus cfg w raw s)) = sent s \/
   exists o : outbound,
     sent (snd (pollStatus cfg w raw s)) = (sent s ++ [o])%list /\
     out_url o = poll_url cfg raw /\
     out_method o = "GET" /\
     authorised cfg o).
Proof.
  split.
  - rewrite createPayment_equation. unfold create_outcome.
    destruct (nullish b); [left; reflexivity |].
    destruct (negb (truthy (prop b "amount"))
              || negb (truthy (prop b "payee")));
      [left; reflexivity |].
    destruct (ToPrimitive_throws (prop b "amount")); [left; reflexivity |].
    destruct (isNaN (ToNumber (prop b "amount"))
              || le (ToNumber (prop b "amount")) pos_zero);
      [left; reflexivity |].
    destruct (request_payload w b) as [payload |]; [| left; reflexivity].
    destruct (prop b "payee") as [| | | | p | |]; try (left; reflexivity).
    right.
    destruct (outcome_after_call_cases cfg w b p payload s) as [Hsent _].
    exists (creation_call cfg (target_url p) payload), p.
    split; [exact Hsent |]. repeat split.
  - rewrite pollStatus_equation.
    destruct raw as [| c raw']; [left; reflexivity |].
    right. exists (poll_call cfg (String c raw')). cbv zeta.
    destruct (remote w _); repeat split.
Qed.

(** X25. The memo that goes to the wallet is the request's memo when it has one,
    and otherwise a description made of the amount and the currency as the
    request wrote them; it is never empty. *)
Theorem memo_is_never_empty
    (cfg : config) (w : world) (b : value) (s : state)
    (r : response) (s' : state) :
  createPayment cfg w b s = (r, s') ->
  sent s' <> sent s ->
  exists (o : outbound) (payload : value),
    sent s' = (sent s ++ [o])%list /\
    out_body o = Some payload /\
    at_path payload ["metadata"; "memo"]
    = (if truthy (prop b "memo") then prop b "memo"
       else VStr (default_memo b)) /\
    truthy (at_path payload ["metadata"; "memo"]) = true.
Proof.
  intros H Hsent.
  destruct (createPayment_call_made cfg w b s r s' H Hsent)
    as (p & payload & _ & _ & Hpay & _ & ->).
  destruct (request_payload_shape w b payload Hpay) as (memo & Hmemo & Hshape).
  exists (creation_call cfg (target_url p) payload), (VObj payload).
  split; [reflexivity |]. split; [reflexivity |].
  assert (Hm : at_path (VObj payload) ["metadata"; "memo"] = memo).
  { destruct Hshape as [-> | [iso ->]]; reflexivity. }
  rewrite Hm. unfold request_memo in Hmemo.
  destruct (truthy (prop b "memo")) eqn:Ht.
  - injection Hmemo as <-. split; [reflexivity | exact Ht].
  - destruct (ToPrimitive_throws (prop b "amount")
              || ToPrimitive_throws (currency_of b)); [discriminate |].
    injection Hmemo as <-. split; reflexivity.
Qed.

Lemma memo_is_never_empty_witness :
  exists (o : outbound) (payload : value),
    sent (snd Sample.paid_435) = (sent Sample.empty ++ [o])%list /\
    out_body o = Some payload /\
    at_path payload ["metadata"; "memo"]
    = (if truthy (prop (Sample.request (VStr "4.35")) "memo")
       then prop (Sample.request (VStr "4.35")) "memo"
       else VStr (default_memo (Sample.request (VStr "4.35")))) /\
    truthy (at_path payload ["metadata"; "memo"]) = true.
Proof.
  apply (memo_is_never_empty Sample.cfg Sample.wallet_created
           (Sample.request (VStr "4.35")) Sample.empty
           (fst Sample.paid_435) (snd Sample.paid_435)).
  - vm_compute. reflexivity.
  - vm_compute. discriminate.
Defined.

Example memo_of_a_request_without_one :
  default_memo (Sample.request (VStr "4.35"))
  = "Pago por servicio (4.35 MXN)".
Proof. vm_compute. reflexivity. Qed.

(** *** Requests that are refused *)

(** X26. A request that fails validation (amount missing, payee missing,
    amount not numeric, or amount <= 0) has no effect: no row is inserted
    and no outbound call is made. It is answered 400 with [success: false]
    and one of the two validation messages, except when amount and payee
    are both truthy and the amount cannot be converted to a number at all:
    then [Number(amount)] throws and the answer is 500 with the text of
    the TypeError. *)
Theorem validation_failure_has_no_effect
    (cfg : config) (w : world) (b : value) (s : state) :
  parsed_body b ->
  fails_validation b ->
  payments (snd (createPayment cfg w b s)) = payments s /\
  sent (snd (createPayment cfg w b s)) = sent s /\
  succeeded (fst (createPayment cfg w b s)) = false /\
  (truthy (prop b "amount") && truthy (prop b "payee")
   && ToPrimitive_throws (prop b "amount") = true ->
   fst (createPayment cfg w b s)
   = failure 500 "TypeError: Cannot convert object to primitive value") /\
  (truthy (prop b "amount") && truthy (prop b "payee")
   && ToPrimitive_throws (prop b "amount") = false ->
   exists msg : string,
     (msg = "amount and payee required" \/ msg = "invalid amount") /\
     fst (createPayment cfg w b s) = failure 400 msg).
Proof.
  intros Hb Hf.
  destruct (truthy (prop b "amount")) eqn:Ha.
  - destruct (truthy (prop b "payee")) eqn:Hp.
    + destruct (ToPrimitive_throws (prop b "amount")) eqn:Hc.
      * rewrite (conversion_failure cfg w b s Hb Ha Hp Hc).
        repeat split; discriminate.
      * assert (Hn : isNaN (ToNumber (prop b "amount"))
                     || le (ToNumber (prop b "amount")) pos_zero = true).
        { destruct Hf as [H | [H | [H | [_ H]]]].
          - rewrite H in Ha. discriminate.
          - rewrite H in Hp. discriminate.
          - unfold not_numeric in H. rewrite Hc in H. cbn [orb] in H.
            rewrite H. reflexivity.
          - rewrite H. apply orb_true_r. }
        rewrite (numeric_test cfg w b s Hb Ha Hp Hc Hn).
        repeat split; try discriminate.
        intros _. exists "invalid amount". auto.
    + rewrite (presence_test cfg w b s Hb (or_intror Hp)).
      repeat split; try discriminate.
      intros _. exists "amount and payee required". auto.
  - rewrite (presence_test cfg w b s Hb (or_introl Ha)).
    repeat split; try discriminate.
    intros _. exists "amount and payee required". auto.
Qed.

Lemma validation_failure_has_no_effect_witness :
  payments (snd Sample.refused_negative) = payments Sample.one_payment /\
  sent (snd Sample.refused_negative) = sent Sample.one_payment /\
  succeeded (fst Sample.refused_negative) = false /\
  (truthy (prop (Sample.request (VStr "-3")) "amount")
   && truthy (prop (Sample.request (VStr "-3")) "payee")
   && ToPrimitive_throws (prop (Sample.request (VStr "-3")) "amount") = true ->
   fst Sample.refused_negative
   = failure 500 "TypeError: Cannot convert object to primitive value") /\
  (truthy (prop (Sample.request (VStr "-3")) "amount")
   && truthy (prop (Sample.request (VStr "-3")) "payee")
   && ToPrimitive_throws (prop (Sample.request (VStr "-3")) "amount") = false ->
   exists msg : string,
     (msg = "amount and payee required" \/ msg = "invalid amount") /\
     fst Sample.refused_negative = failure 400 msg).
Proof.
  apply (validation_failure_has_no_effect Sample.cfg Sample.wallet_created
           (Sample.request (VStr "-3")) Sample.one_payment).
  - reflexivity.
  - right. right. right. split; vm_compute; reflexivity.
Defined.
